(** * Zephyr integration layer: record model, step assembly and error taxonomy

    A shallow embedding of the Python sources
      - [exceptions.py]
      - [models/zephyr/testcase.py], [models/zephyr/test_step.py]
      - [zephyr/auth.py], [zephyr/client.py], [zephyr/testcase.py],
        [zephyr/testresult.py]
      - [servers/zephyr.py] (the search envelope)
    together with the properties the specification states about them.

    Conventions.  Python [str] is [string] (a byte string; the only
    case-folding the code performs is compared against ASCII needles, so ASCII
    folding is exact for it).  Python [int] is [Z].  A decoded JSON body is a
    [json] value; a Python [dict] is an association list in insertion order,
    each key bound once.
    JSON numbers are restricted to integers: no field the code reads is
    declared as a float.  A call that may raise returns [py A]; code that
    talks to the remote API runs in the monad [M], which threads the list of
    requests sent so far. *)

From Stdlib Require Import String Ascii List ZArith Lia Bool.
Import ListNotations.
Open Scope string_scope.
Open Scope Z_scope.

(** ** JSON values and the Python operations applied to them *)

#[local] Set Warnings "-register-all".

Inductive json : Type :=
| JNull
| JBool (b : bool)
| JInt (z : Z)
| JString (s : string)
| JArray (items : list json)
| JObject (fields : list (string * json)).

Definition dict := list (string * json).

(** [d.get(k)] on a dict: the value bound to [k], if any. *)
Fixpoint dict_get (d : dict) (k : string) : option json :=
  match d with
  | [] => None
  | (k', v) :: rest => if String.eqb k' k then Some v else dict_get rest k
  end.

(** [d[k] = v]: overwrite in place when [k] is bound, append otherwise. *)
Fixpoint dict_set (d : dict) (k : string) (v : json) : dict :=
  match d with
  | [] => [(k, v)]
  | (k', v') :: rest =>
      if String.eqb k' k then (k', v) :: rest else (k', v') :: dict_set rest k v
  end.

Definition dict_keys (d : dict) : list string := map fst d.

(** Truth value of an object in a condition ([if x:], [x or y]). *)
Definition truthy (v : json) : bool :=
  match v with
  | JNull => false
  | JBool b => b
  | JInt z => negb (z =? 0)
  | JString s => negb (String.eqb s "")
  | JArray l => match l with [] => false | _ => true end
  | JObject d => match d with [] => false | _ => true end
  end.

Definition str_truthy (s : string) : bool := negb (String.eqb s "").

(** [v == s] for a string literal [s]. *)
Definition eq_str (v : json) (s : string) : bool :=
  match v with JString s' => String.eqb s' s | _ => false end.

(** [type(v).__name__], as it appears in the interpreter's error texts. *)
Definition type_name (v : json) : string :=
  match v with
  | JNull => "NoneType"
  | JBool _ => "bool"
  | JInt _ => "int"
  | JString _ => "str"
  | JArray _ => "list"
  | JObject _ => "dict"
  end.

(** ASCII case folding, for [str(e).lower()]. *)
Definition lower_ascii (c : ascii) : ascii :=
  let n := nat_of_ascii c in
  if andb (Nat.leb 65 n) (Nat.leb n 90) then ascii_of_nat (n + 32) else c.

Fixpoint lower (s : string) : string :=
  match s with
  | EmptyString => EmptyString
  | String c rest => String (lower_ascii c) (lower rest)
  end.

(** [needle in hay]. *)
Fixpoint contains (needle hay : string) : bool :=
  match hay with
  | EmptyString => String.prefix needle EmptyString
  | String _ rest => orb (String.prefix needle hay) (contains needle rest)
  end.

(** ** exceptions.py *)

Inductive exn_class : Type :=
| MCPAtlassianAuthenticationError   (* class ...(Exception) *)
| MCPAtlassianError                 (* class ...(Exception) *)
| MCPAtlassianNotFoundError         (* class ...(MCPAtlassianError) *)
| HTTPStatusError                   (* httpx, from raise_for_status *)
| JSONDecodeError                   (* response.json() *)
| AttributeError
| TypeError
| ValidationError.                  (* the model constructor *)

Record exn : Type := mkExn { exn_cls : exn_class; str : string }.

(** [isinstance(e, MCPAtlassianError)]: the class itself or its subclass. *)
Definition isinstance_MCPAtlassianError (e : exn) : bool :=
  match exn_cls e with
  | MCPAtlassianError | MCPAtlassianNotFoundError => true
  | _ => false
  end.

Definition isinstance_MCPAtlassianNotFoundError (e : exn) : bool :=
  match exn_cls e with
  | MCPAtlassianNotFoundError => true
  | _ => false
  end.

Inductive py (A : Type) : Type :=
| Return (a : A)
| Raise (e : exn).
Arguments Return {A} a.
Arguments Raise {A} e.

Definition py_bind {A B} (c : py A) (k : A -> py B) : py B :=
  match c with
  | Return a => k a
  | Raise e => Raise e
  end.

Declare Scope py_scope.
Delimit Scope py_scope with py.
Notation "x <- c ;; k" := (py_bind c (fun x => k))
  (at level 61, c at next level, right associativity) : py_scope.

(** [d.get(k, default)] on a dict. *)
Definition getd (d : dict) (k : string) (default : json) : json :=
  match dict_get d k with Some x => x | None => default end.

(** [v.get(k, default)]: only a dict has the method. *)
Definition py_get (v : json) (k : string) (default : json) : py json :=
  match v with
  | JObject d => Return (getd d k default)
  | _ =>
      Raise (mkExn AttributeError
               ("'" ++ type_name v ++ "' object has no attribute 'get'"))
  end.

Fixpoint chars (s : string) : list json :=
  match s with
  | EmptyString => []
  | String c rest => JString (String c EmptyString) :: chars rest
  end.

(** The items a [for] loop draws from a value. *)
Definition py_iter (v : json) : py (list json) :=
  match v with
  | JArray l => Return l
  | JObject d => Return (map JString (dict_keys d))
  | JString s => Return (chars s)
  | _ =>
      Raise (mkExn TypeError ("'" ++ type_name v ++ "' object is not iterable"))
  end.

(** ** What the sources import from outside the tree

    [mcp_atlassian.models.base] ([ApiModel], [TimestampMixin]) and [httpx]
    are not part of the tree.  The texts they produce and the timestamp
    formatter are taken as parameters. *)

Record Library : Type := {
  (* TimestampMixin.format_timestamp *)
  format_timestamp : string -> string;
  (* str() of the error raise_for_status() raises for a status code *)
  status_error_text : Z -> string;
  (* str() of the error the model constructor raises: model name, arguments *)
  validation_error_text : string -> dict -> string;
  (* what the model constructor makes of a value that is not an integer and
     is given for an integer field: the integer it converts it to, if any *)
  coerce_int : json -> option Z
}.

(** Modelled from the spec: [mcp_atlassian.models.constants.EMPTY_STRING] is
    not in the tree; the record contract supplies the "empty string for
    required strings". *)
Definition EMPTY_STRING : string := "".

(** Modelled from the spec: the [ApiModel] constructor is not in the tree.
    The records are typed; a constructor argument is accepted when it has the
    type the class body declares for the field.  For an integer field the
    constructor may also convert a value of another type (a boolean, a string
    of digits); which ones it converts, and to what, is the library's
    [coerce_int].  Other values are rejected. *)
Definition as_str (v : json) : option string :=
  match v with JString s => Some s | _ => None end.

Definition as_int (L : Library) (v : json) : option Z :=
  match v with JInt z => Some z | _ => coerce_int L v end.

Definition as_dict (v : json) : option dict :=
  match v with JObject d => Some d | _ => None end.

Definition as_optional {A} (f : json -> option A) (v : json) : option (option A) :=
  match v with
  | JNull => Some None
  | _ => option_map Some (f v)
  end.

Fixpoint as_list_str (l : list json) : option (list string) :=
  match l with
  | [] => Some []
  | x :: rest =>
      match as_str x, as_list_str rest with
      | Some s, Some ss => Some (s :: ss)
      | _, _ => None
      end
  end.

Definition as_str_list (v : json) : option (list string) :=
  match v with JArray l => as_list_str l | _ => None end.

Fixpoint as_list_dict (l : list json) : option (list dict) :=
  match l with
  | [] => Some []
  | x :: rest =>
      match as_dict x, as_list_dict rest with
      | Some d, Some ds => Some (d :: ds)
      | _, _ => None
      end
  end.

Definition as_dict_list (v : json) : option (list dict) :=
  match v with JArray l => as_list_dict l | _ => None end.

Definition opt_bind {A B} (o : option A) (k : A -> option B) : option B :=
  match o with Some a => k a | None => None end.

Declare Scope opt_scope.
Delimit Scope opt_scope with opt.
Notation "x <~ c ;; k" := (opt_bind c (fun x => k))
  (at level 61, c at next level, right associativity) : opt_scope.

(** A stored field read back as a Python value. *)
Definition of_opt_str (o : option string) : json :=
  match o with Some s => JString s | None => JNull end.

Definition of_opt_int (o : option Z) : json :=
  match o with Some z => JInt z | None => JNull end.

Definition of_opt_dict (o : option dict) : json :=
  match o with Some d => JObject d | None => JNull end.

(** [v is not None]. *)
Definition is_not_None (v : json) : bool :=
  match v with JNull => false | _ => true end.

(** ** models/zephyr/testcase.py *)

Module ZephyrTestCase.

Record t : Type := mk {
  key : string;
  name : string;
  project_key : string;
  status : string;
  priority : string;
  component : option string;
  owner : option string;
  estimated_time : option Z;
  folder : option string;
  labels : list string;
  objective : option string;
  precondition : option string;
  test_script : option dict;
  parameters : option dict;
  custom_fields : dict;
  issue_links : list string;
  created_on : string;
  last_modified_on : string;
  created_by : option string;
  last_modified_by : option string
}.

(** The class defaults of the optional fields. *)
Definition default : t :=
  mk EMPTY_STRING EMPTY_STRING EMPTY_STRING EMPTY_STRING EMPTY_STRING
     None None None None [] None None None None [] []
     EMPTY_STRING EMPTY_STRING None None.

Section WithLibrary.
Context (L : Library).

(** Field validation of [cls(key=..., ..., last_modified_by=...)]. *)
Definition validate
  (key_ name_ project_key_ status_ priority_ component_ owner_ estimated_time_
   folder_ labels_ objective_ precondition_ test_script_ parameters_
   custom_fields_ issue_links_ created_on_ last_modified_on_ created_by_
   last_modified_by_ : json) : option t :=
  (a1 <~ as_str key_ ;;
   a2 <~ as_str name_ ;;
   a3 <~ as_str project_key_ ;;
   a4 <~ as_str status_ ;;
   a5 <~ as_str priority_ ;;
   a6 <~ as_optional as_str component_ ;;
   a7 <~ as_optional as_str owner_ ;;
   a8 <~ as_optional (as_int L) estimated_time_ ;;
   a9 <~ as_optional as_str folder_ ;;
   a10 <~ as_str_list labels_ ;;
   a11 <~ as_optional as_str objective_ ;;
   a12 <~ as_optional as_str precondition_ ;;
   a13 <~ as_optional as_dict test_script_ ;;
   a14 <~ as_optional as_dict parameters_ ;;
   a15 <~ as_dict custom_fields_ ;;
   a16 <~ as_str_list issue_links_ ;;
   a17 <~ as_str created_on_ ;;
   a18 <~ as_str last_modified_on_ ;;
   a19 <~ as_optional as_str created_by_ ;;
   a20 <~ as_optional as_str last_modified_by_ ;;
   Some (mk a1 a2 a3 a4 a5 a6 a7 a8 a9 a10 a11 a12 a13 a14 a15 a16 a17 a18
            a19 a20))%opt.

Definition cls
  (key_ name_ project_key_ status_ priority_ component_ owner_ estimated_time_
   folder_ labels_ objective_ precondition_ test_script_ parameters_
   custom_fields_ issue_links_ created_on_ last_modified_on_ created_by_
   last_modified_by_ : json) : py t :=
  match validate key_ name_ project_key_ status_ priority_ component_ owner_
          estimated_time_ folder_ labels_ objective_ precondition_ test_script_
          parameters_ custom_fields_ issue_links_ created_on_ last_modified_on_
          created_by_ last_modified_by_ with
  | Some r => Return r
  | None =>
      Raise (mkExn ValidationError
        (validation_error_text L "ZephyrTestCase"
           [("key", key_); ("name", name_); ("project_key", project_key_);
            ("status", status_); ("priority", priority_);
            ("component", component_); ("owner", owner_);
            ("estimated_time", estimated_time_); ("folder", folder_);
            ("labels", labels_); ("objective", objective_);
            ("precondition", precondition_); ("test_script", test_script_);
            ("parameters", parameters_); ("custom_fields", custom_fields_);
            ("issue_links", issue_links_); ("created_on", created_on_);
            ("last_modified_on", last_modified_on_);
            ("created_by", created_by_);
            ("last_modified_by", last_modified_by_)]))
  end.

Definition from_api_response (data : json) : py t :=
  (key_ <- py_get data "key" (JString EMPTY_STRING) ;;
   name_ <- py_get data "name" (JString EMPTY_STRING) ;;
   project_key_ <- py_get data "projectKey" (JString EMPTY_STRING) ;;
   status_ <- py_get data "status" (JString EMPTY_STRING) ;;
   priority_ <- py_get data "priority" (JString EMPTY_STRING) ;;
   component_ <- py_get data "component" JNull ;;
   owner_ <- py_get data "owner" JNull ;;
   estimated_time_ <- py_get data "estimatedTime" JNull ;;
   folder_ <- py_get data "folder" JNull ;;
   labels_ <- py_get data "labels" (JArray []) ;;
   objective_ <- py_get data "objective" JNull ;;
   precondition_ <- py_get data "precondition" JNull ;;
   test_script_ <- py_get data "testScript" JNull ;;
   parameters_ <- py_get data "parameters" JNull ;;
   custom_fields_ <- py_get data "customFields" (JObject []) ;;
   issue_links_ <- py_get data "issueLinks" (JArray []) ;;
   created_on_ <- py_get data "createdOn" (JString EMPTY_STRING) ;;
   last_modified_on_ <- py_get data "lastModifiedOn" (JString EMPTY_STRING) ;;
   created_by_ <- py_get data "createdBy" JNull ;;
   last_modified_by_ <- py_get data "lastModifiedBy" JNull ;;
   cls key_ name_ project_key_ status_ priority_ component_ owner_
       estimated_time_ folder_ labels_ objective_ precondition_ test_script_
       parameters_ custom_fields_ issue_links_ created_on_ last_modified_on_
       created_by_ last_modified_by_)%py.

Definition to_simplified_dict (self : t) : dict :=
  let result :=
    [ ("key", JString (key self));
      ("name", JString (name self));
      ("project_key", JString (project_key self));
      ("status", JString (status self));
      ("priority", JString (priority self));
      ("folder", of_opt_str (folder self));
      ("labels", JArray (map JString (labels self)));
      ("created_on", JString (format_timestamp L (created_on self)));
      ("last_modified_on", JString (format_timestamp L (last_modified_on self))) ] in
  (* Add optional fields if present *)
  let result :=
    if truthy (of_opt_str (component self))
    then dict_set result "component" (of_opt_str (component self)) else result in
  let result :=
    if truthy (of_opt_str (owner self))
    then dict_set result "owner" (of_opt_str (owner self)) else result in
  let result :=
    if is_not_None (of_opt_int (estimated_time self))
    then dict_set result "estimated_time" (of_opt_int (estimated_time self))
    else result in
  let result :=
    if truthy (of_opt_str (objective self))
    then dict_set result "objective" (of_opt_str (objective self)) else result in
  let result :=
    if truthy (of_opt_str (precondition self))
    then dict_set result "precondition" (of_opt_str (precondition self))
    else result in
  let result :=
    if truthy (of_opt_dict (test_script self))
    then dict_set result "test_script" (of_opt_dict (test_script self))
    else result in
  let result :=
    if truthy (of_opt_dict (parameters self))
    then dict_set result "parameters" (of_opt_dict (parameters self))
    else result in
  let result :=
    if truthy (JObject (custom_fields self))
    then dict_set result "custom_fields" (JObject (custom_fields self))
    else result in
  let result :=
    if truthy (JArray (map JString (issue_links self)))
    then dict_set result "issue_links" (JArray (map JString (issue_links self)))
    else result in
  let result :=
    if truthy (of_opt_str (created_by self))
    then dict_set result "created_by" (of_opt_str (created_by self)) else result in
  let result :=
    if truthy (of_opt_str (last_modified_by self))
    then dict_set result "last_modified_by" (of_opt_str (last_modified_by self))
    else result in
  result.

End WithLibrary.

End ZephyrTestCase.

(** ** models/zephyr/test_step.py *)

Module TestStep.

Record t : Type := mk {
  order_id : Z;
  step : string;
  data : string;
  result : string;
  step_id : option Z
}.

Section WithLibrary.
Context (L : Library).

Definition validate (order_id_ step_ data_ result_ step_id_ : json) : option t :=
  (a1 <~ as_int L order_id_ ;;
   a2 <~ as_str step_ ;;
   a3 <~ as_str data_ ;;
   a4 <~ as_str result_ ;;
   a5 <~ as_optional (as_int L) step_id_ ;;
   Some (mk a1 a2 a3 a4 a5))%opt.

Definition cls (order_id_ step_ data_ result_ step_id_ : json) : py t :=
  match validate order_id_ step_ data_ result_ step_id_ with
  | Some r => Return r
  | None =>
      Raise (mkExn ValidationError
        (validation_error_text L "TestStep"
           [("order_id", order_id_); ("step", step_); ("data", data_);
            ("result", result_); ("step_id", step_id_)]))
  end.

Definition from_api_response (data : json) : py t :=
  (order_id_ <- py_get data "orderId" (JInt 0) ;;
   step_ <- py_get data "step" (JString "") ;;
   data_ <- py_get data "data" (JString "") ;;
   result_ <- py_get data "result" (JString "") ;;
   step_id_ <- py_get data "id" JNull ;;
   cls order_id_ step_ data_ result_ step_id_)%py.

End WithLibrary.

Definition to_simplified_dict (self : t) : dict :=
  let result_ :=
    [ ("order_id", JInt (order_id self));
      ("step", JString (step self));
      ("data", JString (data self));
      ("result", JString (result self)) ] in
  if is_not_None (of_opt_int (step_id self))
  then dict_set result_ "step_id" (of_opt_int (step_id self))
  else result_.

End TestStep.

Module TestStepRequest.

Record t : Type := mk {
  step : string;
  data : option string;
  result : option string
}.

Section WithLibrary.
Context (L : Library).

Definition validate (step_ data_ result_ : json) : option t :=
  (a1 <~ as_str step_ ;;
   a2 <~ as_optional as_str data_ ;;
   a3 <~ as_optional as_str result_ ;;
   Some (mk a1 a2 a3))%opt.

Definition cls (step_ data_ result_ : json) : py t :=
  match validate step_ data_ result_ with
  | Some r => Return r
  | None =>
      Raise (mkExn ValidationError
        (validation_error_text L "TestStepRequest"
           [("step", step_); ("data", data_); ("result", result_)]))
  end.

Definition from_api_response (data : json) : py t :=
  (step_ <- py_get data "step" (JString "") ;;
   data_ <- py_get data "data" JNull ;;
   result_ <- py_get data "result" JNull ;;
   cls step_ data_ result_)%py.

End WithLibrary.

Definition to_simplified_dict (self : t) : dict :=
  let result_ := [ ("step", JString (step self)) ] in
  let result_ :=
    if is_not_None (of_opt_str (data self))
    then dict_set result_ "data" (of_opt_str (data self)) else result_ in
  let result_ :=
    if is_not_None (of_opt_str (result self))
    then dict_set result_ "result" (of_opt_str (result self)) else result_ in
  result_.

End TestStepRequest.

Module ZephyrTestSteps.

Record t : Type := mk {
  issue_id : string;
  project_id : string;
  steps : list TestStep.t
}.

Section WithLibrary.
Context (L : Library).

(** The loop over [stepBeanCollection]: a step that fails to build is
    skipped. *)
Fixpoint collect (step_data : list json) : list TestStep.t :=
  match step_data with
  | [] => []
  | step_info :: rest =>
      match TestStep.from_api_response L step_info with
      | Return step => step :: collect rest
      | Raise _ => collect rest
      end
  end.

(** [kwargs.get(name, "")] for a keyword argument that may be missing. *)
Definition kwarg (value : option string) : string :=
  match value with Some s => s | None => "" end.

Definition from_api_response (data : json) (issue_id project_id : option string)
  : py t :=
  (let issue_id_ := kwarg issue_id in
   let project_id_ := kwarg project_id in
   (* Extract steps from stepBeanCollection *)
   step_data <- py_get data "stepBeanCollection" (JArray []) ;;
   items <- py_iter step_data ;;
   Return (mk issue_id_ project_id_ (collect items)))%py.

Definition from_zephyr_response (data : json) (issue_id project_id : string) : py t :=
  from_api_response data (Some issue_id) (Some project_id).

End WithLibrary.

Definition to_simplified_dict (self : t) : dict :=
  [ ("issue_id", JString (issue_id self));
    ("project_id", JString (project_id self));
    ("total_steps", JInt (Z.of_nat (length (steps self))));
    ("steps", JArray (map (fun st => JObject (TestStep.to_simplified_dict st))
                          (steps self))) ].

End ZephyrTestSteps.

(** ** models/zephyr/testresult.py *)

Module ZephyrTestResult.

Record t : Type := mk {
  id : option Z;
  test_case_key : string;
  project_key : string;
  status : string;
  environment : option string;
  executed_by : option string;
  actual_start_date : option string;
  actual_end_date : option string;
  comment : option string;
  test_run_key : option string;
  custom_fields : dict;
  steps : list dict;
  attachments : list dict;
  created_on : string;
  last_modified_on : string
}.

Section WithLibrary.
Context (L : Library).

Definition validate
  (id_ test_case_key_ project_key_ status_ environment_ executed_by_
   actual_start_date_ actual_end_date_ comment_ test_run_key_ custom_fields_
   steps_ attachments_ created_on_ last_modified_on_ : json) : option t :=
  (a1 <~ as_optional (as_int L) id_ ;;
   a2 <~ as_str test_case_key_ ;;
   a3 <~ as_str project_key_ ;;
   a4 <~ as_str status_ ;;
   a5 <~ as_optional as_str environment_ ;;
   a6 <~ as_optional as_str executed_by_ ;;
   a7 <~ as_optional as_str actual_start_date_ ;;
   a8 <~ as_optional as_str actual_end_date_ ;;
   a9 <~ as_optional as_str comment_ ;;
   a10 <~ as_optional as_str test_run_key_ ;;
   a11 <~ as_dict custom_fields_ ;;
   a12 <~ as_dict_list steps_ ;;
   a13 <~ as_dict_list attachments_ ;;
   a14 <~ as_str created_on_ ;;
   a15 <~ as_str last_modified_on_ ;;
   Some (mk a1 a2 a3 a4 a5 a6 a7 a8 a9 a10 a11 a12 a13 a14 a15))%opt.

Definition cls
  (id_ test_case_key_ project_key_ status_ environment_ executed_by_
   actual_start_date_ actual_end_date_ comment_ test_run_key_ custom_fields_
   steps_ attachments_ created_on_ last_modified_on_ : json) : py t :=
  match validate id_ test_case_key_ project_key_ status_ environment_
          executed_by_ actual_start_date_ actual_end_date_ comment_
          test_run_key_ custom_fields_ steps_ attachments_ created_on_
          last_modified_on_ with
  | Some r => Return r
  | None =>
      Raise (mkExn ValidationError
        (validation_error_text L "ZephyrTestResult"
           [("id", id_); ("test_case_key", test_case_key_);
            ("project_key", project_key_); ("status", status_);
            ("environment", environment_); ("executed_by", executed_by_);
            ("actual_start_date", actual_start_date_);
            ("actual_end_date", actual_end_date_); ("comment", comment_);
            ("test_run_key", test_run_key_); ("custom_fields", custom_fields_);
            ("steps", steps_); ("attachments", attachments_);
            ("created_on", created_on_);
            ("last_modified_on", last_modified_on_)]))
  end.

Definition from_api_response (data : json) : py t :=
  (id_ <- py_get data "id" JNull ;;
   test_case_key_ <- py_get data "testCaseKey" (JString EMPTY_STRING) ;;
   project_key_ <- py_get data "projectKey" (JString EMPTY_STRING) ;;
   status_ <- py_get data "status" (JString EMPTY_STRING) ;;
   environment_ <- py_get data "environment" JNull ;;
   executed_by_ <- py_get data "executedBy" JNull ;;
   actual_start_date_ <- py_get data "actualStartDate" JNull ;;
   actual_end_date_ <- py_get data "actualEndDate" JNull ;;
   comment_ <- py_get data "comment" JNull ;;
   test_run_key_ <- py_get data "testRunKey" JNull ;;
   custom_fields_ <- py_get data "customFields" (JObject []) ;;
   steps_ <- py_get data "steps" (JArray []) ;;
   attachments_ <- py_get data "attachments" (JArray []) ;;
   created_on_ <- py_get data "createdOn" (JString EMPTY_STRING) ;;
   last_modified_on_ <- py_get data "lastModifiedOn" (JString EMPTY_STRING) ;;
   cls id_ test_case_key_ project_key_ status_ environment_ executed_by_
       actual_start_date_ actual_end_date_ comment_ test_run_key_
       custom_fields_ steps_ attachments_ created_on_ last_modified_on_)%py.

(** [format_timestamp] applied to a date that passed the [if] before it. *)
Definition formatted (date : option string) : json :=
  match date with
  | Some s => JString (format_timestamp L s)
  | None => JNull
  end.

Definition to_simplified_dict (self : t) : dict :=
  let result :=
    [ ("test_case_key", JString (test_case_key self));
      ("project_key", JString (project_key self));
      ("status", JString (status self));
      ("executed_by", of_opt_str (executed_by self));
      ("steps_count", JInt (Z.of_nat (length (steps self))));
      ("attachments_count", JInt (Z.of_nat (length (attachments self))));
      ("created_on", JString (format_timestamp L (created_on self)));
      ("last_modified_on", JString (format_timestamp L (last_modified_on self))) ] in
  (* Add optional fields if present *)
  let result :=
    if is_not_None (of_opt_int (id self))
    then dict_set result "id" (of_opt_int (id self)) else result in
  let result :=
    if truthy (of_opt_str (environment self))
    then dict_set result "environment" (of_opt_str (environment self))
    else result in
  let result :=
    if truthy (of_opt_str (actual_start_date self))
    then dict_set result "actual_start_date" (formatted (actual_start_date self))
    else result in
  let result :=
    if truthy (of_opt_str (actual_end_date self))
    then dict_set result "actual_end_date" (formatted (actual_end_date self))
    else result in
  let result :=
    if truthy (of_opt_str (comment self))
    then dict_set result "comment" (of_opt_str (comment self)) else result in
  let result :=
    if truthy (of_opt_str (test_run_key self))
    then dict_set result "test_run_key" (of_opt_str (test_run_key self))
    else result in
  let result :=
    if truthy (JObject (custom_fields self))
    then dict_set result "custom_fields" (JObject (custom_fields self))
    else result in
  let result :=
    if truthy (JArray (map JObject (steps self)))
    then dict_set result "steps" (JArray (map JObject (steps self))) else result in
  let result :=
    if truthy (JArray (map JObject (attachments self)))
    then dict_set result "attachments" (JArray (map JObject (attachments self)))
    else result in
  result.

End WithLibrary.

End ZephyrTestResult.

(** ** The transport: requests, responses and the remote side *)

Record Request : Type := mkRequest {
  req_method : string;
  req_url : string;
  req_params : dict;
  req_json : option json;
  req_headers : list (string * string)
}.

(** A response: its status code and what [response.json()] gives, the decoded
    body or the text of the decoding error. *)
Record Response : Type := mkResponse {
  status_code : Z;
  content : string + json
}.

(** What the HTTP client does with a request: it raises (with some text) or
    it hands back a response.  The remote side sees the requests sent before. *)
Inductive Answer : Type :=
| Fails (text : string)
| Replies (r : Response).

Definition Remote := list Request -> Request -> Answer.

Definition M (A : Type) : Type := list Request -> py A * list Request.

Definition ret {A} (a : A) : M A := fun log => (Return a, log).

Definition raise {A} (e : exn) : M A := fun log => (Raise e, log).

Definition lift {A} (c : py A) : M A := fun log => (c, log).

Definition bind {A B} (c : M A) (k : A -> M B) : M B :=
  fun log =>
    match c log with
    | (Return a, log') => k a log'
    | (Raise e, log') => (Raise e, log')
    end.

(** [try: body / except Exception as e: handler e]. *)
Definition try_except {A} (body : M A) (handler : exn -> M A) : M A :=
  fun log =>
    match body log with
    | (Return a, log') => (Return a, log')
    | (Raise e, log') => handler e log'
    end.

Declare Scope M_scope.
Delimit Scope M_scope with M.
Notation "x <- c ;; k" := (bind c (fun x => k))
  (at level 61, c at next level, right associativity) : M_scope.

(** ** zephyr/auth.py and the state of a client *)

Record ZephyrConfig : Type := { api_token : string }.

Record Client : Type := {
  config : ZephyrConfig;
  _http_client : bool;       (* false once [close] has dropped the client *)
  remote : Remote
}.

Definition get_auth_headers (cfg : ZephyrConfig) (method url : string)
  : py (list (string * string)) :=
  if negb (str_truthy (api_token cfg)) then
    Raise (mkExn MCPAtlassianAuthenticationError
             "Zephyr API token is required for authentication")
  else
    Return [ ("Authorization", "Bearer " ++ api_token cfg);
             ("Content-Type", "application/json") ].

(** Modelled from the spec: [httpx.Response.raise_for_status] is not in the
    tree; "any other non-2xx" status is an error. *)
Definition is_success (status : Z) : bool :=
  andb (200 <=? status) (status <? 300).

(** ** zephyr/client.py *)

Module ZephyrClient.

Section WithLibrary.
Context (L : Library).

Definition raise_for_status (response : Response) : py unit :=
  if is_success (status_code response) then Return tt
  else Raise (mkExn HTTPStatusError (status_error_text L (status_code response))).

Definition response_json (response : Response) : py json :=
  match content response with
  | inr body => Return body
  | inl text => Raise (mkExn JSONDecodeError text)
  end.

(** [self.request(method, url, params=..., json=...)].  No caller passes
    [headers], so the headers sent are the authentication headers. *)
Definition request (self : Client) (method url : string) (params : dict)
    (payload : option json) : M Response :=
  fun log =>
    if negb (_http_client self) then
      (Raise (mkExn MCPAtlassianAuthenticationError "HTTP client not initialized"),
       log)
    else
      match get_auth_headers (config self) method url with
      | Raise e => (Raise e, log)
      | Return headers =>
          let rq := mkRequest method url params payload headers in
          match remote self log rq with
          | Replies response => (Return response, (log ++ [rq])%list)
          | Fails text =>
              (Raise (mkExn MCPAtlassianAuthenticationError
                        ("Request failed: " ++ text)),
               (log ++ [rq])%list)
          end
      end.

(** [test_script and test_script.get("type") == kind]. *)
Definition script_has_type (test_script : json) (kind : string) : py bool :=
  if truthy test_script then
    (ty <- py_get test_script "type" JNull ;; Return (eq_str ty kind))%py
  else Return false.

(** The [for i, step_data in enumerate(script_steps)] loop. *)
Fixpoint read_steps (i : Z) (script_steps : list json) : py (list TestStep.t) :=
  match script_steps with
  | [] => Return []
  | step_data :: rest =>
      (description <- py_get step_data "description" (JString "") ;;
       test_data <- py_get step_data "testData" (JString "") ;;
       expected <- py_get step_data "expectedResult" (JString "") ;;
       id_ <- py_get step_data "id" JNull ;;
       step <- TestStep.cls L (JInt (i + 1)) description test_data expected id_ ;;
       steps <- read_steps (i + 1) rest ;;
       Return (step :: steps))%py
  end.

(** Extract steps from test script. *)
Definition extract_steps (test_script : json) : py (list TestStep.t) :=
  (step_by_step <- script_has_type test_script "STEP_BY_STEP" ;;
   if (step_by_step : bool) then
     script_steps <- py_get test_script "steps" (JArray []) ;;
     items <- py_iter script_steps ;;
     read_steps 0 items
   else
     plain_text <- script_has_type test_script "PLAIN_TEXT" ;;
     if (plain_text : bool) then
       (* For plain text scripts, create a single step *)
       text_content <- py_get test_script "text" (JString "") ;;
       if truthy text_content then
         step <- TestStep.cls L (JInt 1) text_content (JString "") (JString "") JNull ;;
         Return [step]
       else Return []
     else Return [])%py.

(** The [except Exception as e] clause shared by the three step methods. *)
Definition reclassify {A} (what : string) (e : exn) : M A :=
  if orb (contains "authentication" (lower (str e))) (contains "401" (str e))
  then raise (mkExn MCPAtlassianAuthenticationError
                ("Authentication failed: " ++ str e))
  else raise (mkExn MCPAtlassianAuthenticationError (what ++ str e)).

Definition get_test_steps (self : Client) (issue_id project_id : string)
  : M ZephyrTestSteps.t :=
  try_except
    (let url := "/rest/atm/1.0/testcase/" ++ issue_id in
     let params := [("fields", JString "key,name,testScript")] in
     response <- request self "GET" url params None ;;
     if status_code response =? 404 then
       (* Return empty test steps *)
       ret (ZephyrTestSteps.mk issue_id project_id [])
     else
       _ <- lift (raise_for_status response) ;;
       data <- lift (response_json response) ;;
       test_script <- lift (py_get data "testScript" (JObject [])) ;;
       steps <- lift (extract_steps test_script) ;;
       ret (ZephyrTestSteps.mk issue_id project_id steps))%M
    (reclassify "Failed to get test steps: ").

(** [x or ""] for an optional string. *)
Definition or_empty (o : option string) : string :=
  match o with
  | Some s => if str_truthy s then s else ""
  | None => ""
  end.

(** One entry of the [script_steps] list sent back. *)
Definition script_step (step : TestStep.t) : json :=
  JObject [ ("description", JString (TestStep.step step));
            ("testData", JString (TestStep.data step));
            ("expectedResult", JString (TestStep.result step)) ].

Definition script_payload (all_steps : list TestStep.t) : json :=
  JObject [ ("testScript",
             JObject [ ("type", JString "STEP_BY_STEP");
                       ("steps", JArray (map script_step all_steps)) ]) ].

(** The tail of both write methods: PUT the payload, check the status. *)
Definition put_script {A} (self : Client) (issue_id : string)
    (all_steps : list TestStep.t) (created : A) : M A :=
  (let payload := script_payload all_steps in
   let url := "/rest/atm/1.0/testcase/" ++ issue_id in
   response <- request self "PUT" url [] (Some payload) ;;
   if status_code response =? 404 then
     raise (mkExn MCPAtlassianAuthenticationError
              ("Test case " ++ issue_id ++ " not found"))
   else
     _ <- lift (raise_for_status response) ;;
     ret created)%M.

Definition add_test_step (self : Client) (issue_id project_id : string)
    (step_request : TestStepRequest.t) : M TestStep.t :=
  try_except
    (current_case <- get_test_steps self issue_id project_id ;;
     let next_order := Z.of_nat (length (ZephyrTestSteps.steps current_case)) + 1 in
     let new_step :=
       TestStep.mk next_order
                   (TestStepRequest.step step_request)
                   (or_empty (TestStepRequest.data step_request))
                   (or_empty (TestStepRequest.result step_request))
                   None in
     let all_steps := (ZephyrTestSteps.steps current_case ++ [new_step])%list in
     put_script self issue_id all_steps new_step)%M
    (reclassify "Failed to add test step: ").

(** The [for i, step_request in enumerate(step_requests)] loop. *)
Fixpoint new_steps_from (next_order i : Z) (step_requests : list TestStepRequest.t)
  : list TestStep.t :=
  match step_requests with
  | [] => []
  | step_request :: rest =>
      TestStep.mk (next_order + i)
                  (TestStepRequest.step step_request)
                  (or_empty (TestStepRequest.data step_request))
                  (or_empty (TestStepRequest.result step_request))
                  None
      :: new_steps_from next_order (i + 1) rest
  end.

Definition add_multiple_test_steps (self : Client) (issue_id project_id : string)
    (step_requests : list TestStepRequest.t) : M (list TestStep.t) :=
  try_except
    (current_case <- get_test_steps self issue_id project_id ;;
     let next_order := Z.of_nat (length (ZephyrTestSteps.steps current_case)) + 1 in
     let new_steps := new_steps_from next_order 0 step_requests in
     let all_steps := (ZephyrTestSteps.steps current_case ++ new_steps)%list in
     put_script self issue_id all_steps new_steps)%M
    (reclassify "Failed to add test steps: ").

End WithLibrary.

(** [close]: the HTTP client, if there is one, is closed and dropped. *)
Definition close (self : Client) : Client :=
  {| config := config self; _http_client := false; remote := remote self |}.

End ZephyrClient.

(** ** zephyr/testcase.py *)

Module ZephyrTestCaseMixin.

Section WithLibrary.
Context (L : Library).

Definition set_if_truthy (params : dict) (k : string) (v : option string) : dict :=
  match v with
  | Some s => if str_truthy s then dict_set params k (JString s) else params
  | None => params
  end.

(** [if isinstance(e, (MCPAtlassianNotFoundError, MCPAtlassianError)): raise],
    then [raise MCPAtlassianError(f"...: {e}") from e]. *)
Definition reraise_or_wrap {A} (context : string) (e : exn) : M A :=
  if orb (isinstance_MCPAtlassianNotFoundError e) (isinstance_MCPAtlassianError e)
  then raise e
  else raise (mkExn MCPAtlassianError (context ++ str e)).

Definition get_testcase (self : Client) (test_case_key : string)
    (fields : option string) : M ZephyrTestCase.t :=
  try_except
    (let params := set_if_truthy [] "fields" fields in
     response <- ZephyrClient.request self "GET" ("/testcase/" ++ test_case_key)
                   params None ;;
     if status_code response =? 404 then
       raise (mkExn MCPAtlassianNotFoundError
                ("Test case " ++ test_case_key ++ " not found"))
     else
       _ <- lift (ZephyrClient.raise_for_status L response) ;;
       body <- lift (ZephyrClient.response_json response) ;;
       lift (ZephyrTestCase.from_api_response L body))%M
    (reraise_or_wrap "Failed to get test case: ").

Definition create_testcase (self : Client) (testcase_data : json) : M json :=
  try_except
    (response <- ZephyrClient.request self "POST" "/testcase" [] (Some testcase_data) ;;
     _ <- lift (ZephyrClient.raise_for_status L response) ;;
     result <- lift (ZephyrClient.response_json response) ;;
     lift (py_get result "key" (JString "")))%M
    (fun e => raise (mkExn MCPAtlassianError ("Failed to create test case: " ++ str e))).

Definition update_testcase (self : Client) (test_case_key : string)
    (testcase_data : json) : M unit :=
  try_except
    (response <- ZephyrClient.request self "PUT" ("/testcase/" ++ test_case_key)
                   [] (Some testcase_data) ;;
     if status_code response =? 404 then
       raise (mkExn MCPAtlassianNotFoundError
                ("Test case " ++ test_case_key ++ " not found"))
     else
       lift (ZephyrClient.raise_for_status L response))%M
    (reraise_or_wrap "Failed to update test case: ").

Definition delete_testcase (self : Client) (test_case_key : string) : M unit :=
  try_except
    (response <- ZephyrClient.request self "DELETE" ("/testcase/" ++ test_case_key)
                   [] None ;;
     if status_code response =? 404 then
       raise (mkExn MCPAtlassianNotFoundError
                ("Test case " ++ test_case_key ++ " not found"))
     else
       lift (ZephyrClient.raise_for_status L response))%M
    (reraise_or_wrap "Failed to delete test case: ").

(** The loop over the search results: an element that fails to parse is
    logged and skipped. *)
Fixpoint parse_each (test_case_data_list : list json) : list ZephyrTestCase.t :=
  match test_case_data_list with
  | [] => []
  | test_case_data :: rest =>
      match ZephyrTestCase.from_api_response L test_case_data with
      | Return test_case => test_case :: parse_each rest
      | Raise _ => parse_each rest
      end
  end.

Definition search_params (query fields : option string) (start_at max_results : Z)
  : dict :=
  let params := set_if_truthy [] "query" query in
  let params := set_if_truthy params "fields" fields in
  let params := if 0 <? start_at then dict_set params "startAt" (JInt start_at)
                else params in
  let params := if negb (max_results =? 200)
                then dict_set params "maxResults" (JInt max_results)
                else params in
  params.

Definition search_testcases (self : Client) (query fields : option string)
    (start_at max_results : Z) : M (list ZephyrTestCase.t) :=
  try_except
    (let params := search_params query fields start_at max_results in
     response <- ZephyrClient.request self "GET" "/testcase/search" params None ;;
     _ <- lift (ZephyrClient.raise_for_status L response) ;;
     result <- lift (ZephyrClient.response_json response) ;;
     test_case_data_list <-
       lift (match result with
             | JArray _ => Return result       (* direct array response *)
             | _ => py_get result "results" (JArray [])   (* wrapped response *)
             end) ;;
     items <- lift (py_iter test_case_data_list) ;;
     ret (parse_each items))%M
    (fun e =>
       if isinstance_MCPAtlassianError e then raise e
       else raise (mkExn MCPAtlassianError ("Failed to search test cases: " ++ str e))).

Definition get_testcase_latest_result (self : Client) (test_case_key : string)
  : M json :=
  try_except
    (response <- ZephyrClient.request self "GET"
                   ("/testcase/" ++ test_case_key ++ "/testresult/latest") [] None ;;
     if status_code response =? 404 then
       raise (mkExn MCPAtlassianNotFoundError
                ("Test case " ++ test_case_key ++ " not found or has no results"))
     else
       _ <- lift (ZephyrClient.raise_for_status L response) ;;
       lift (ZephyrClient.response_json response))%M
    (reraise_or_wrap "Failed to get latest test result: ").

End WithLibrary.

End ZephyrTestCaseMixin.

(** ** zephyr/testresult.py *)

Module ZephyrTestResultMixin.

Section WithLibrary.
Context (L : Library).

Definition create_testresult (self : Client) (testresult_data : json) : M json :=
  try_except
    (response <- ZephyrClient.request self "POST" "/testresult" []
                   (Some testresult_data) ;;
     _ <- lift (ZephyrClient.raise_for_status L response) ;;
     result <- lift (ZephyrClient.response_json response) ;;
     lift (py_get result "id" (JInt 0)))%M
    (fun e => raise (mkExn MCPAtlassianError ("Failed to create test result: " ++ str e))).

Definition get_testcase_latest_result (self : Client) (test_case_key : string)
  : M (option ZephyrTestResult.t) :=
  try_except
    (response <- ZephyrClient.request self "GET"
                   ("/testcase/" ++ test_case_key ++ "/testresult/latest") [] None ;;
     if status_code response =? 404 then ret None
     else
       _ <- lift (ZephyrClient.raise_for_status L response) ;;
       result_data <- lift (ZephyrClient.response_json response) ;;
       test_result <- lift (ZephyrTestResult.from_api_response L result_data) ;;
       ret (Some test_result))%M
    (fun e =>
       if isinstance_MCPAtlassianError e then raise e
       else raise (mkExn MCPAtlassianError
                     ("Failed to get latest test result: " ++ str e))).

(** The loop over the results of a run: an element that fails to parse is
    logged and skipped. *)
Fixpoint parse_each (result_data_list : list json) : list ZephyrTestResult.t :=
  match result_data_list with
  | [] => []
  | result_data :: rest =>
      match ZephyrTestResult.from_api_response L result_data with
      | Return test_result => test_result :: parse_each rest
      | Raise _ => parse_each rest
      end
  end.

Definition get_testrun_results (self : Client) (test_run_key : string)
  : M (list ZephyrTestResult.t) :=
  try_except
    (response <- ZephyrClient.request self "GET"
                   ("/testrun/" ++ test_run_key ++ "/testresults") [] None ;;
     if status_code response =? 404 then
       raise (mkExn MCPAtlassianNotFoundError
                ("Test run " ++ test_run_key ++ " not found"))
     else
       _ <- lift (ZephyrClient.raise_for_status L response) ;;
       result <- lift (ZephyrClient.response_json response) ;;
       result_data_list <-
         lift (match result with
               | JArray _ => Return result
               | _ => py_get result "results" (JArray [])
               end) ;;
       items <- lift (py_iter result_data_list) ;;
       ret (parse_each items))%M
    (ZephyrTestCaseMixin.reraise_or_wrap "Failed to get test run results: ").

(** The query parameters of the run-scoped operations. *)
Definition run_params (environment user_key : option string) : dict :=
  let params := ZephyrTestCaseMixin.set_if_truthy [] "environment" environment in
  let params := ZephyrTestCaseMixin.set_if_truthy params "userKey" user_key in
  params.

Definition create_testrun_result (self : Client) (test_run_key test_case_key : string)
    (testresult_data : json) (environment user_key : option string) : M json :=
  try_except
    (let params := run_params environment user_key in
     response <- ZephyrClient.request self "POST"
                   ("/testrun/" ++ test_run_key ++ "/testcase/" ++ test_case_key
                    ++ "/testresult")
                   params (Some testresult_data) ;;
     _ <- lift (ZephyrClient.raise_for_status L response) ;;
     result <- lift (ZephyrClient.response_json response) ;;
     lift (py_get result "id" (JInt 0)))%M
    (fun e => raise (mkExn MCPAtlassianError ("Failed to create test result: " ++ str e))).

Definition update_testrun_result (self : Client) (test_run_key test_case_key : string)
    (testresult_data : json) (environment user_key : option string) : M json :=
  try_except
    (let params := run_params environment user_key in
     response <- ZephyrClient.request self "PUT"
                   ("/testrun/" ++ test_run_key ++ "/testcase/" ++ test_case_key
                    ++ "/testresult")
                   params (Some testresult_data) ;;
     _ <- lift (ZephyrClient.raise_for_status L response) ;;
     result <- lift (ZephyrClient.response_json response) ;;
     lift (py_get result "id" (JInt 0)))%M
    (fun e => raise (mkExn MCPAtlassianError ("Failed to update test result: " ++ str e))).

Definition create_bulk_testrun_results (self : Client) (test_run_key : string)
    (testresults_data : list json) (environment user_key : option string) : M json :=
  try_except
    (let params := run_params environment user_key in
     response <- ZephyrClient.request self "POST"
                   ("/testrun/" ++ test_run_key ++ "/testresults")
                   params (Some (JArray testresults_data)) ;;
     _ <- lift (ZephyrClient.raise_for_status L response) ;;
     result <- lift (ZephyrClient.response_json response) ;;
     lift (py_get result "ids" (JArray [])))%M
    (fun e =>
       raise (mkExn MCPAtlassianError ("Failed to create bulk test results: " ++ str e))).

End WithLibrary.

End ZephyrTestResultMixin.

(** ** servers/zephyr.py: the envelope of the search tool *)

Module Servers.

Section WithLibrary.
Context (L : Library).

(** The body of the [search_testcases] tool once the client is at hand; the
    value is [response_data], which the tool then serialises. *)
Definition search_testcases (zephyr : Client) (query fields : option string)
    (start_at max_results : Z) : list Request -> dict * list Request :=
  fun log =>
    match ZephyrTestCaseMixin.search_testcases L zephyr query fields start_at
            max_results log with
    | (Return test_cases, log') =>
        let results :=
          map (fun tc => JObject (ZephyrTestCase.to_simplified_dict L tc)) test_cases in
        ([ ("success", JBool true);
           ("test_cases", JArray results);
           ("count", JInt (Z.of_nat (length results))) ], log')
    | (Raise e, log') =>
        ([ ("success", JBool false);
           ("error", JString ("Failed to search test cases: " ++ str e)) ], log')
    end.

(** The body of the [get_testcase] tool once the client is at hand. *)
Definition get_testcase (zephyr : Client) (test_case_key : string)
    (fields : option string) : list Request -> dict * list Request :=
  fun log =>
    match ZephyrTestCaseMixin.get_testcase L zephyr test_case_key fields log with
    | (Return test_case, log') =>
        ([ ("success", JBool true);
           ("test_case", JObject (ZephyrTestCase.to_simplified_dict L test_case)) ],
         log')
    | (Raise e, log') =>
        if isinstance_MCPAtlassianNotFoundError e then
          ([ ("success", JBool false);
             ("error", JString ("Test case not found: " ++ str e)) ], log')
        else
          ([ ("success", JBool false);
             ("error", JString ("Failed to get test case: " ++ str e)) ], log')
    end.

(** The body of the [delete_testcase] tool once the client is at hand. *)
Definition delete_testcase (zephyr : Client) (test_case_key : string)
  : list Request -> dict * list Request :=
  fun log =>
    match ZephyrTestCaseMixin.delete_testcase L zephyr test_case_key log with
    | (Return _, log') =>
        ([ ("success", JBool true);
           ("message", JString ("Test case " ++ test_case_key ++ " deleted")) ],
         log')
    | (Raise e, log') =>
        if isinstance_MCPAtlassianNotFoundError e then
          ([ ("success", JBool false);
             ("error", JString ("Test case not found: " ++ str e)) ], log')
        else
          ([ ("success", JBool false);
             ("error", JString ("Failed to delete test case: " ++ str e)) ], log')
    end.

End WithLibrary.

End Servers.

(** ** Vocabulary of the statements *)

(** A client that can send: the HTTP client is there and a token is set. *)
Definition ready (self : Client) : Prop :=
  _http_client self = true /\ str_truthy (api_token (config self)) = true.

Definition auth_headers (self : Client) : list (string * string) :=
  [ ("Authorization", "Bearer " ++ api_token (config self));
    ("Content-Type", "application/json") ].

(** The request [self.request(method, url, params=..., json=...)] sends. *)
Definition sent (self : Client) (method url : string) (params : dict)
    (payload : option json) : Request :=
  mkRequest method url params payload (auth_headers self).

(** The read and the write of the step assembly. *)
Definition get_steps_request (self : Client) (issue_id : string) : Request :=
  sent self "GET" ("/rest/atm/1.0/testcase/" ++ issue_id)
       [("fields", JString "key,name,testScript")] None.

Definition put_steps_request (self : Client) (issue_id : string)
    (all_steps : list TestStep.t) : Request :=
  sent self "PUT" ("/rest/atm/1.0/testcase/" ++ issue_id) []
       (Some (ZephyrClient.script_payload all_steps)).

(** A step as the remote side gives it back: the id it had is not sent. *)
Definition forget_id (st : TestStep.t) : TestStep.t :=
  TestStep.mk (TestStep.order_id st) (TestStep.step st) (TestStep.data st)
              (TestStep.result st) None.

(** Steps numbered by position, the first one [from + 1]. *)
Definition positional (from : Z) (l : list TestStep.t) : Prop :=
  forall k st, nth_error l k = Some st ->
               TestStep.order_id st = from + 1 + Z.of_nat k.

(** The step a request turns into at position [order]. *)
Definition step_of_request (order : Z) (rq : TestStepRequest.t) : TestStep.t :=
  TestStep.mk order (TestStepRequest.step rq)
              (ZephyrClient.or_empty (TestStepRequest.data rq))
              (ZephyrClient.or_empty (TestStepRequest.result rq)) None.

(** An element of a search response that parses. *)
Definition well_formed (L : Library) (x : json) : bool :=
  match ZephyrTestCase.from_api_response L x with
  | Return _ => true
  | Raise _ => false
  end.

Definition search_request (self : Client) (query fields : option string)
    (start_at max_results : Z) : Request :=
  sent self "GET" "/testcase/search"
       (ZephyrTestCaseMixin.search_params query fields start_at max_results) None.

(** A field of a payload carries a value of its declared type, or is absent. *)
Definition field_ok (d : dict) (k : string) (ok : json -> bool) : bool :=
  match dict_get d k with Some v => ok v | None => true end.

Definition is_str (v : json) : bool :=
  match v with JString _ => true | _ => false end.

Definition is_int (v : json) : bool :=
  match v with JInt _ => true | _ => false end.

Definition is_dict (v : json) : bool :=
  match v with JObject _ => true | _ => false end.

Definition is_str_list (v : json) : bool :=
  match v with JArray l => forallb is_str l | _ => false end.

Definition or_null (ok : json -> bool) (v : json) : bool :=
  match v with JNull => true | _ => ok v end.

Definition valid_testcase_payload (d : dict) : bool :=
  field_ok d "key" is_str && field_ok d "name" is_str
  && field_ok d "projectKey" is_str && field_ok d "status" is_str
  && field_ok d "priority" is_str
  && field_ok d "component" (or_null is_str)
  && field_ok d "owner" (or_null is_str)
  && field_ok d "estimatedTime" (or_null is_int)
  && field_ok d "folder" (or_null is_str)
  && field_ok d "labels" is_str_list
  && field_ok d "objective" (or_null is_str)
  && field_ok d "precondition" (or_null is_str)
  && field_ok d "testScript" (or_null is_dict)
  && field_ok d "parameters" (or_null is_dict)
  && field_ok d "customFields" is_dict
  && field_ok d "issueLinks" is_str_list
  && field_ok d "createdOn" is_str && field_ok d "lastModifiedOn" is_str
  && field_ok d "createdBy" (or_null is_str)
  && field_ok d "lastModifiedBy" (or_null is_str).

Definition valid_step_payload (d : dict) : bool :=
  field_ok d "orderId" is_int && field_ok d "step" is_str
  && field_ok d "data" is_str && field_ok d "result" is_str
  && field_ok d "id" (or_null is_int).

(** The fields [to_simplified_dict] adds under a condition. *)
Inductive guarded_field : Type :=
| Component | Owner | EstimatedTime | Objective | Precondition | TestScript
| Parameters | CustomFields | IssueLinks | CreatedBy | LastModifiedBy.

Definition api_key (f : guarded_field) : string :=
  match f with
  | Component => "component" | Owner => "owner"
  | EstimatedTime => "estimatedTime" | Objective => "objective"
  | Precondition => "precondition" | TestScript => "testScript"
  | Parameters => "parameters" | CustomFields => "customFields"
  | IssueLinks => "issueLinks" | CreatedBy => "createdBy"
  | LastModifiedBy => "lastModifiedBy"
  end.

Definition out_key (f : guarded_field) : string :=
  match f with
  | Component => "component" | Owner => "owner"
  | EstimatedTime => "estimated_time" | Objective => "objective"
  | Precondition => "precondition" | TestScript => "test_script"
  | Parameters => "parameters" | CustomFields => "custom_fields"
  | IssueLinks => "issue_links" | CreatedBy => "created_by"
  | LastModifiedBy => "last_modified_by"
  end.

(** The value a record holds in a guarded field, read back as JSON. *)
Definition stored (f : guarded_field) (r : ZephyrTestCase.t) : json :=
  match f with
  | Component => of_opt_str (ZephyrTestCase.component r)
  | Owner => of_opt_str (ZephyrTestCase.owner r)
  | EstimatedTime => of_opt_int (ZephyrTestCase.estimated_time r)
  | Objective => of_opt_str (ZephyrTestCase.objective r)
  | Precondition => of_opt_str (ZephyrTestCase.precondition r)
  | TestScript => of_opt_dict (ZephyrTestCase.test_script r)
  | Parameters => of_opt_dict (ZephyrTestCase.parameters r)
  | CustomFields => JObject (ZephyrTestCase.custom_fields r)
  | IssueLinks => JArray (map JString (ZephyrTestCase.issue_links r))
  | CreatedBy => of_opt_str (ZephyrTestCase.created_by r)
  | LastModifiedBy => of_opt_str (ZephyrTestCase.last_modified_by r)
  end.

(** The condition under which a guarded field is added. *)
Definition guard (f : guarded_field) (v : json) : bool :=
  match f with
  | EstimatedTime => is_not_None v
  | _ => truthy v
  end.

(** The class default of a guarded field. *)
Definition default_of (f : guarded_field) : json :=
  match f with
  | CustomFields => JObject []
  | IssueLinks => JArray []
  | _ => JNull
  end.

(** An element of a step collection that parses. *)
Definition step_parses (L : Library) (x : json) : bool :=
  match TestStep.from_api_response L x with
  | Return _ => true
  | Raise _ => false
  end.

(** An element of a result list that parses. *)
Definition result_parses (L : Library) (x : json) : bool :=
  match ZephyrTestResult.from_api_response L x with
  | Return _ => true
  | Raise _ => false
  end.

(** The address of the result of a test case within a run. *)
Definition run_result_url (test_run_key test_case_key : string) : string :=
  "/testrun/" ++ test_run_key ++ "/testcase/" ++ test_case_key ++ "/testresult".

(** A client that cannot send. *)
Definition without_token (self : Client) : Prop :=
  _http_client self = true /\ str_truthy (api_token (config self)) = false.

Definition is_dict_list (v : json) : bool :=
  match v with JArray l => forallb is_dict l | _ => false end.

Definition valid_result_payload (d : dict) : bool :=
  field_ok d "id" (or_null is_int)
  && field_ok d "testCaseKey" is_str && field_ok d "projectKey" is_str
  && field_ok d "status" is_str
  && field_ok d "environment" (or_null is_str)
  && field_ok d "executedBy" (or_null is_str)
  && field_ok d "actualStartDate" (or_null is_str)
  && field_ok d "actualEndDate" (or_null is_str)
  && field_ok d "comment" (or_null is_str)
  && field_ok d "testRunKey" (or_null is_str)
  && field_ok d "customFields" is_dict
  && field_ok d "steps" is_dict_list
  && field_ok d "attachments" is_dict_list
  && field_ok d "createdOn" is_str && field_ok d "lastModifiedOn" is_str.

(** ** Concrete inputs *)

Definition plain_library : Library :=
  {| format_timestamp := fun s => s;
     status_error_text := fun _ => "status error";
     validation_error_text := fun model _ => "validation error for " ++ model;
     coerce_int := fun _ => None |}.

(** A library whose constructor converts, for an integer field, a boolean
    to 0 or 1 and a non-empty string of decimal digits to its value. *)
Definition digit (c : ascii) : option Z :=
  let n := nat_of_ascii c in
  if andb (Nat.leb 48 n) (Nat.leb n 57) then Some (Z.of_nat (n - 48)) else None.

Fixpoint decimal (acc : Z) (s : string) : option Z :=
  match s with
  | EmptyString => Some acc
  | String c rest =>
      match digit c with
      | Some k => decimal (10 * acc + k) rest
      | None => None
      end
  end.

Definition digits_or_bool (v : json) : option Z :=
  match v with
  | JBool b => Some (if b then 1 else 0)
  | JString (String c rest) => decimal 0 (String c rest)
  | _ => None
  end.

Definition converting_library : Library :=
  {| format_timestamp := fun s => s;
     status_error_text := fun _ => "status error";
     validation_error_text := fun model _ => "validation error for " ++ model;
     coerce_int := digits_or_bool |}.

Definition client_of (r : Remote) : Client :=
  {| config := {| api_token := "token" |}; _http_client := true; remote := r |}.

Definition always (a : Answer) : Remote := fun _ _ => a.

Definition reply (status : Z) (body : json) : Answer :=
  Replies (mkResponse status (inr body)).

(** A remote side that answers every read with [on_get] and every other
    request with [on_write]. *)
Definition read_write (on_get on_write : Answer) : Remote :=
  fun _ rq => if String.eqb (req_method rq) "GET" then on_get else on_write.

Definition script_body (script : dict) : json :=
  JObject [ ("key", JString "JQA-T1"); ("testScript", JObject script) ].

Definition plain_text_script (text : string) : dict :=
  [ ("type", JString "PLAIN_TEXT"); ("text", JString text) ].

Definition two_step_script : dict :=
  [ ("type", JString "STEP_BY_STEP");
    ("steps", JArray [ JObject [ ("description", JString "Open"); ("id", JInt 11) ];
                       JObject [ ("description", JString "Log in");
                                 ("testData", JString "user");
                                 ("expectedResult", JString "Welcome") ] ]) ].

Definition two_requests : list TestStepRequest.t :=
  [ TestStepRequest.mk "Log out" None (Some "Bye");
    TestStepRequest.mk "Close" (Some "") None ].

(** A test case with two steps on the remote side; writes are accepted. *)
Definition two_step_client : Client :=
  client_of (read_write (reply 200 (script_body two_step_script)) (reply 200 JNull)).

Definition two_steps_read : ZephyrTestSteps.t :=
  ZephyrTestSteps.mk "JQA-T1" "10001"
    [ TestStep.mk 1 "Open" "" "" (Some 11);
      TestStep.mk 2 "Log in" "user" "Welcome" None ].

(** The same test case on a remote side that answers every write with 404. *)
Definition vanishing_client : Client :=
  client_of (read_write (reply 200 (script_body two_step_script)) (reply 404 JNull)).

(** A remote side that cannot be reached. *)
Definition unreachable_client : Client :=
  client_of (always (Fails "connection refused")).

(** A step collection as the older API gives it, its second entry broken. *)
Definition bean_collection : dict :=
  [ ("stepBeanCollection",
     JArray [ JObject [ ("orderId", JInt 1); ("step", JString "Open"); ("id", JInt 7) ];
              JString "broken";
              JObject [ ("orderId", JInt 3); ("step", JString "Close") ] ]) ].

(** A client whose configuration carries no token. *)
Definition tokenless_client : Client :=
  {| config := {| api_token := "" |}; _http_client := true;
     remote := always (reply 200 JNull) |}.

(** A test case with every kind of optional field set, some to empty values. *)
Definition payload_full : dict :=
  [ ("key", JString "JQA-T7"); ("name", JString "Checkout");
    ("projectKey", JString "JQA"); ("status", JString "Approved");
    ("priority", JString "Low"); ("component", JString "");
    ("owner", JString "alice"); ("estimatedTime", JInt 0);
    ("folder", JString "/Shop"); ("labels", JArray [JString "smoke"]);
    ("customFields", JObject [("Team", JString "Web")]);
    ("issueLinks", JArray []) ].

(** A test result with one step and no attachment. *)
Definition payload_result : dict :=
  [ ("id", JInt 42); ("testCaseKey", JString "JQA-T7"); ("status", JString "Pass");
    ("steps", JArray [ JObject [("index", JInt 0); ("status", JString "Pass")] ]) ].

(** The results of a run, the second of which has a number for a status. *)
Definition run_results : list json :=
  [ JObject payload_result;
    JObject [("id", JInt 43); ("status", JInt 1)];
    JObject [("id", JInt 44); ("testCaseKey", JString "JQA-T8")] ].

(** Payloads whose integer fields hold a string of digits or a boolean. *)
Definition results_with_digits : list json :=
  [ JObject [("key", JString "JQA-T1"); ("estimatedTime", JString "15")];
    JObject [("key", JString "JQA-T2")] ].

Definition beans_with_digits : dict :=
  [ ("stepBeanCollection",
     JArray [ JObject [ ("orderId", JBool true); ("step", JString "a") ];
              JObject [ ("step", JString "d"); ("id", JString "7") ] ]) ].

Definition run_results_with_digits : list json :=
  [ JObject [("id", JString "43"); ("testCaseKey", JString "JQA-T7")] ].

(** A step object without ["orderId"]. *)
Definition step_without_order : dict :=
  [ ("step", JString "Open the login page"); ("result", JString "Page shown") ].

Definition payload_A : dict := [ ("key", JString "JQA-T1"); ("name", JString "A") ].

(** Four search results, the third of which is not an object. *)
Definition four_results : list json :=
  [ JObject payload_A; JObject [("key", JString "JQA-T2")]; JString "oops";
    JObject [("key", JString "JQA-T4"); ("labels", JArray [JString "smoke"])] ].

(** A remote side whose search answers with the four results. *)
Definition searching_client : Client :=
  client_of (always (reply 200 (JArray four_results))).

Definition payload_JQA : dict :=
  [ ("key", JString "JQA-T1234"); ("name", JString "Login");
    ("projectKey", JString "JQA"); ("status", JString "Draft");
    ("priority", JString "High") ].

Definition simplified_JQA : dict :=
  [ ("key", JString "JQA-T1234"); ("name", JString "Login");
    ("project_key", JString "JQA"); ("status", JString "Draft");
    ("priority", JString "High"); ("folder", JNull); ("labels", JArray []);
    ("created_on", JString ""); ("last_modified_on", JString "") ].

(** * Properties *)

(** ** Dictionaries *)

Lemma dict_get_set (d : dict) (k k' : string) (v : json) :
  dict_get (dict_set d k v) k' =
  if String.eqb k k' then Some v else dict_get d k'.
Proof.
  induction d as [|[k0 v0] d IH]; simpl.
  - reflexivity.
  - destruct (String.eqb k0 k) eqn:E0; simpl.
    + apply String.eqb_eq in E0; subst k0.
      destruct (String.eqb k k'); reflexivity.
    + destruct (String.eqb k0 k') eqn:E1.
      * apply String.eqb_eq in E1; subst k0.
        rewrite String.eqb_sym, E0. reflexivity.
      * exact IH.
Qed.

Lemma dict_get_when (b : bool) (d : dict) (k k' : string) (v : json) :
  dict_get (if b then dict_set d k v else d) k' =
  if b && String.eqb k k' then Some v else dict_get d k'.
Proof.
  destruct b; simpl; [apply dict_get_set | reflexivity].
Qed.

(** ** Field validation *)

Lemma getd_absent (d : dict) (k : string) (dflt : json) :
  dict_get d k = None -> getd d k dflt = dflt.
Proof. unfold getd. intros ->. reflexivity. Qed.

Lemma field_str (d : dict) (k : string) :
  field_ok d k is_str = true ->
  exists s, as_str (getd d k (JString "")) = Some s.
Proof.
  unfold field_ok, getd. destruct (dict_get d k) as [[]|]; simpl;
    try discriminate; eauto.
Qed.

Lemma field_int (L : Library) (d : dict) (k : string) (z : Z) :
  field_ok d k is_int = true ->
  exists n, as_int L (getd d k (JInt z)) = Some n.
Proof.
  unfold field_ok, getd. destruct (dict_get d k) as [[]|]; simpl;
    try discriminate; eauto.
Qed.

Lemma field_dict (d : dict) (k : string) :
  field_ok d k is_dict = true ->
  exists o, as_dict (getd d k (JObject [])) = Some o.
Proof.
  unfold field_ok, getd. destruct (dict_get d k) as [[]|]; simpl;
    try discriminate; eauto.
Qed.

Lemma as_list_str_total (l : list json) :
  forallb is_str l = true -> exists ss, as_list_str l = Some ss.
Proof.
  induction l as [|x l IH]; simpl; intros H.
  - eauto.
  - apply andb_true_iff in H as [Hx Hl]. destruct (IH Hl) as [ss ->].
    destruct x; try discriminate. simpl. eauto.
Qed.

Lemma field_str_list (d : dict) (k : string) :
  field_ok d k is_str_list = true ->
  exists ss, as_str_list (getd d k (JArray [])) = Some ss.
Proof.
  unfold field_ok, getd. destruct (dict_get d k) as [[]|]; simpl;
    try discriminate; eauto using as_list_str_total.
Qed.

Lemma field_opt_str (d : dict) (k : string) :
  field_ok d k (or_null is_str) = true ->
  exists o, as_optional as_str (getd d k JNull) = Some o.
Proof.
  unfold field_ok, getd. destruct (dict_get d k) as [[]|]; simpl;
    try discriminate; eauto.
Qed.

Lemma field_opt_int (L : Library) (d : dict) (k : string) :
  field_ok d k (or_null is_int) = true ->
  exists o, as_optional (as_int L) (getd d k JNull) = Some o.
Proof.
  unfold field_ok, getd. destruct (dict_get d k) as [[]|]; simpl;
    try discriminate; eauto.
Qed.

Lemma field_opt_dict (d : dict) (k : string) :
  field_ok d k (or_null is_dict) = true ->
  exists o, as_optional as_dict (getd d k JNull) = Some o.
Proof.
  unfold field_ok, getd. destruct (dict_get d k) as [[]|]; simpl;
    try discriminate; eauto.
Qed.

(** What validation stores is what it was given. *)

Lemma as_str_inv (v : json) (s : string) : as_str v = Some s -> JString s = v.
Proof. destruct v; simpl; congruence. Qed.

(** For an integer field this holds of the values that are integers; what
    the constructor converts is stored converted. *)
Lemma as_int_inv (L : Library) (v : json) (z : Z) :
  is_int v = true -> as_int L v = Some z -> JInt z = v.
Proof. destruct v; simpl; congruence. Qed.

Lemma field_ok_getd (d : dict) (k : string) (ok : json -> bool) (dflt : json) :
  field_ok d k ok = true -> ok dflt = true -> ok (getd d k dflt) = true.
Proof. unfold field_ok, getd. destruct (dict_get d k); auto. Qed.

Lemma as_dict_inv (v : json) (o : dict) : as_dict v = Some o -> JObject o = v.
Proof. destruct v; simpl; congruence. Qed.

Lemma as_list_str_inv (l : list json) :
  forall ss, as_list_str l = Some ss -> map JString ss = l.
Proof.
  induction l as [|x l IH]; simpl; intros ss H.
  - injection H as <-. reflexivity.
  - destruct (as_str x) as [s|] eqn:Ex; [|discriminate].
    destruct (as_list_str l) as [ss'|]; [|discriminate].
    injection H as <-. simpl. rewrite (IH ss' eq_refl).
    now rewrite (as_str_inv _ _ Ex).
Qed.

Lemma as_str_list_inv (v : json) (ss : list string) :
  as_str_list v = Some ss -> JArray (map JString ss) = v.
Proof.
  destruct v; simpl; try discriminate. intros H.
  now rewrite (as_list_str_inv _ _ H).
Qed.

Lemma as_opt_str_inv (v : json) (o : option string) :
  as_optional as_str v = Some o -> of_opt_str o = v.
Proof.
  destruct v; simpl; intros H; try discriminate; injection H as <-; reflexivity.
Qed.

Lemma as_opt_int_inv (L : Library) (v : json) (o : option Z) :
  or_null is_int v = true ->
  as_optional (as_int L) v = Some o -> of_opt_int o = v.
Proof.
  destruct v; simpl; intros Hv H; try discriminate; injection H as <-;
    reflexivity.
Qed.

Lemma as_opt_dict_inv (v : json) (o : option dict) :
  as_optional as_dict v = Some o -> of_opt_dict o = v.
Proof.
  destruct v; simpl; intros H; try discriminate; injection H as <-; reflexivity.
Qed.

(** ** The test-case record *)

Section TestCaseRecord.
Context (L : Library).

Ltac use_field lem :=
  match goal with
  | H : field_ok _ _ _ = true |- _ =>
      let E := fresh "E" in
      destruct (lem _ _ H) as [? E]; rewrite E; clear H E; cbn [opt_bind]
  end.

Lemma testcase_total (d : dict) :
  valid_testcase_payload d = true ->
  exists r, ZephyrTestCase.from_api_response L (JObject d) = Return r.
Proof.
  unfold valid_testcase_payload. rewrite !andb_true_iff. intros H.
  decompose [and] H; clear H.
  unfold ZephyrTestCase.from_api_response, EMPTY_STRING.
  cbn [py_get py_bind].
  unfold ZephyrTestCase.cls, ZephyrTestCase.validate.
  repeat first
    [ use_field field_str | use_field field_opt_str | use_field (field_opt_int L)
    | use_field field_str_list | use_field field_opt_dict | use_field field_dict ].
  eauto.
Qed.

Ltac step_validation V :=
  match type of V with
  | opt_bind ?c _ = Some _ =>
      let E := fresh "E" in
      destruct c eqn:E; [cbn [opt_bind] in V | discriminate V]
  end.

(** A record built from a payload stores, field by field, what the payload
    gave or the default. *)
Lemma testcase_stored (d : dict) (r : ZephyrTestCase.t) :
  valid_testcase_payload d = true ->
  ZephyrTestCase.from_api_response L (JObject d) = Return r ->
  (forall f, stored f r = getd d (api_key f) (default_of f))
  /\ of_opt_str (ZephyrTestCase.folder r) = getd d "folder" JNull
  /\ JArray (map JString (ZephyrTestCase.labels r)) = getd d "labels" (JArray []).
Proof.
  intros Hvalid.
  assert (Htime : or_null is_int (getd d "estimatedTime" JNull) = true).
  { apply field_ok_getd; [|reflexivity].
    unfold valid_testcase_payload in Hvalid. rewrite !andb_true_iff in Hvalid.
    decompose [and] Hvalid. assumption. }
  unfold ZephyrTestCase.from_api_response, EMPTY_STRING.
  cbn [py_get py_bind]. unfold ZephyrTestCase.cls.
  destruct (ZephyrTestCase.validate _ _ _ _ _ _ _ _ _ _ _ _ _ _ _ _ _ _ _ _ _)
    as [r'|] eqn:V; [|discriminate].
  intros H; injection H as ->.
  unfold ZephyrTestCase.validate in V.
  repeat step_validation V.
  injection V as <-.
  split; [|split].
  - intros []; simpl;
      eauto using as_opt_str_inv, as_opt_int_inv, as_opt_dict_inv,
                  as_dict_inv, as_str_list_inv.
  - simpl. auto using as_opt_str_inv.
  - simpl. auto using as_str_list_inv.
Qed.

Lemma simplified_guarded (r : ZephyrTestCase.t) (f : guarded_field) :
  dict_get (ZephyrTestCase.to_simplified_dict L r) (out_key f) =
  if guard f (stored f r) then Some (stored f r) else None.
Proof.
  unfold ZephyrTestCase.to_simplified_dict. cbv zeta.
  destruct f; cbn [out_key guard stored];
    rewrite !dict_get_when; cbn [String.eqb Ascii.eqb Bool.eqb];
    rewrite ?andb_false_r, ?andb_true_r; reflexivity.
Qed.

Lemma simplified_folder (r : ZephyrTestCase.t) :
  dict_get (ZephyrTestCase.to_simplified_dict L r) "folder" =
  Some (of_opt_str (ZephyrTestCase.folder r)).
Proof.
  unfold ZephyrTestCase.to_simplified_dict. cbv zeta.
  rewrite !dict_get_when; cbn [String.eqb Ascii.eqb Bool.eqb];
    rewrite ?andb_false_r. reflexivity.
Qed.

Lemma simplified_labels (r : ZephyrTestCase.t) :
  dict_get (ZephyrTestCase.to_simplified_dict L r) "labels" =
  Some (JArray (map JString (ZephyrTestCase.labels r))).
Proof.
  unfold ZephyrTestCase.to_simplified_dict. cbv zeta.
  rewrite !dict_get_when; cbn [String.eqb Ascii.eqb Bool.eqb];
    rewrite ?andb_false_r. reflexivity.
Qed.

Lemma guard_default (f : guarded_field) : guard f (default_of f) = false.
Proof. destruct f; reflexivity. Qed.

End TestCaseRecord.

(** C4.  The record built from the body
    [{"key":"JQA-T1234","name":"Login","projectKey":"JQA","status":"Draft",
    "priority":"High"}] simplifies to exactly the nine-key mapping of the
    scenario, [folder] bound to null, [labels] to the empty list and both
    timestamps to the empty string, and to no other key.  The timestamp
    formatter is outside the tree; the scenario fixes its value on the empty
    string. *)
Theorem C4_login_scenario (L : Library) :
  format_timestamp L "" = "" ->
  exists r,
    ZephyrTestCase.from_api_response L (JObject payload_JQA) = Return r
    /\ ZephyrTestCase.to_simplified_dict L r = simplified_JQA
    /\ dict_keys (ZephyrTestCase.to_simplified_dict L r) =
       ["key"; "name"; "project_key"; "status"; "priority"; "folder";
        "labels"; "created_on"; "last_modified_on"].
Proof.
  intros Hfmt. eexists. split; [reflexivity|].
  unfold ZephyrTestCase.to_simplified_dict. cbn. unfold EMPTY_STRING.
  rewrite Hfmt. split; reflexivity.
Qed.

Lemma C4_login_scenario_witness :
  exists r,
    ZephyrTestCase.from_api_response plain_library (JObject payload_JQA) = Return r
    /\ ZephyrTestCase.to_simplified_dict plain_library r = simplified_JQA
    /\ dict_keys (ZephyrTestCase.to_simplified_dict plain_library r) =
       ["key"; "name"; "project_key"; "status"; "priority"; "folder";
        "labels"; "created_on"; "last_modified_on"].
Proof. apply (C4_login_scenario plain_library). reflexivity. Defined.

(** C2, as stated, fails on [folder]: the payload of the login scenario has no
    [folder], the record holds the default [None], and the simplified mapping
    binds ["folder"] to null instead of omitting it. *)
Lemma C2_absent_folder_is_null :
  exists r,
    ZephyrTestCase.from_api_response plain_library (JObject payload_JQA) = Return r
    /\ dict_get payload_JQA "folder" = None
    /\ ZephyrTestCase.folder r = None
    /\ dict_get (ZephyrTestCase.to_simplified_dict plain_library r) "folder"
       = Some JNull.
Proof. eexists. repeat split. Qed.

(** C2, amended.  A valid test-case payload always yields a record.  Every
    conditionally added field (component, owner, estimated_time, objective,
    precondition, test_script, parameters, custom_fields, issue_links,
    created_by, last_modified_by) that the payload leaves out holds its
    default and is omitted from the simplified mapping; such a field, when it
    does appear, is never null and, estimated_time apart, never empty.
    [folder] and [labels] belong to the fixed part of the mapping: left out of
    the payload they appear as null and as the empty list. *)
Theorem C2_defaults_and_omission (L : Library) (d : dict) :
  valid_testcase_payload d = true ->
  exists r,
    ZephyrTestCase.from_api_response L (JObject d) = Return r
    /\ (forall f, dict_get d (api_key f) = None ->
          stored f r = default_of f
          /\ dict_get (ZephyrTestCase.to_simplified_dict L r) (out_key f) = None)
    /\ (forall f v,
          dict_get (ZephyrTestCase.to_simplified_dict L r) (out_key f) = Some v ->
          v = stored f r /\ v <> JNull /\ (f <> EstimatedTime -> truthy v = true))
    /\ (dict_get d "folder" = None ->
          ZephyrTestCase.folder r = None
          /\ dict_get (ZephyrTestCase.to_simplified_dict L r) "folder" = Some JNull)
    /\ (dict_get d "labels" = None ->
          ZephyrTestCase.labels r = []
          /\ dict_get (ZephyrTestCase.to_simplified_dict L r) "labels"
             = Some (JArray [])).
Proof.
  intros Hvalid. destruct (testcase_total L d Hvalid) as [r Hr].
  exists r. split; [exact Hr|].
  destruct (testcase_stored L d r Hvalid Hr) as (Hst & Hfolder & Hlabels).
  repeat split.
  - rewrite Hst. now apply getd_absent.
  - rewrite simplified_guarded, Hst, (getd_absent _ _ _ H), guard_default.
    reflexivity.
  - rewrite simplified_guarded in H.
    destruct (guard f (stored f r)); congruence.
  - rewrite simplified_guarded in H.
    destruct (guard f (stored f r)) eqn:G; [|discriminate].
    injection H as <-. intros E. rewrite E in G.
    destruct f; discriminate.
  - intros Hf. rewrite simplified_guarded in H.
    destruct (guard f (stored f r)) eqn:G; [|discriminate].
    injection H as <-. destruct f; try exact G. now elim Hf.
  - rewrite (getd_absent _ _ _ H) in Hfolder.
    destruct (ZephyrTestCase.folder r); [discriminate | reflexivity].
  - rewrite simplified_folder, Hfolder. now rewrite getd_absent.
  - rewrite (getd_absent _ _ _ H) in Hlabels.
    destruct (ZephyrTestCase.labels r); [reflexivity | discriminate].
  - rewrite simplified_labels, Hlabels. now rewrite getd_absent.
Qed.

Lemma C2_defaults_and_omission_witness :
  exists r,
    ZephyrTestCase.from_api_response plain_library (JObject payload_JQA) = Return r
    /\ (forall f, dict_get payload_JQA (api_key f) = None ->
          stored f r = default_of f
          /\ dict_get (ZephyrTestCase.to_simplified_dict plain_library r)
               (out_key f) = None)
    /\ (forall f v,
          dict_get (ZephyrTestCase.to_simplified_dict plain_library r) (out_key f)
          = Some v ->
          v = stored f r /\ v <> JNull /\ (f <> EstimatedTime -> truthy v = true))
    /\ (dict_get payload_JQA "folder" = None ->
          ZephyrTestCase.folder r = None
          /\ dict_get (ZephyrTestCase.to_simplified_dict plain_library r) "folder"
             = Some JNull)
    /\ (dict_get payload_JQA "labels" = None ->
          ZephyrTestCase.labels r = []
          /\ dict_get (ZephyrTestCase.to_simplified_dict plain_library r) "labels"
             = Some (JArray [])).
Proof. apply (C2_defaults_and_omission plain_library payload_JQA). reflexivity. Defined.

(** ** The test-step record *)

Section TestStepRecord.
Context (L : Library).

Ltac use_field lem :=
  match goal with
  | H : field_ok _ _ _ = true |- _ =>
      let E := fresh "E" in
      destruct (lem _ _ H) as [? E]; rewrite E; clear H E; cbn [opt_bind]
  end.

Lemma step_total (d : dict) :
  valid_step_payload d = true ->
  exists st, TestStep.from_api_response L (JObject d) = Return st.
Proof.
  unfold valid_step_payload. rewrite !andb_true_iff. intros H.
  decompose [and] H; clear H.
  unfold TestStep.from_api_response. cbn [py_get py_bind].
  unfold TestStep.cls, TestStep.validate.
  match goal with
  | H : field_ok _ _ is_int = true |- _ =>
      destruct (field_int L _ _ 0 H) as [? E]; rewrite E; clear H E; cbn [opt_bind]
  end.
  repeat first [ use_field field_str | use_field (field_opt_int L) ].
  eauto.
Qed.

(** The order id of a step built from an object without ["orderId"] is the
    default, 0: nothing checks it against the position. *)
Lemma step_order_id_absent (d : dict) (st : TestStep.t) :
  dict_get d "orderId" = None ->
  TestStep.from_api_response L (JObject d) = Return st ->
  TestStep.order_id st = 0.
Proof.
  intros Habsent.
  unfold TestStep.from_api_response. cbn [py_get py_bind]. unfold TestStep.cls.
  rewrite (getd_absent _ _ _ Habsent).
  destruct (TestStep.validate _ _ _ _ _ _) as [st'|] eqn:V; [|discriminate].
  intros H; injection H as ->. unfold TestStep.validate in V.
  cbn [as_int opt_bind] in V.
  repeat match type of V with
  | opt_bind ?c _ = Some _ => destruct c; [cbn [opt_bind] in V | discriminate V]
  end.
  injection V as <-. reflexivity.
Qed.

End TestStepRecord.

(** C10.  A step object without ["orderId"] gives a step whose [order_id] is
    0: whenever a step is built it has that order id, and a step is built for
    every such object whose fields carry values of their declared types.
    Nothing renumbers afterwards: a collection parsed from objects that all
    lack ["orderId"] holds only steps with [order_id] 0. *)
Theorem C10_missing_order_id_is_zero (L : Library) (d : dict) :
  dict_get d "orderId" = None ->
  (forall st, TestStep.from_api_response L (JObject d) = Return st ->
              TestStep.order_id st = 0)
  /\ (valid_step_payload d = true ->
      exists st, TestStep.from_api_response L (JObject d) = Return st
                 /\ TestStep.order_id st = 0)
  /\ (forall n st, In st (ZephyrTestSteps.collect L (repeat (JObject d) n)) ->
                   TestStep.order_id st = 0).
Proof.
  intros Habsent.
  assert (Hzero : forall st, TestStep.from_api_response L (JObject d) = Return st ->
                             TestStep.order_id st = 0).
  { intros st Hst. exact (step_order_id_absent L d st Habsent Hst). }
  split; [exact Hzero | split].
  - intros Hvalid. destruct (step_total L d Hvalid) as [st Hst]. eauto.
  - induction n as [|n IH]; simpl; intros st Hin.
    + contradiction.
    + destruct (TestStep.from_api_response L (JObject d)) as [st0|] eqn:E.
      * destruct Hin as [<-|Hin]; [now apply Hzero | now apply IH].
      * now apply IH.
Qed.

Lemma C10_missing_order_id_is_zero_witness :
  (forall st, TestStep.from_api_response plain_library (JObject step_without_order)
              = Return st -> TestStep.order_id st = 0)
  /\ (valid_step_payload step_without_order = true ->
      exists st, TestStep.from_api_response plain_library (JObject step_without_order)
                 = Return st /\ TestStep.order_id st = 0)
  /\ (forall n st,
        In st (ZephyrTestSteps.collect plain_library
                 (repeat (JObject step_without_order) n)) ->
        TestStep.order_id st = 0).
Proof.
  apply (C10_missing_order_id_is_zero plain_library step_without_order).
  reflexivity.
Defined.

(** ** The transport *)

Lemma request_ready (self : Client) (method url : string) (params : dict)
    (payload : option json) (log : list Request) :
  ready self ->
  ZephyrClient.request self method url params payload log =
  match remote self log (sent self method url params payload) with
  | Replies response =>
      (Return response, (log ++ [sent self method url params payload])%list)
  | Fails text =>
      (Raise (mkExn MCPAtlassianAuthenticationError ("Request failed: " ++ text)),
       (log ++ [sent self method url params payload])%list)
  end.
Proof.
  intros [Hclient Htoken]. unfold ZephyrClient.request, get_auth_headers.
  rewrite Hclient, Htoken. reflexivity.
Qed.

(** Whatever [request] raises is an authentication error. *)
Lemma request_raises (self : Client) (method url : string) (params : dict)
    (payload : option json) (log log' : list Request) (e : exn) :
  ZephyrClient.request self method url params payload log = (Raise e, log') ->
  exn_cls e = MCPAtlassianAuthenticationError.
Proof.
  unfold ZephyrClient.request, get_auth_headers.
  destruct (_http_client self); simpl.
  - destruct (str_truthy (api_token (config self))); simpl.
    + destruct (remote self log _); intros H; inversion H; reflexivity.
    + intros H; inversion H; reflexivity.
  - intros H; inversion H; reflexivity.
Qed.

(** A request that came back with a response was sent by a ready client. *)
Lemma request_returns (self : Client) (method url : string) (params : dict)
    (payload : option json) (log log' : list Request) (r : Response) :
  ZephyrClient.request self method url params payload log = (Return r, log') ->
  ready self
  /\ remote self log (sent self method url params payload) = Replies r
  /\ log' = (log ++ [sent self method url params payload])%list.
Proof.
  unfold ZephyrClient.request, get_auth_headers, ready.
  destruct (_http_client self); simpl; [|discriminate].
  destruct (str_truthy (api_token (config self))); simpl; [|discriminate].
  fold (auth_headers self).
  change (mkRequest method url params payload (auth_headers self))
    with (sent self method url params payload).
  destruct (remote self log _); intros H; inversion H; auto.
Qed.

Lemma success_not_404 (status : Z) :
  is_success status = true -> (status =? 404) = false.
Proof.
  unfold is_success. intros H. apply andb_true_iff in H as [_ H].
  apply Z.ltb_lt in H. apply Z.eqb_neq. lia.
Qed.

Lemma reclassify_raises {A} (what : string) (e : exn) (log : list Request) :
  exists e', @ZephyrClient.reclassify A what e log = (Raise e', log)
             /\ exn_cls e' = MCPAtlassianAuthenticationError
             /\ (str e' = "Authentication failed: " ++ str e
                 \/ str e' = what ++ str e).
Proof.
  unfold ZephyrClient.reclassify.
  destruct (orb _ _); eexists; (split; [reflexivity|]); simpl; auto.
Qed.

(** ** Reading the steps of a test case *)

Section ReadSteps.
Context (L : Library) (self : Client) (issue_id project_id : string).

(** The read path on a 404: an empty collection for the caller's ids. *)
Lemma get_test_steps_404 (log : list Request) (r : Response) :
  ready self ->
  remote self log (get_steps_request self issue_id) = Replies r ->
  status_code r = 404 ->
  ZephyrClient.get_test_steps L self issue_id project_id log =
  (Return (ZephyrTestSteps.mk issue_id project_id []),
   (log ++ [get_steps_request self issue_id])%list).
Proof.
  intros Hready Hreply H404.
  unfold ZephyrClient.get_test_steps, try_except, bind.
  rewrite (request_ready _ _ _ _ _ _ Hready).
  fold (get_steps_request self issue_id). rewrite Hreply, H404. reflexivity.
Qed.

(** The read path on a decoded body: the steps are those of the script. *)
Lemma get_test_steps_body (log : list Request) (r : Response) (data : dict) :
  ready self ->
  remote self log (get_steps_request self issue_id) = Replies r ->
  is_success (status_code r) = true ->
  content r = inr (JObject data) ->
  ZephyrClient.get_test_steps L self issue_id project_id log =
  match ZephyrClient.extract_steps L (getd data "testScript" (JObject [])) with
  | Return steps =>
      (Return (ZephyrTestSteps.mk issue_id project_id steps),
       (log ++ [get_steps_request self issue_id])%list)
  | Raise e =>
      ZephyrClient.reclassify "Failed to get test steps: " e
        (log ++ [get_steps_request self issue_id])%list
  end.
Proof.
  intros Hready Hreply Hok Hbody.
  unfold ZephyrClient.get_test_steps, try_except, bind.
  rewrite (request_ready _ _ _ _ _ _ Hready).
  fold (get_steps_request self issue_id).
  rewrite Hreply, (success_not_404 _ Hok).
  unfold lift, ZephyrClient.raise_for_status, ZephyrClient.response_json.
  rewrite Hok, Hbody. cbn [py_get].
  destruct (ZephyrClient.extract_steps L _); reflexivity.
Qed.

Lemma positional_nil (from : Z) : positional from [].
Proof. intros [|k] st H; discriminate. Qed.

Lemma positional_cons (from : Z) (st : TestStep.t) (l : list TestStep.t) :
  TestStep.order_id st = from + 1 -> positional (from + 1) l ->
  positional from (st :: l).
Proof.
  intros Hst Hl [|k] st' H; simpl in H.
  - injection H as <-. lia.
  - rewrite (Hl k st' H). lia.
Qed.

Lemma cls_order_id (z : Z) (s d r i : json) (st : TestStep.t) :
  TestStep.cls L (JInt z) s d r i = Return st -> TestStep.order_id st = z.
Proof.
  unfold TestStep.cls.
  destruct (TestStep.validate L (JInt z) s d r i) as [st'|] eqn:V; [|discriminate].
  intros H; injection H as ->. unfold TestStep.validate in V.
  cbn [as_int opt_bind] in V.
  repeat match type of V with
  | opt_bind ?c _ = Some _ => destruct c; [cbn [opt_bind] in V | discriminate V]
  end.
  injection V as <-. reflexivity.
Qed.

Lemma read_steps_positional (items : list json) :
  forall i steps, ZephyrClient.read_steps L i items = Return steps ->
                  positional i steps.
Proof.
  induction items as [|x items IH]; intros i steps; simpl.
  - intros H; injection H as <-. apply positional_nil.
  - destruct (py_get x "description" _); [|discriminate]. cbn [py_bind].
    destruct (py_get x "testData" _); [|discriminate]. cbn [py_bind].
    destruct (py_get x "expectedResult" _); [|discriminate]. cbn [py_bind].
    destruct (py_get x "id" _); [|discriminate]. cbn [py_bind].
    destruct (TestStep.cls L _ _ _ _ _) as [st|] eqn:Est; [|discriminate].
    cbn [py_bind].
    destruct (ZephyrClient.read_steps L (i + 1) items) as [rest|] eqn:Erest;
      [|discriminate].
    cbn [py_bind]. intros H; injection H as <-.
    apply positional_cons; [|now apply IH].
    exact (cls_order_id _ _ _ _ _ _ Est).
Qed.

Lemma extract_steps_positional (script : json) (steps : list TestStep.t) :
  ZephyrClient.extract_steps L script = Return steps -> positional 0 steps.
Proof.
  unfold ZephyrClient.extract_steps.
  destruct (ZephyrClient.script_has_type script "STEP_BY_STEP") as [[]|];
    cbn [py_bind]; [| |discriminate].
  - destruct (py_get script "steps" _); [|discriminate]. cbn [py_bind].
    destruct (py_iter _); [|discriminate]. cbn [py_bind].
    apply read_steps_positional.
  - destruct (ZephyrClient.script_has_type script "PLAIN_TEXT") as [[]|];
      cbn [py_bind]; [| |discriminate].
    + destruct (py_get script "text" _) as [text|]; [|discriminate].
      cbn [py_bind]. destruct (truthy text).
      * destruct (TestStep.cls L _ _ _ _ _) as [st|] eqn:Est; [|discriminate].
        cbn [py_bind]. intros H; injection H as <-.
        apply cls_order_id in Est.
        intros [|[|k]] st' H; simpl in H; try discriminate.
        injection H as <-. simpl. exact Est.
      * intros H; injection H as <-. apply positional_nil.
    + intros H; injection H as <-. apply positional_nil.
Qed.

(** What a successful read tells: the client could send, the request went
    out, and the steps are numbered by position. *)
Lemma get_test_steps_returns (log log1 : list Request) (cur : ZephyrTestSteps.t) :
  ZephyrClient.get_test_steps L self issue_id project_id log = (Return cur, log1) ->
  ready self
  /\ log1 = (log ++ [get_steps_request self issue_id])%list
  /\ ZephyrTestSteps.issue_id cur = issue_id
  /\ ZephyrTestSteps.project_id cur = project_id
  /\ positional 0 (ZephyrTestSteps.steps cur).
Proof.
  unfold ZephyrClient.get_test_steps, try_except, bind.
  destruct (ZephyrClient.request self "GET" _ _ None log) as [[r|e] log0] eqn:Erq.
  - apply request_returns in Erq as (Hready & _ & ->).
    fold (get_steps_request self issue_id).
    destruct (status_code r =? 404).
    + unfold ret. intros H; injection H as <- <-.
      refine (conj Hready (conj eq_refl (conj eq_refl (conj eq_refl _)))).
      apply positional_nil.
    + unfold lift.
      destruct (ZephyrClient.raise_for_status L r) as [u|e].
      2:{ intros H. destruct (@reclassify_raises ZephyrTestSteps.t
                    "Failed to get test steps: " e
                    (log ++ [get_steps_request self issue_id])%list)
            as (e' & He' & _). rewrite He' in H. discriminate. }
      destruct (ZephyrClient.response_json r) as [data|e].
      2:{ intros H. destruct (@reclassify_raises ZephyrTestSteps.t
                    "Failed to get test steps: " e
                    (log ++ [get_steps_request self issue_id])%list)
            as (e' & He' & _). rewrite He' in H. discriminate. }
      destruct (py_get data "testScript" (JObject [])) as [script|e].
      2:{ intros H. destruct (@reclassify_raises ZephyrTestSteps.t
                    "Failed to get test steps: " e
                    (log ++ [get_steps_request self issue_id])%list)
            as (e' & He' & _). rewrite He' in H. discriminate. }
      destruct (ZephyrClient.extract_steps L script) as [steps|e] eqn:Ex.
      2:{ intros H. destruct (@reclassify_raises ZephyrTestSteps.t
                    "Failed to get test steps: " e
                    (log ++ [get_steps_request self issue_id])%list)
            as (e' & He' & _). rewrite He' in H. discriminate. }
      unfold ret. intros H; injection H as <- <-.
      refine (conj Hready (conj eq_refl (conj eq_refl (conj eq_refl _)))).
      simpl. now apply extract_steps_positional in Ex.
  - intros H. destruct (@reclassify_raises ZephyrTestSteps.t
                    "Failed to get test steps: " e log0) as (e' & He' & _).
    rewrite He' in H. discriminate.
Qed.

End ReadSteps.

(** C7, as stated, fails on an empty text: a script of type [PLAIN_TEXT]
    whose text is the empty string gives no step at all. *)
Lemma C7_empty_text_gives_no_step :
  fst (ZephyrClient.get_test_steps plain_library
         (client_of (always (reply 200 (script_body (plain_text_script "")))))
         "JQA-T1" "10001" [])
  = Return (ZephyrTestSteps.mk "JQA-T1" "10001" []).
Proof. reflexivity. Qed.

(** The scenario of the specification: text ["Do X"]. *)
Example get_test_steps_do_x :
  fst (ZephyrClient.get_test_steps plain_library
         (client_of (always (reply 200 (script_body (plain_text_script "Do X")))))
         "JQA-T1" "10001" [])
  = Return (ZephyrTestSteps.mk "JQA-T1" "10001" [TestStep.mk 1 "Do X" "" "" None]).
Proof. reflexivity. Qed.

Example get_test_steps_two_steps :
  fst (ZephyrClient.get_test_steps plain_library
         (client_of (always (reply 200 (script_body two_step_script))))
         "JQA-T1" "10001" [])
  = Return (ZephyrTestSteps.mk "JQA-T1" "10001"
              [ TestStep.mk 1 "Open" "" "" (Some 11);
                TestStep.mk 2 "Log in" "user" "Welcome" None ]).
Proof. reflexivity. Qed.

(** C7, amended.  On a successful response whose body is an object: a script
    of type [PLAIN_TEXT] with a non-empty text gives exactly one step, with
    [order_id] 1, the whole text as [step] and empty [data] and [result]; a
    [PLAIN_TEXT] script whose text is absent or empty gives no step; a script
    of any type other than [STEP_BY_STEP] and [PLAIN_TEXT], or without a type,
    gives no step; so does a body without a script. *)
Theorem C7_plain_text_and_unknown_type (L : Library) (self : Client)
    (issue_id project_id : string) (log : list Request) (r : Response)
    (data : dict) :
  ready self ->
  remote self log (get_steps_request self issue_id) = Replies r ->
  is_success (status_code r) = true ->
  content r = inr (JObject data) ->
  let returns steps :=
    ZephyrClient.get_test_steps L self issue_id project_id log =
    (Return (ZephyrTestSteps.mk issue_id project_id steps),
     (log ++ [get_steps_request self issue_id])%list) in
  (forall script text,
      dict_get data "testScript" = Some (JObject script) ->
      dict_get script "type" = Some (JString "PLAIN_TEXT") ->
      dict_get script "text" = Some (JString text) ->
      text <> "" ->
      returns [TestStep.mk 1 text "" "" None])
  /\ (forall script,
      dict_get data "testScript" = Some (JObject script) ->
      dict_get script "type" = Some (JString "PLAIN_TEXT") ->
      dict_get script "text" = None \/ dict_get script "text" = Some (JString "") ->
      returns [])
  /\ (forall script,
      dict_get data "testScript" = Some (JObject script) ->
      eq_str (getd script "type" JNull) "STEP_BY_STEP" = false ->
      eq_str (getd script "type" JNull) "PLAIN_TEXT" = false ->
      returns [])
  /\ (dict_get data "testScript" = None -> returns []).
Proof.
  intros Hready Hreply Hok Hbody returns. subst returns. cbv beta.
  rewrite (get_test_steps_body L self issue_id project_id log r data
             Hready Hreply Hok Hbody).
  repeat split.
  - intros script text Hscript Htype Htext Hne.
    unfold getd. rewrite Hscript.
    unfold ZephyrClient.extract_steps, ZephyrClient.script_has_type.
    assert (Htruthy : truthy (JObject script) = true)
      by (destruct script; [discriminate | reflexivity]).
    rewrite Htruthy. cbn [py_get py_bind]. unfold getd.
    rewrite Htype, Htext. cbn.
    destruct (String.eqb text "") eqn:E.
    + apply String.eqb_eq in E. contradiction.
    + reflexivity.
  - intros script Hscript Htype Htext.
    unfold getd. rewrite Hscript.
    unfold ZephyrClient.extract_steps, ZephyrClient.script_has_type.
    assert (Htruthy : truthy (JObject script) = true)
      by (destruct script; [discriminate | reflexivity]).
    rewrite Htruthy. cbn [py_get py_bind]. unfold getd. rewrite Htype.
    destruct Htext as [-> | ->]; reflexivity.
  - intros script Hscript Hsbs Hpt.
    unfold getd at 1. rewrite Hscript.
    unfold ZephyrClient.extract_steps, ZephyrClient.script_has_type.
    destruct (truthy (JObject script)); cbn [py_get py_bind];
      rewrite ?Hsbs; cbn [py_bind]; rewrite ?Hpt; reflexivity.
  - intros Habsent. unfold getd. rewrite Habsent. reflexivity.
Qed.

Lemma C7_plain_text_and_unknown_type_witness :
  ZephyrClient.get_test_steps plain_library
    (client_of (always (reply 200 (script_body (plain_text_script "Do X")))))
    "JQA-T1" "10001" [] =
  (Return (ZephyrTestSteps.mk "JQA-T1" "10001" [TestStep.mk 1 "Do X" "" "" None]),
   [get_steps_request
      (client_of (always (reply 200 (script_body (plain_text_script "Do X")))))
      "JQA-T1"]).
Proof.
  refine (proj1 (C7_plain_text_and_unknown_type plain_library
            (client_of (always (reply 200 (script_body (plain_text_script "Do X")))))
            "JQA-T1" "10001"
            [] (mkResponse 200 (inr (script_body (plain_text_script "Do X"))))
            [ ("key", JString "JQA-T1");
              ("testScript", JObject (plain_text_script "Do X")) ]
            _ _ _ _) (plain_text_script "Do X") "Do X" _ _ _ _);
    try reflexivity; [split; reflexivity | discriminate].
Defined.

(** ** Writing the steps back *)

Section WriteSteps.
Context (L : Library) (self : Client) (issue_id project_id : string).

Lemma put_script_reply {A} (all_steps : list TestStep.t) (created : A)
    (log : list Request) (r : Response) :
  ready self ->
  remote self log (put_steps_request self issue_id all_steps) = Replies r ->
  ZephyrClient.put_script L self issue_id all_steps created log =
  if status_code r =? 404 then
    (Raise (mkExn MCPAtlassianAuthenticationError
              ("Test case " ++ issue_id ++ " not found")),
     (log ++ [put_steps_request self issue_id all_steps])%list)
  else
    match ZephyrClient.raise_for_status L r with
    | Return _ =>
        (Return created, (log ++ [put_steps_request self issue_id all_steps])%list)
    | Raise e =>
        (Raise e, (log ++ [put_steps_request self issue_id all_steps])%list)
    end.
Proof.
  intros Hready Hreply. unfold ZephyrClient.put_script, bind.
  rewrite (request_ready _ _ _ _ _ _ Hready).
  fold (put_steps_request self issue_id all_steps). rewrite Hreply.
  destruct (status_code r =? 404); [reflexivity|].
  unfold lift. destruct (ZephyrClient.raise_for_status L r); reflexivity.
Qed.

Lemma add_multiple_after_read (step_requests : list TestStepRequest.t)
    (log log1 : list Request) (cur : ZephyrTestSteps.t) :
  ZephyrClient.get_test_steps L self issue_id project_id log = (Return cur, log1) ->
  ZephyrClient.add_multiple_test_steps L self issue_id project_id step_requests log =
  try_except
    (ZephyrClient.put_script L self issue_id
       (ZephyrTestSteps.steps cur ++
        ZephyrClient.new_steps_from
          (Z.of_nat (length (ZephyrTestSteps.steps cur)) + 1) 0 step_requests)%list
       (ZephyrClient.new_steps_from
          (Z.of_nat (length (ZephyrTestSteps.steps cur)) + 1) 0 step_requests))
    (ZephyrClient.reclassify "Failed to add test steps: ") log1.
Proof.
  intros Hread. unfold ZephyrClient.add_multiple_test_steps, try_except, bind.
  rewrite Hread. reflexivity.
Qed.

Lemma add_one_after_read (step_request : TestStepRequest.t)
    (log log1 : list Request) (cur : ZephyrTestSteps.t) :
  ZephyrClient.get_test_steps L self issue_id project_id log = (Return cur, log1) ->
  ZephyrClient.add_test_step L self issue_id project_id step_request log =
  try_except
    (ZephyrClient.put_script L self issue_id
       (ZephyrTestSteps.steps cur ++
        [step_of_request (Z.of_nat (length (ZephyrTestSteps.steps cur)) + 1)
           step_request])%list
       (step_of_request (Z.of_nat (length (ZephyrTestSteps.steps cur)) + 1)
          step_request))
    (ZephyrClient.reclassify "Failed to add test step: ") log1.
Proof.
  intros Hread. unfold ZephyrClient.add_test_step, try_except, bind.
  rewrite Hread. reflexivity.
Qed.

Lemma new_steps_from_length (next : Z) (step_requests : list TestStepRequest.t) :
  forall i, length (ZephyrClient.new_steps_from next i step_requests)
            = length step_requests.
Proof. induction step_requests; simpl; intros; [reflexivity | now rewrite IHstep_requests]. Qed.

Lemma new_steps_from_nth (next : Z) (step_requests : list TestStepRequest.t) :
  forall i k rq,
    nth_error step_requests k = Some rq ->
    nth_error (ZephyrClient.new_steps_from next i step_requests) k
    = Some (step_of_request (next + i + Z.of_nat k) rq).
Proof.
  induction step_requests as [|rq0 rest IH]; intros i [|k] rq H;
    cbn [nth_error ZephyrClient.new_steps_from] in *; try discriminate.
  - injection H as <-.
    replace (next + i + Z.of_nat 0) with (next + i) by lia. reflexivity.
  - rewrite (IH (i + 1) k rq H).
    replace (next + (i + 1) + Z.of_nat k) with (next + i + Z.of_nat (S k)) by lia.
    reflexivity.
Qed.

Lemma positional_inv (from : Z) (st : TestStep.t) (l : list TestStep.t) :
  positional from (st :: l) ->
  TestStep.order_id st = from + 1 /\ positional (from + 1) l.
Proof.
  intros H. split.
  - rewrite (H 0%nat st eq_refl). lia.
  - intros k st' Hk. rewrite (H (S k) st' Hk). lia.
Qed.

(** Reading back what was written gives the same steps, ids apart. *)
Lemma read_steps_script_steps (l : list TestStep.t) :
  forall i, positional i l ->
            ZephyrClient.read_steps L i (map ZephyrClient.script_step l)
            = Return (map forget_id l).
Proof.
  induction l as [|st l IH]; intros i Hpos; simpl.
  - reflexivity.
  - apply positional_inv in Hpos as [Hst Hl].
    rewrite (IH (i + 1) Hl). cbn [py_bind]. rewrite <- Hst. reflexivity.
Qed.

End WriteSteps.

(** C5.  After a read that gave [n] steps, appending the requests gives them
    the order ids [n+1], [n+2], ... in request order; the script written back
    holds the [n] steps read followed by the new ones, in that order, and on
    an accepted write the new steps are what the call returns. *)
Theorem C5_appended_steps_are_numbered (L : Library) (self : Client)
    (issue_id project_id : string) (step_requests : list TestStepRequest.t)
    (log log1 : list Request) (cur : ZephyrTestSteps.t) (r : Response) :
  ZephyrClient.get_test_steps L self issue_id project_id log = (Return cur, log1) ->
  (forall rq, req_method rq = "PUT" -> remote self log1 rq = Replies r) ->
  is_success (status_code r) = true ->
  exists new_steps,
    ZephyrClient.add_multiple_test_steps L self issue_id project_id step_requests log
    = (Return new_steps,
       (log1 ++ [put_steps_request self issue_id
                   (ZephyrTestSteps.steps cur ++ new_steps)])%list)
    /\ length new_steps = length step_requests
    /\ (forall k rq,
          nth_error step_requests k = Some rq ->
          nth_error new_steps k =
          Some (step_of_request
                  (Z.of_nat (length (ZephyrTestSteps.steps cur)) + 1 + Z.of_nat k)
                  rq))
    /\ req_json (put_steps_request self issue_id
                   (ZephyrTestSteps.steps cur ++ new_steps)%list)
       = Some (JObject
                 [ ("testScript",
                    JObject
                      [ ("type", JString "STEP_BY_STEP");
                        ("steps",
                         JArray (map ZephyrClient.script_step (ZephyrTestSteps.steps cur)
                                 ++ map ZephyrClient.script_step new_steps)%list) ]) ])
    /\ (forall k rq,
          nth_error step_requests k = Some rq ->
          nth_error (map ZephyrClient.script_step (ZephyrTestSteps.steps cur)
                     ++ map ZephyrClient.script_step new_steps)%list
                    (length (ZephyrTestSteps.steps cur) + k)%nat
          = Some (JObject
                    [ ("description", JString (TestStepRequest.step rq));
                      ("testData",
                       JString (ZephyrClient.or_empty (TestStepRequest.data rq)));
                      ("expectedResult",
                       JString (ZephyrClient.or_empty (TestStepRequest.result rq))) ])).
Proof.
  intros Hread Hput Hok.
  destruct (get_test_steps_returns L self issue_id project_id log log1 cur Hread)
    as (Hready & _).
  set (n := Z.of_nat (length (ZephyrTestSteps.steps cur))).
  exists (ZephyrClient.new_steps_from (n + 1) 0 step_requests).
  assert (Hnth : forall k rq, nth_error step_requests k = Some rq ->
            nth_error (ZephyrClient.new_steps_from (n + 1) 0 step_requests) k
            = Some (step_of_request (n + 1 + Z.of_nat k) rq)).
  { intros k rq Hk. rewrite (new_steps_from_nth (n + 1) step_requests 0 k rq Hk).
    now rewrite Z.add_0_r. }
  split; [|split; [|split; [|split]]].
  - rewrite (add_multiple_after_read L self issue_id project_id step_requests
               log log1 cur Hread).
    fold n. unfold try_except.
    rewrite (put_script_reply L self issue_id _ _ log1 r Hready
               (Hput (put_steps_request self issue_id _) eq_refl)).
    rewrite (success_not_404 _ Hok). unfold ZephyrClient.raise_for_status.
    rewrite Hok. reflexivity.
  - apply new_steps_from_length.
  - exact Hnth.
  - simpl. unfold ZephyrClient.script_payload. now rewrite map_app.
  - intros k rq Hk. rewrite nth_error_app2; rewrite length_map; [|lia].
    replace (length (ZephyrTestSteps.steps cur) + k
             - length (ZephyrTestSteps.steps cur))%nat with k by lia.
    rewrite nth_error_map, (Hnth k rq Hk). reflexivity.
Qed.

Lemma C5_appended_steps_are_numbered_witness :
  exists new_steps,
    ZephyrClient.add_multiple_test_steps plain_library two_step_client
      "JQA-T1" "10001" two_requests []
    = (Return new_steps,
       ([get_steps_request two_step_client "JQA-T1"]
        ++ [put_steps_request two_step_client "JQA-T1"
              (ZephyrTestSteps.steps two_steps_read ++ new_steps)])%list)
    /\ new_steps = [ TestStep.mk 3 "Log out" "" "Bye" None;
                     TestStep.mk 4 "Close" "" "" None ].
Proof.
  destruct (C5_appended_steps_are_numbered plain_library two_step_client
              "JQA-T1" "10001" two_requests []
              [get_steps_request two_step_client "JQA-T1"] two_steps_read
              (mkResponse 200 (inr JNull)))
    as (new_steps & Hrun & Hlen & Hnth & _).
  - reflexivity.
  - intros rq Hm. unfold two_step_client, client_of, read_write. simpl.
    rewrite Hm. reflexivity.
  - reflexivity.
  - exists new_steps. split; [exact Hrun|].
    destruct new_steps as [|s1 [|s2 [|s3 rest]]]; try discriminate.
    pose proof (Hnth 0%nat _ eq_refl) as H0.
    pose proof (Hnth 1%nat _ eq_refl) as H1.
    simpl in H0, H1. injection H0 as ->. injection H1 as ->. reflexivity.
Defined.

(** C6.  Appending no step writes back exactly the steps that were read:
    the script sent has one entry per step read, with the same description,
    data and expected result, in the same order; read again, it gives the
    same order ids and the same content, element for element; and the call
    returns the empty list. *)
Theorem C6_appending_nothing_changes_nothing (L : Library) (self : Client)
    (issue_id project_id : string) (log log1 : list Request)
    (cur : ZephyrTestSteps.t) (r : Response) :
  ZephyrClient.get_test_steps L self issue_id project_id log = (Return cur, log1) ->
  (forall rq, req_method rq = "PUT" -> remote self log1 rq = Replies r) ->
  is_success (status_code r) = true ->
  ZephyrClient.add_multiple_test_steps L self issue_id project_id [] log
  = (Return [],
     (log1 ++ [put_steps_request self issue_id (ZephyrTestSteps.steps cur)])%list)
  /\ req_json (put_steps_request self issue_id (ZephyrTestSteps.steps cur))
     = Some (JObject
               [ ("testScript",
                  JObject
                    [ ("type", JString "STEP_BY_STEP");
                      ("steps",
                       JArray (map ZephyrClient.script_step
                                   (ZephyrTestSteps.steps cur))) ]) ])
  /\ (forall k st,
        nth_error (ZephyrTestSteps.steps cur) k = Some st ->
        nth_error (map ZephyrClient.script_step (ZephyrTestSteps.steps cur)) k
        = Some (JObject [ ("description", JString (TestStep.step st));
                          ("testData", JString (TestStep.data st));
                          ("expectedResult", JString (TestStep.result st)) ]))
  /\ exists again,
       ZephyrClient.extract_steps L
         (JObject [ ("type", JString "STEP_BY_STEP");
                    ("steps", JArray (map ZephyrClient.script_step
                                          (ZephyrTestSteps.steps cur))) ])
       = Return again
       /\ map TestStep.order_id again
          = map TestStep.order_id (ZephyrTestSteps.steps cur)
       /\ map TestStep.step again = map TestStep.step (ZephyrTestSteps.steps cur)
       /\ map TestStep.data again = map TestStep.data (ZephyrTestSteps.steps cur)
       /\ map TestStep.result again
          = map TestStep.result (ZephyrTestSteps.steps cur).
Proof.
  intros Hread Hput Hok.
  destruct (get_test_steps_returns L self issue_id project_id log log1 cur Hread)
    as (Hready & _ & _ & _ & Hpos).
  split; [|split; [|split]].
  - rewrite (add_multiple_after_read L self issue_id project_id [] log log1 cur
               Hread).
    cbn [ZephyrClient.new_steps_from]. rewrite app_nil_r. unfold try_except.
    rewrite (put_script_reply L self issue_id _ _ log1 r Hready
               (Hput (put_steps_request self issue_id _) eq_refl)).
    rewrite (success_not_404 _ Hok). unfold ZephyrClient.raise_for_status.
    rewrite Hok. reflexivity.
  - reflexivity.
  - intros k st Hk. rewrite nth_error_map, Hk. reflexivity.
  - exists (map forget_id (ZephyrTestSteps.steps cur)). split.
    + unfold ZephyrClient.extract_steps, ZephyrClient.script_has_type.
      cbn. now apply read_steps_script_steps.
    + rewrite !map_map. repeat split; reflexivity.
Qed.

Lemma C6_appending_nothing_changes_nothing_witness :
  ZephyrClient.add_multiple_test_steps plain_library two_step_client
    "JQA-T1" "10001" [] []
  = (Return [],
     ([get_steps_request two_step_client "JQA-T1"]
      ++ [put_steps_request two_step_client "JQA-T1"
            (ZephyrTestSteps.steps two_steps_read)])%list).
Proof.
  refine (proj1 (C6_appending_nothing_changes_nothing plain_library two_step_client
            "JQA-T1" "10001" [] [get_steps_request two_step_client "JQA-T1"]
            two_steps_read (mkResponse 200 (inr JNull)) _ _ _)).
  - reflexivity.
  - intros rq Hm. unfold two_step_client, client_of, read_write. simpl.
    rewrite Hm. reflexivity.
  - reflexivity.
Defined.

(** C9.  On the read path a 404 is not an error: [get_test_steps] returns an
    empty collection that carries the caller's [issue_id] and [project_id].
    On the write path a 404 answer to the PUT makes [add_test_step] and
    [add_multiple_test_steps] raise an authentication error whose text names
    the test case; neither returns. *)
Theorem C9_not_found_on_read_and_on_write (L : Library) (self : Client)
    (issue_id project_id : string) (log : list Request) :
  ready self ->
  (forall r,
      remote self log (get_steps_request self issue_id) = Replies r ->
      status_code r = 404 ->
      ZephyrClient.get_test_steps L self issue_id project_id log
      = (Return (ZephyrTestSteps.mk issue_id project_id []),
         (log ++ [get_steps_request self issue_id])%list))
  /\ (forall step_request cur log1 r,
      ZephyrClient.get_test_steps L self issue_id project_id log
      = (Return cur, log1) ->
      (forall rq, req_method rq = "PUT" -> remote self log1 rq = Replies r) ->
      status_code r = 404 ->
      exists e log2,
        ZephyrClient.add_test_step L self issue_id project_id step_request log
        = (Raise e, log2)
        /\ exn_cls e = MCPAtlassianAuthenticationError
        /\ (str e = "Authentication failed: " ++ "Test case " ++ issue_id ++ " not found"
            \/ str e = "Failed to add test step: " ++ "Test case " ++ issue_id
                       ++ " not found"))
  /\ (forall step_requests cur log1 r,
      ZephyrClient.get_test_steps L self issue_id project_id log
      = (Return cur, log1) ->
      (forall rq, req_method rq = "PUT" -> remote self log1 rq = Replies r) ->
      status_code r = 404 ->
      exists e log2,
        ZephyrClient.add_multiple_test_steps L self issue_id project_id
          step_requests log
        = (Raise e, log2)
        /\ exn_cls e = MCPAtlassianAuthenticationError
        /\ (str e = "Authentication failed: " ++ "Test case " ++ issue_id ++ " not found"
            \/ str e = "Failed to add test steps: " ++ "Test case " ++ issue_id
                       ++ " not found")).
Proof.
  intros Hready. split; [|split].
  - intros r Hreply H404.
    exact (get_test_steps_404 L self issue_id project_id log r Hready Hreply H404).
  - intros step_request cur log1 r Hread Hput H404.
    rewrite (add_one_after_read L self issue_id project_id step_request
               log log1 cur Hread).
    unfold try_except.
    rewrite (put_script_reply L self issue_id _ _ log1 r Hready
               (Hput (put_steps_request self issue_id _) eq_refl)).
    rewrite H404. cbn [Z.eqb Pos.eqb].
    match goal with
    | |- context [ZephyrClient.reclassify ?w ?e ?l] =>
        destruct (@reclassify_raises TestStep.t w e l) as (e' & -> & Hcls & Hstr)
    end.
    exists e'. eexists. split; [reflexivity|]. split; [exact Hcls | exact Hstr].
  - intros step_requests cur log1 r Hread Hput H404.
    rewrite (add_multiple_after_read L self issue_id project_id step_requests
               log log1 cur Hread).
    unfold try_except.
    rewrite (put_script_reply L self issue_id _ _ log1 r Hready
               (Hput (put_steps_request self issue_id _) eq_refl)).
    rewrite H404. cbn [Z.eqb Pos.eqb].
    match goal with
    | |- context [ZephyrClient.reclassify ?w ?e ?l] =>
        destruct (@reclassify_raises (list TestStep.t) w e l)
          as (e' & -> & Hcls & Hstr)
    end.
    exists e'. eexists. split; [reflexivity|]. split; [exact Hcls | exact Hstr].
Qed.

Lemma C9_not_found_on_read_and_on_write_witness :
  ZephyrClient.get_test_steps plain_library
    (client_of (always (reply 404 JNull))) "JQA-T9" "10001" []
  = (Return (ZephyrTestSteps.mk "JQA-T9" "10001" []),
     ([] ++ [get_steps_request (client_of (always (reply 404 JNull))) "JQA-T9"])%list).
Proof.
  refine (proj1 (C9_not_found_on_read_and_on_write plain_library
            (client_of (always (reply 404 JNull))) "JQA-T9" "10001" [] _)
            (mkResponse 404 (inr JNull)) _ _);
    [split; reflexivity | reflexivity | reflexivity].
Defined.

(** A write that meets a 404: the step is not reported as added. *)
Example add_test_step_on_vanished_case :
  fst (ZephyrClient.add_test_step plain_library vanishing_client "JQA-T1" "10001"
         (TestStepRequest.mk "Log out" None None) [])
  = Raise (mkExn MCPAtlassianAuthenticationError
             "Failed to add test step: Test case JQA-T1 not found").
Proof. reflexivity. Qed.

(** ** Resource operations on test cases *)

Lemma try_bind_raise {A B} (c : M A) (k : A -> M B) (h : exn -> M B)
    (log log' : list Request) (e : exn) :
  c log = (Raise e, log') -> try_except (bind c k) h log = h e log'.
Proof. intros H. unfold try_except, bind. now rewrite H. Qed.

Lemma try_bind_return {A B} (c : M A) (k : A -> M B) (h : exn -> M B)
    (log log' : list Request) (a : A) :
  c log = (Return a, log') -> try_except (bind c k) h log = try_except (k a) h log'.
Proof. intros H. unfold try_except, bind. now rewrite H. Qed.

Lemma reraise_or_wrap_authentication {A} (context : string) (e : exn)
    (log : list Request) :
  exn_cls e = MCPAtlassianAuthenticationError ->
  @ZephyrTestCaseMixin.reraise_or_wrap A context e log
  = (Raise (mkExn MCPAtlassianError (context ++ str e)), log).
Proof.
  intros H. unfold ZephyrTestCaseMixin.reraise_or_wrap,
    isinstance_MCPAtlassianNotFoundError, isinstance_MCPAtlassianError.
  rewrite H. reflexivity.
Qed.

(** C8.  A 404 answer makes [get_testcase] raise the not-found error, whose
    text is ["Test case <key> not found"]; any other status outside 2xx and
    any transport failure make it raise the generic error instead, whose text
    starts with ["Failed to get test case: "]. *)
Theorem C8_get_testcase_not_found (L : Library) (self : Client)
    (test_case_key : string) (fields : option string) (log : list Request) :
  ready self ->
  (forall r,
      remote self log
        (sent self "GET" ("/testcase/" ++ test_case_key)
              (ZephyrTestCaseMixin.set_if_truthy [] "fields" fields) None)
      = Replies r ->
      status_code r = 404 ->
      fst (ZephyrTestCaseMixin.get_testcase L self test_case_key fields log)
      = Raise (mkExn MCPAtlassianNotFoundError
                 ("Test case " ++ test_case_key ++ " not found")))
  /\ (forall r,
      remote self log
        (sent self "GET" ("/testcase/" ++ test_case_key)
              (ZephyrTestCaseMixin.set_if_truthy [] "fields" fields) None)
      = Replies r ->
      status_code r <> 404 ->
      is_success (status_code r) = false ->
      fst (ZephyrTestCaseMixin.get_testcase L self test_case_key fields log)
      = Raise (mkExn MCPAtlassianError
                 ("Failed to get test case: " ++ status_error_text L (status_code r))))
  /\ (forall text,
      remote self log
        (sent self "GET" ("/testcase/" ++ test_case_key)
              (ZephyrTestCaseMixin.set_if_truthy [] "fields" fields) None)
      = Fails text ->
      fst (ZephyrTestCaseMixin.get_testcase L self test_case_key fields log)
      = Raise (mkExn MCPAtlassianError
                 ("Failed to get test case: " ++ "Request failed: " ++ text))).
Proof.
  intros Hready. repeat split.
  - intros r Hreply H404.
    unfold ZephyrTestCaseMixin.get_testcase, try_except, bind.
    rewrite (request_ready _ _ _ _ _ _ Hready), Hreply, H404. reflexivity.
  - intros r Hreply Hne Hfail.
    unfold ZephyrTestCaseMixin.get_testcase, try_except, bind.
    rewrite (request_ready _ _ _ _ _ _ Hready), Hreply.
    apply Z.eqb_neq in Hne. rewrite Hne.
    unfold lift, ZephyrClient.raise_for_status. rewrite Hfail. reflexivity.
  - intros text Hfails.
    unfold ZephyrTestCaseMixin.get_testcase, try_except, bind.
    rewrite (request_ready _ _ _ _ _ _ Hready), Hfails. reflexivity.
Qed.

Lemma C8_get_testcase_not_found_witness :
  fst (ZephyrTestCaseMixin.get_testcase plain_library
         (client_of (always (reply 404 JNull))) "JQA-T1234" None [])
  = Raise (mkExn MCPAtlassianNotFoundError "Test case JQA-T1234 not found").
Proof.
  refine (proj1 (C8_get_testcase_not_found plain_library
            (client_of (always (reply 404 JNull))) "JQA-T1234" None [] _)
            (mkResponse 404 (inr JNull)) _ _);
    [split; reflexivity | reflexivity | reflexivity].
Defined.

Example get_testcase_login :
  fst (ZephyrTestCaseMixin.get_testcase plain_library
         (client_of (always (reply 200 (JObject payload_JQA)))) "JQA-T1234" None [])
  = ZephyrTestCase.from_api_response plain_library (JObject payload_JQA).
Proof. reflexivity. Qed.

(** C3, as stated, fails on authentication errors: the error [request]
    raises when the remote side cannot be reached is an authentication
    error, and neither [get_testcase] nor [create_testcase] lets it through
    unchanged; both raise the generic error around it. *)
Lemma C3_authentication_error_is_wrapped :
  fst (ZephyrClient.request unreachable_client "GET" "/testcase/JQA-T1" [] None [])
  = Raise (mkExn MCPAtlassianAuthenticationError
             "Request failed: connection refused")
  /\ fst (ZephyrTestCaseMixin.get_testcase plain_library unreachable_client
            "JQA-T1" None [])
     = Raise (mkExn MCPAtlassianError
                "Failed to get test case: Request failed: connection refused")
  /\ fst (ZephyrTestCaseMixin.create_testcase plain_library unreachable_client
            (JObject payload_A) [])
     = Raise (mkExn MCPAtlassianError
                "Failed to create test case: Request failed: connection refused").
Proof. repeat split. Qed.

(** C3, amended.  The operations let through unchanged only what is an
    [MCPAtlassianError]: the not-found error that get, update and delete raise
    on a 404 reaches the caller as it was raised.  An authentication error is
    not of that class: whatever [request] raises is wrapped once, as
    [MCPAtlassianError("Failed to <operation>: <cause>")], by get, update,
    delete and search, and by create_testcase and create_testresult, which
    wrap every exception and so never raise anything but the generic error. *)
Theorem C3_reclassification (L : Library) (self : Client)
    (log log' : list Request) :
  (forall e key fields,
      ZephyrClient.request self "GET" ("/testcase/" ++ key)
        (ZephyrTestCaseMixin.set_if_truthy [] "fields" fields) None log
      = (Raise e, log') ->
      ZephyrTestCaseMixin.get_testcase L self key fields log
      = (Raise (mkExn MCPAtlassianError ("Failed to get test case: " ++ str e)), log'))
  /\ (forall e key data,
      ZephyrClient.request self "PUT" ("/testcase/" ++ key) [] (Some data) log
      = (Raise e, log') ->
      ZephyrTestCaseMixin.update_testcase L self key data log
      = (Raise (mkExn MCPAtlassianError ("Failed to update test case: " ++ str e)),
         log'))
  /\ (forall e key,
      ZephyrClient.request self "DELETE" ("/testcase/" ++ key) [] None log
      = (Raise e, log') ->
      ZephyrTestCaseMixin.delete_testcase L self key log
      = (Raise (mkExn MCPAtlassianError ("Failed to delete test case: " ++ str e)),
         log'))
  /\ (forall e query fields start_at max_results,
      ZephyrClient.request self "GET" "/testcase/search"
        (ZephyrTestCaseMixin.search_params query fields start_at max_results)
        None log
      = (Raise e, log') ->
      ZephyrTestCaseMixin.search_testcases L self query fields start_at max_results log
      = (Raise (mkExn MCPAtlassianError ("Failed to search test cases: " ++ str e)),
         log'))
  /\ (forall e data,
      ZephyrClient.request self "POST" "/testcase" [] (Some data) log
      = (Raise e, log') ->
      ZephyrTestCaseMixin.create_testcase L self data log
      = (Raise (mkExn MCPAtlassianError ("Failed to create test case: " ++ str e)),
         log'))
  /\ (forall e data,
      ZephyrClient.request self "POST" "/testresult" [] (Some data) log
      = (Raise e, log') ->
      ZephyrTestResultMixin.create_testresult L self data log
      = (Raise (mkExn MCPAtlassianError ("Failed to create test result: " ++ str e)),
         log'))
  /\ (forall r key fields,
      ZephyrClient.request self "GET" ("/testcase/" ++ key)
        (ZephyrTestCaseMixin.set_if_truthy [] "fields" fields) None log
      = (Return r, log') ->
      status_code r = 404 ->
      ZephyrTestCaseMixin.get_testcase L self key fields log
      = (Raise (mkExn MCPAtlassianNotFoundError ("Test case " ++ key ++ " not found")),
         log'))
  /\ (forall r key data,
      ZephyrClient.request self "PUT" ("/testcase/" ++ key) [] (Some data) log
      = (Return r, log') ->
      status_code r = 404 ->
      ZephyrTestCaseMixin.update_testcase L self key data log
      = (Raise (mkExn MCPAtlassianNotFoundError ("Test case " ++ key ++ " not found")),
         log'))
  /\ (forall r key,
      ZephyrClient.request self "DELETE" ("/testcase/" ++ key) [] None log
      = (Return r, log') ->
      status_code r = 404 ->
      ZephyrTestCaseMixin.delete_testcase L self key log
      = (Raise (mkExn MCPAtlassianNotFoundError ("Test case " ++ key ++ " not found")),
         log'))
  /\ (forall e data,
      ZephyrTestCaseMixin.create_testcase L self data log = (Raise e, log') ->
      exn_cls e = MCPAtlassianError)
  /\ (forall e data,
      ZephyrTestResultMixin.create_testresult L self data log = (Raise e, log') ->
      exn_cls e = MCPAtlassianError).
Proof.
  repeat split.
  - intros e key fields H. unfold ZephyrTestCaseMixin.get_testcase.
    rewrite (try_bind_raise _ _ _ _ _ _ H).
    apply reraise_or_wrap_authentication. exact (request_raises _ _ _ _ _ _ _ _ H).
  - intros e key data H. unfold ZephyrTestCaseMixin.update_testcase.
    rewrite (try_bind_raise _ _ _ _ _ _ H).
    apply reraise_or_wrap_authentication. exact (request_raises _ _ _ _ _ _ _ _ H).
  - intros e key H. unfold ZephyrTestCaseMixin.delete_testcase.
    rewrite (try_bind_raise _ _ _ _ _ _ H).
    apply reraise_or_wrap_authentication. exact (request_raises _ _ _ _ _ _ _ _ H).
  - intros e query fields start_at max_results H.
    unfold ZephyrTestCaseMixin.search_testcases.
    rewrite (try_bind_raise _ _ _ _ _ _ H).
    unfold isinstance_MCPAtlassianError.
    rewrite (request_raises _ _ _ _ _ _ _ _ H). reflexivity.
  - intros e data H. unfold ZephyrTestCaseMixin.create_testcase.
    now rewrite (try_bind_raise _ _ _ _ _ _ H).
  - intros e data H. unfold ZephyrTestResultMixin.create_testresult.
    now rewrite (try_bind_raise _ _ _ _ _ _ H).
  - intros r key fields H H404. unfold ZephyrTestCaseMixin.get_testcase.
    rewrite (try_bind_return _ _ _ _ _ _ H). now rewrite H404.
  - intros r key data H H404. unfold ZephyrTestCaseMixin.update_testcase.
    rewrite (try_bind_return _ _ _ _ _ _ H). now rewrite H404.
  - intros r key H H404. unfold ZephyrTestCaseMixin.delete_testcase.
    rewrite (try_bind_return _ _ _ _ _ _ H). now rewrite H404.
  - intros e data. unfold ZephyrTestCaseMixin.create_testcase, try_except.
    match goal with |- context [match ?c with _ => _ end] => destruct c as [[a|e0] l0] end;
      intros H; inversion H; reflexivity.
  - intros e data. unfold ZephyrTestResultMixin.create_testresult, try_except.
    match goal with |- context [match ?c with _ => _ end] => destruct c as [[a|e0] l0] end;
      intros H; inversion H; reflexivity.
Qed.

(** ** Search *)

Lemma parse_each_well_formed (L : Library) (items : list json) :
  map (@Return ZephyrTestCase.t) (ZephyrTestCaseMixin.parse_each L items)
  = map (ZephyrTestCase.from_api_response L) (filter (well_formed L) items).
Proof.
  induction items as [|x items IH]; simpl; [reflexivity|].
  unfold well_formed at 1.
  destruct (ZephyrTestCase.from_api_response L x) as [tc|e] eqn:E; simpl.
  - now rewrite E, IH.
  - exact IH.
Qed.

Lemma filter_split {A} (f : A -> bool) (l : list A) :
  (length (filter f l) + length (filter (fun x => negb (f x)) l))%nat = length l.
Proof.
  induction l as [|x l IH]; simpl; [reflexivity|].
  destruct (f x); simpl; lia.
Qed.

(** C1.  When the search answers with an array, bare or under ["results"],
    [search_testcases] returns, in order, the records of the elements that
    parse and skips the others one by one: it does not raise, and the number
    of records is the number of elements less the malformed ones, so three for
    four elements of which one is malformed.  The count the tool reports is
    the length of the list it reports.  An element is malformed when building
    the record from it raises; an element whose integer field holds a value
    the constructor converts parses and is kept. *)
Theorem C1_search_skips_malformed_elements (L : Library) (self : Client)
    (query fields : option string) (start_at max_results : Z)
    (log : list Request) (r : Response) (body : json) (items : list json) :
  ready self ->
  remote self log (search_request self query fields start_at max_results)
  = Replies r ->
  is_success (status_code r) = true ->
  content r = inr body ->
  body = JArray items
  \/ (exists d, body = JObject d /\ dict_get d "results" = Some (JArray items)) ->
  exists test_cases,
    ZephyrTestCaseMixin.search_testcases L self query fields start_at max_results log
    = (Return test_cases,
       (log ++ [search_request self query fields start_at max_results])%list)
    /\ map (@Return ZephyrTestCase.t) test_cases
       = map (ZephyrTestCase.from_api_response L) (filter (well_formed L) items)
    /\ (length test_cases
        + length (filter (fun x => negb (well_formed L x)) items))%nat
       = length items
    /\ (length items = 4%nat ->
        length (filter (fun x => negb (well_formed L x)) items) = 1%nat ->
        length test_cases = 3%nat)
    /\ fst (Servers.search_testcases L self query fields start_at max_results log)
       = [ ("success", JBool true);
           ("test_cases",
            JArray (map (fun tc => JObject (ZephyrTestCase.to_simplified_dict L tc))
                        test_cases));
           ("count", JInt (Z.of_nat (length test_cases))) ].
Proof.
  intros Hready Hreply Hok Hbody Hshape.
  exists (ZephyrTestCaseMixin.parse_each L items).
  assert (Hrun :
    ZephyrTestCaseMixin.search_testcases L self query fields start_at max_results log
    = (Return (ZephyrTestCaseMixin.parse_each L items),
       (log ++ [search_request self query fields start_at max_results])%list)).
  { unfold ZephyrTestCaseMixin.search_testcases, try_except, bind.
    rewrite (request_ready _ _ _ _ _ _ Hready).
    fold (search_request self query fields start_at max_results).
    rewrite Hreply. unfold lift, ZephyrClient.raise_for_status,
      ZephyrClient.response_json.
    rewrite Hok, Hbody.
    destruct Hshape as [-> | (d & -> & Hresults)].
    - reflexivity.
    - cbn [py_get]. unfold getd. rewrite Hresults. reflexivity. }
  assert (Hlen : (length (ZephyrTestCaseMixin.parse_each L items)
                  + length (filter (fun x => negb (well_formed L x)) items))%nat
                 = length items).
  { rewrite <- (filter_split (well_formed L) items). f_equal.
    rewrite <- (length_map (@Return ZephyrTestCase.t)), parse_each_well_formed.
    apply length_map. }
  split; [exact Hrun | split; [apply parse_each_well_formed | split; [exact Hlen|]]].
  split.
  - intros H4 H1. lia.
  - unfold Servers.search_testcases. rewrite Hrun. cbn [fst].
    now rewrite length_map.
Qed.

Lemma C1_search_skips_malformed_elements_witness :
  exists test_cases,
    fst (ZephyrTestCaseMixin.search_testcases plain_library searching_client
           None None 0 200 [])
    = Return test_cases
    /\ length test_cases = 3%nat
    /\ dict_get (fst (Servers.search_testcases plain_library searching_client
                        None None 0 200 []))
                "count"
       = Some (JInt 3).
Proof.
  destruct (C1_search_skips_malformed_elements plain_library searching_client
              None None 0 200 [] (mkResponse 200 (inr (JArray four_results)))
              (JArray four_results) four_results)
    as (test_cases & Hrun & _ & _ & Hthree & Hcount).
  - split; reflexivity.
  - reflexivity.
  - reflexivity.
  - reflexivity.
  - left. reflexivity.
  - exists test_cases. rewrite Hrun, Hcount.
    rewrite (Hthree eq_refl eq_refl). repeat split.
Defined.

Example search_keeps_the_three_records :
  fst (ZephyrTestCaseMixin.search_testcases plain_library searching_client
         None None 0 200 [])
  = Return (map (fun k => ZephyrTestCase.mk k
                   (if String.eqb k "JQA-T1" then "A" else "") "" "" ""
                   None None None None
                   (if String.eqb k "JQA-T4" then ["smoke"] else [])
                   None None None None [] [] "" "" None None)
                ["JQA-T1"; "JQA-T2"; "JQA-T4"]).
Proof. reflexivity. Qed.

(** * Further properties of the code *)

(** ** Step records and step collections *)

Lemma collect_parses (L : Library) (items : list json) :
  map (@Return TestStep.t) (ZephyrTestSteps.collect L items)
  = map (TestStep.from_api_response L) (filter (step_parses L) items).
Proof.
  induction items as [|x items IH]; simpl; [reflexivity|].
  unfold step_parses at 1.
  destruct (TestStep.from_api_response L x) as [st|e] eqn:E; simpl.
  - now rewrite E, IH.
  - exact IH.
Qed.

(** X1.  A step collection is built from the entries of
    ["stepBeanCollection"] that parse, in order; a broken entry is skipped and
    does not spoil the others.  The issue and project ids are the caller's,
    and the ["total_steps"] of the simplified mapping counts the steps kept,
    not the entries received.  An entry parses when building the step from it
    does not raise, conversions by the constructor included. *)
Theorem X1_step_collection_keeps_what_parses (L : Library) (d : dict)
    (items : list json) (issue_id project_id : string) :
  getd d "stepBeanCollection" (JArray []) = JArray items ->
  exists c,
    ZephyrTestSteps.from_zephyr_response L (JObject d) issue_id project_id = Return c
    /\ ZephyrTestSteps.issue_id c = issue_id
    /\ ZephyrTestSteps.project_id c = project_id
    /\ map (@Return TestStep.t) (ZephyrTestSteps.steps c)
       = map (TestStep.from_api_response L) (filter (step_parses L) items)
    /\ (length (ZephyrTestSteps.steps c) <= length items)%nat
    /\ dict_get (ZephyrTestSteps.to_simplified_dict c) "total_steps"
       = Some (JInt (Z.of_nat (length (filter (step_parses L) items)))).
Proof.
  intros Hitems.
  exists (ZephyrTestSteps.mk issue_id project_id (ZephyrTestSteps.collect L items)).
  assert (Hlen : length (ZephyrTestSteps.collect L items)
                 = length (filter (step_parses L) items)).
  { rewrite <- (length_map (@Return TestStep.t)), collect_parses.
    apply length_map. }
  split; [|split; [reflexivity|split; [reflexivity|split; [|split]]]].
  - unfold ZephyrTestSteps.from_zephyr_response, ZephyrTestSteps.from_api_response.
    cbn [py_get py_bind]. rewrite Hitems. reflexivity.
  - apply collect_parses.
  - cbn [ZephyrTestSteps.steps]. rewrite Hlen. apply filter_length_le.
  - cbn. now rewrite Hlen.
Qed.

Lemma X1_step_collection_keeps_what_parses_witness :
  exists c,
    ZephyrTestSteps.from_zephyr_response plain_library (JObject bean_collection)
      "JQA-T1" "10001" = Return c
    /\ ZephyrTestSteps.steps c
       = [ TestStep.mk 1 "Open" "" "" (Some 7); TestStep.mk 3 "Close" "" "" None ]
    /\ dict_get (ZephyrTestSteps.to_simplified_dict c) "total_steps" = Some (JInt 2).
Proof.
  destruct (X1_step_collection_keeps_what_parses plain_library bean_collection
              _ "JQA-T1" "10001" eq_refl)
    as (c & Hc & _ & _ & _ & _ & Htotal).
  exists c. split; [exact Hc|]. split; [|exact Htotal].
  cbv in Hc. injection Hc as <-. reflexivity.
Defined.

(** X2.  A step request survives the trip through its own mapping: building
    a request from [to_simplified_dict] of a request gives the request back,
    absent [data] and [result] included. *)
Theorem X2_step_request_round_trip (L : Library) (r : TestStepRequest.t) :
  TestStepRequest.from_api_response L (JObject (TestStepRequest.to_simplified_dict r))
  = Return r.
Proof. destruct r as [s [d|] [r|]]; reflexivity. Qed.

(** X3.  A step does not survive the same trip: its simplified mapping uses
    the keys ["order_id"] and ["step_id"], while [from_api_response] reads
    ["orderId"] and ["id"], so the step built from it has [order_id] 0 and no
    id; the three texts are kept. *)
Theorem X3_step_mapping_is_not_read_back (L : Library) (st : TestStep.t) :
  TestStep.from_api_response L (JObject (TestStep.to_simplified_dict st))
  = Return (TestStep.mk 0 (TestStep.step st) (TestStep.data st)
                        (TestStep.result st) None).
Proof. destruct st as [o s d r [i|]]; reflexivity. Qed.

(** ** The step methods of the client *)

Lemma put_script_created {A B} (L : Library) (self : Client) (issue_id : string)
    (all_steps : list TestStep.t) (a : A) (b : B) (log : list Request) :
  ZephyrClient.put_script L self issue_id all_steps a log
  = match ZephyrClient.put_script L self issue_id all_steps b log with
    | (Return _, l) => (Return a, l)
    | (Raise e, l) => (Raise e, l)
    end.
Proof.
  unfold ZephyrClient.put_script, bind.
  destruct (ZephyrClient.request self "PUT" _ _ _ log) as [[r|e] l]; [|reflexivity].
  destruct (status_code r =? 404); [reflexivity|].
  unfold lift. destruct (ZephyrClient.raise_for_status L r); reflexivity.
Qed.

Lemma try_reclassify_raises {A} (body : M A) (what : string)
    (log l : list Request) (e : exn) :
  try_except body (ZephyrClient.reclassify what) log = (Raise e, l) ->
  exn_cls e = MCPAtlassianAuthenticationError.
Proof.
  unfold try_except. destruct (body log) as [[a|e0] l0]; [discriminate|].
  destruct (@reclassify_raises A what e0 l0) as (e' & -> & Hcls & _).
  intros H; injection H as <- _. exact Hcls.
Qed.

(** X4.  Adding one step is adding a list of one step: [add_test_step]
    returns a step exactly when [add_multiple_test_steps] on the singleton
    list returns that step alone, after the same requests. *)
Theorem X4_add_one_is_add_many_of_one (L : Library) (self : Client)
    (issue_id project_id : string) (step_request : TestStepRequest.t)
    (log log' : list Request) (st : TestStep.t) :
  ZephyrClient.add_test_step L self issue_id project_id step_request log
  = (Return st, log')
  <->
  ZephyrClient.add_multiple_test_steps L self issue_id project_id [step_request] log
  = (Return [st], log').
Proof.
  destruct (ZephyrClient.get_test_steps L self issue_id project_id log)
    as [[cur|e] log1] eqn:Hread.
  - rewrite (add_one_after_read L self issue_id project_id step_request
               log log1 cur Hread).
    rewrite (add_multiple_after_read L self issue_id project_id [step_request]
               log log1 cur Hread).
    cbn [ZephyrClient.new_steps_from]. rewrite Z.add_0_r.
    fold (step_of_request (Z.of_nat (length (ZephyrTestSteps.steps cur)) + 1)
            step_request).
    unfold try_except.
    rewrite (put_script_created L self issue_id _
               (step_of_request _ step_request) tt).
    rewrite (put_script_created L self issue_id _
               [step_of_request _ step_request] tt).
    destruct (ZephyrClient.put_script L self issue_id _ tt log1) as [[u|e] l].
    + split; intros H; injection H as <- <-; reflexivity.
    + destruct (@reclassify_raises TestStep.t "Failed to add test step: " e l)
        as (e1 & -> & _).
      destruct (@reclassify_raises (list TestStep.t) "Failed to add test steps: " e l)
        as (e2 & -> & _).
      split; discriminate.
  - unfold ZephyrClient.add_test_step, ZephyrClient.add_multiple_test_steps.
    rewrite !(try_bind_raise _ _ _ _ _ _ Hread).
    destruct (@reclassify_raises TestStep.t "Failed to add test step: " e log1)
      as (e1 & -> & _).
    destruct (@reclassify_raises (list TestStep.t) "Failed to add test steps: " e log1)
      as (e2 & -> & _).
    split; discriminate.
Qed.

Example add_one_and_add_many_of_one :
  fst (ZephyrClient.add_test_step plain_library two_step_client "JQA-T1" "10001"
         (TestStepRequest.mk "Log out" None (Some "Bye")) [])
  = Return (TestStep.mk 3 "Log out" "" "Bye" None)
  /\ fst (ZephyrClient.add_multiple_test_steps plain_library two_step_client
            "JQA-T1" "10001" [TestStepRequest.mk "Log out" None (Some "Bye")] [])
     = Return [TestStep.mk 3 "Log out" "" "Bye" None].
Proof. split; reflexivity. Qed.

(** X5.  Whatever goes wrong in [get_test_steps], [add_test_step] or
    [add_multiple_test_steps] (transport, status, body that does not
    decode, field of the wrong type), the caller sees an authentication
    error and no other class of exception. *)
Theorem X5_step_methods_raise_authentication_errors_only (L : Library)
    (self : Client) (issue_id project_id : string) (log log' : list Request)
    (e : exn) :
  (ZephyrClient.get_test_steps L self issue_id project_id log = (Raise e, log') ->
   exn_cls e = MCPAtlassianAuthenticationError)
  /\ (forall step_request,
        ZephyrClient.add_test_step L self issue_id project_id step_request log
        = (Raise e, log') ->
        exn_cls e = MCPAtlassianAuthenticationError)
  /\ (forall step_requests,
        ZephyrClient.add_multiple_test_steps L self issue_id project_id
          step_requests log = (Raise e, log') ->
        exn_cls e = MCPAtlassianAuthenticationError).
Proof.
  split; [|split]; intros; eapply try_reclassify_raises; eassumption.
Qed.

Example malformed_body_is_an_authentication_error :
  fst (ZephyrClient.get_test_steps plain_library
         (client_of (always (reply 200 (JArray [])))) "JQA-T1" "10001" [])
  = Raise (mkExn MCPAtlassianAuthenticationError
             "Failed to get test steps: 'list' object has no attribute 'get'").
Proof. reflexivity. Qed.

(** X6.  Without a token nothing is sent: the request log is unchanged, and
    each layer reports the missing token in its own way, [request] and the
    step methods as an authentication error (the step methods adding
    ["Authentication failed: "] once per layer), the resource operations as
    the generic error. *)
Theorem X6_no_token_no_request (L : Library) (self : Client)
    (log : list Request) :
  without_token self ->
  (forall method url params payload,
      ZephyrClient.request self method url params payload log
      = (Raise (mkExn MCPAtlassianAuthenticationError
                  "Zephyr API token is required for authentication"), log))
  /\ (forall key fields,
      ZephyrTestCaseMixin.get_testcase L self key fields log
      = (Raise (mkExn MCPAtlassianError
                  "Failed to get test case: Zephyr API token is required for authentication"),
         log))
  /\ (forall issue_id project_id,
      ZephyrClient.get_test_steps L self issue_id project_id log
      = (Raise (mkExn MCPAtlassianAuthenticationError
                  "Authentication failed: Zephyr API token is required for authentication"),
         log))
  /\ (forall issue_id project_id step_requests,
      ZephyrClient.add_multiple_test_steps L self issue_id project_id
        step_requests log
      = (Raise (mkExn MCPAtlassianAuthenticationError
                  "Authentication failed: Authentication failed: Zephyr API token is required for authentication"),
         log)).
Proof.
  intros [Hclient Htoken].
  assert (Hrequest : forall method url params payload,
      ZephyrClient.request self method url params payload log
      = (Raise (mkExn MCPAtlassianAuthenticationError
                  "Zephyr API token is required for authentication"), log)).
  { intros. unfold ZephyrClient.request, get_auth_headers.
    rewrite Hclient, Htoken. reflexivity. }
  assert (Hread : forall issue_id project_id,
      ZephyrClient.get_test_steps L self issue_id project_id log
      = (Raise (mkExn MCPAtlassianAuthenticationError
                  "Authentication failed: Zephyr API token is required for authentication"),
         log)).
  { intros. unfold ZephyrClient.get_test_steps.
    rewrite (try_bind_raise _ _ _ _ _ _ (Hrequest _ _ _ _)). reflexivity. }
  split; [exact Hrequest | split; [|split; [exact Hread|]]].
  - intros. unfold ZephyrTestCaseMixin.get_testcase.
    rewrite (try_bind_raise _ _ _ _ _ _ (Hrequest _ _ _ _)). reflexivity.
  - intros. unfold ZephyrClient.add_multiple_test_steps.
    rewrite (try_bind_raise _ _ _ _ _ _ (Hread _ _)). reflexivity.
Qed.

Lemma X6_no_token_no_request_witness :
  ZephyrTestCaseMixin.get_testcase plain_library tokenless_client "JQA-T1" None []
  = (Raise (mkExn MCPAtlassianError
              "Failed to get test case: Zephyr API token is required for authentication"),
     []).
Proof.
  refine (proj1 (proj2 (X6_no_token_no_request plain_library tokenless_client [] _))
            "JQA-T1" None).
  split; reflexivity.
Defined.

(** X7.  After [close] every call fails before anything is sent:
    [request] raises ["HTTP client not initialized"], also when the token is
    missing as well; the resource and step methods wrap that text in their own
    way; closing twice is closing once. *)
Theorem X7_closed_client_sends_nothing (L : Library) (self : Client)
    (log : list Request) :
  (forall method url params payload,
      ZephyrClient.request (ZephyrClient.close self) method url params payload log
      = (Raise (mkExn MCPAtlassianAuthenticationError "HTTP client not initialized"),
         log))
  /\ (forall key fields,
      ZephyrTestCaseMixin.get_testcase L (ZephyrClient.close self) key fields log
      = (Raise (mkExn MCPAtlassianError
                  "Failed to get test case: HTTP client not initialized"), log))
  /\ (forall issue_id project_id,
      ZephyrClient.get_test_steps L (ZephyrClient.close self) issue_id project_id log
      = (Raise (mkExn MCPAtlassianAuthenticationError
                  "Failed to get test steps: HTTP client not initialized"), log))
  /\ (forall issue_id project_id step_requests,
      ZephyrClient.add_multiple_test_steps L (ZephyrClient.close self)
        issue_id project_id step_requests log
      = (Raise (mkExn MCPAtlassianAuthenticationError
                  "Failed to add test steps: Failed to get test steps: HTTP client not initialized"),
         log))
  /\ ZephyrClient.close (ZephyrClient.close self) = ZephyrClient.close self.
Proof. repeat split. Qed.

Lemma request_raises_log (self : Client) (method url : string) (params : dict)
    (payload : option json) (log log' : list Request) (e : exn) :
  ZephyrClient.request self method url params payload log = (Raise e, log') ->
  log' = log \/ log' = (log ++ [sent self method url params payload])%list.
Proof.
  unfold ZephyrClient.request, get_auth_headers.
  destruct (_http_client self); simpl.
  - destruct (str_truthy (api_token (config self))); simpl.
    + fold (auth_headers self).
      change (mkRequest method url params payload (auth_headers self))
        with (sent self method url params payload).
      destruct (remote self log _); intros H; inversion H; auto.
    + intros H; inversion H; auto.
  - intros H; inversion H; auto.
Qed.

Lemma get_test_steps_raises_log (L : Library) (self : Client)
    (issue_id project_id : string) (log log' : list Request) (e : exn) :
  ZephyrClient.get_test_steps L self issue_id project_id log = (Raise e, log') ->
  log' = log \/ log' = (log ++ [get_steps_request self issue_id])%list.
Proof.
  unfold ZephyrClient.get_test_steps, try_except, bind.
  destruct (ZephyrClient.request self "GET" _ _ None log) as [[r|e0] log0] eqn:Erq.
  - apply request_returns in Erq as (_ & _ & ->).
    fold (get_steps_request self issue_id).
    destruct (status_code r =? 404); [discriminate|].
    unfold lift, ret.
    repeat match goal with
    | |- context [match ?c with Return _ => _ | Raise _ => _ end] =>
        destruct c
    end; try discriminate;
    match goal with
    | |- context [ZephyrClient.reclassify ?w ?e1 ?l] =>
        destruct (@reclassify_raises ZephyrTestSteps.t w e1 l) as (e' & -> & _)
    end; intros H; injection H as _ <-; auto.
  - apply request_raises_log in Erq.
    destruct (@reclassify_raises ZephyrTestSteps.t "Failed to get test steps: "
                e0 log0) as (e' & -> & _).
    intros H; injection H as _ <-. exact Erq.
Qed.

Lemma put_script_log {A} (L : Library) (self : Client) (issue_id : string)
    (all_steps : list TestStep.t) (created : A) (what : string)
    (log : list Request) :
  ready self ->
  snd (try_except (ZephyrClient.put_script L self issue_id all_steps created)
         (ZephyrClient.reclassify what) log)
  = (log ++ [put_steps_request self issue_id all_steps])%list.
Proof.
  intros Hready. unfold try_except, ZephyrClient.put_script, bind.
  rewrite (request_ready _ _ _ _ _ _ Hready).
  fold (put_steps_request self issue_id all_steps).
  assert (Hh : forall e l, snd (@ZephyrClient.reclassify A what e l) = l).
  { intros e l. destruct (@reclassify_raises A what e l) as (e' & -> & _).
    reflexivity. }
  destruct (remote self log _) as [text|r]; [apply Hh|].
  destruct (status_code r =? 404); [apply Hh|].
  unfold lift. destruct (ZephyrClient.raise_for_status L r) as [u|e];
    [reflexivity | apply Hh].
Qed.

(** X8.  The step assembly reads before it writes, and does nothing else:
    [add_multiple_test_steps] sends nothing, or the GET alone, or the GET
    followed by one PUT to the same test case; the PUT goes out only after a
    read that succeeded.  When the call returns, both were sent and the PUT
    carried the steps read followed by the steps returned. *)
Theorem X8_read_then_write (L : Library) (self : Client)
    (issue_id project_id : string) (step_requests : list TestStepRequest.t)
    (log : list Request) :
  exists trace,
    snd (ZephyrClient.add_multiple_test_steps L self issue_id project_id
           step_requests log) = (log ++ trace)%list
    /\ (trace = []
        \/ trace = [get_steps_request self issue_id]
        \/ exists cur,
             ZephyrClient.get_test_steps L self issue_id project_id log
             = (Return cur, (log ++ [get_steps_request self issue_id])%list)
             /\ exists all_steps,
                  trace = [ get_steps_request self issue_id;
                            put_steps_request self issue_id all_steps ])
    /\ (forall new_steps,
          fst (ZephyrClient.add_multiple_test_steps L self issue_id project_id
                 step_requests log) = Return new_steps ->
          exists cur,
            ZephyrClient.get_test_steps L self issue_id project_id log
            = (Return cur, (log ++ [get_steps_request self issue_id])%list)
            /\ trace = [ get_steps_request self issue_id;
                         put_steps_request self issue_id
                           (ZephyrTestSteps.steps cur ++ new_steps) ]).
Proof.
  destruct (ZephyrClient.get_test_steps L self issue_id project_id log)
    as [[cur|e] log1] eqn:Hread.
  - destruct (get_test_steps_returns L self issue_id project_id log log1 cur Hread)
      as (Hready & -> & _).
    set (new := ZephyrClient.new_steps_from
                  (Z.of_nat (length (ZephyrTestSteps.steps cur)) + 1) 0
                  step_requests).
    exists [ get_steps_request self issue_id;
             put_steps_request self issue_id (ZephyrTestSteps.steps cur ++ new) ].
    rewrite (add_multiple_after_read L self issue_id project_id step_requests
               log _ cur Hread).
    fold new. split; [|split].
    + rewrite (put_script_log L self issue_id _ _ _ _ Hready).
      now rewrite <- app_assoc.
    + right. right. exists cur. split; [reflexivity|]. eauto.
    + intros new_steps Hret. exists cur. split; [reflexivity|].
      unfold try_except in Hret.
      rewrite (put_script_created L self issue_id _ new tt) in Hret.
      destruct (ZephyrClient.put_script L self issue_id _ tt _) as [[u|e] l].
      * cbn in Hret. injection Hret as <-. reflexivity.
      * destruct (@reclassify_raises (list TestStep.t)
                    "Failed to add test steps: " e l) as (e' & He' & _).
        rewrite He' in Hret. discriminate.
  - unfold ZephyrClient.add_multiple_test_steps.
    rewrite (try_bind_raise _ _ _ _ _ _ Hread).
    destruct (@reclassify_raises (list TestStep.t) "Failed to add test steps: "
                e log1) as (e' & -> & _).
    cbn [fst snd].
    destruct (get_test_steps_raises_log L self issue_id project_id log log1 e Hread)
      as [-> | ->].
    + exists []. rewrite app_nil_r. split; [reflexivity|].
      split; [auto | discriminate].
    + exists [get_steps_request self issue_id].
      split; [reflexivity|]. split; [auto | discriminate].
Qed.

Lemma get_test_steps_project (L : Library) (self : Client)
    (issue_id p1 p2 : string) (log log1 : list Request) :
  (forall cur,
      ZephyrClient.get_test_steps L self issue_id p1 log = (Return cur, log1) ->
      ZephyrClient.get_test_steps L self issue_id p2 log
      = (Return (ZephyrTestSteps.mk issue_id p2 (ZephyrTestSteps.steps cur)), log1))
  /\ (forall e,
      ZephyrClient.get_test_steps L self issue_id p1 log = (Raise e, log1) ->
      ZephyrClient.get_test_steps L self issue_id p2 log = (Raise e, log1)).
Proof.
  unfold ZephyrClient.get_test_steps, try_except, bind.
  destruct (ZephyrClient.request self "GET" _ _ None log) as [[r|e0] log0].
  - destruct (status_code r =? 404).
    + unfold ret. split; intros x H; [injection H as <- <-; reflexivity | discriminate].
    + unfold lift, ret.
      destruct (ZephyrClient.raise_for_status L r) as [u|e0].
      2:{ destruct (@reclassify_raises ZephyrTestSteps.t
                      "Failed to get test steps: " e0 log0) as (e' & -> & _).
          split; intros x H; [discriminate | exact H]. }
      destruct (ZephyrClient.response_json r) as [data|e0].
      2:{ destruct (@reclassify_raises ZephyrTestSteps.t
                      "Failed to get test steps: " e0 log0) as (e' & -> & _).
          split; intros x H; [discriminate | exact H]. }
      destruct (py_get data "testScript" (JObject [])) as [script|e0].
      2:{ destruct (@reclassify_raises ZephyrTestSteps.t
                      "Failed to get test steps: " e0 log0) as (e' & -> & _).
          split; intros x H; [discriminate | exact H]. }
      destruct (ZephyrClient.extract_steps L script) as [steps|e0].
      2:{ destruct (@reclassify_raises ZephyrTestSteps.t
                      "Failed to get test steps: " e0 log0) as (e' & -> & _).
          split; intros x H; [discriminate | exact H]. }
      split; intros x H; [injection H as <- <-; reflexivity | discriminate].
  - destruct (@reclassify_raises ZephyrTestSteps.t "Failed to get test steps: "
                e0 log0) as (e' & -> & _).
    split; intros x H; [discriminate | exact H].
Qed.

(** X9.  [project_id] is not used: it is echoed in the collection
    [get_test_steps] returns and changes nothing else, neither the request nor
    the steps nor the error; [add_test_step] and [add_multiple_test_steps] do
    the same whatever project id they are given. *)
Theorem X9_project_id_is_only_echoed (L : Library) (self : Client)
    (issue_id p1 p2 : string) (log : list Request) :
  snd (ZephyrClient.get_test_steps L self issue_id p1 log)
  = snd (ZephyrClient.get_test_steps L self issue_id p2 log)
  /\ (forall cur log1,
        ZephyrClient.get_test_steps L self issue_id p1 log = (Return cur, log1) ->
        ZephyrClient.get_test_steps L self issue_id p2 log
        = (Return (ZephyrTestSteps.mk issue_id p2 (ZephyrTestSteps.steps cur)), log1))
  /\ (forall step_request,
        ZephyrClient.add_test_step L self issue_id p1 step_request log
        = ZephyrClient.add_test_step L self issue_id p2 step_request log)
  /\ (forall step_requests,
        ZephyrClient.add_multiple_test_steps L self issue_id p1 step_requests log
        = ZephyrClient.add_multiple_test_steps L self issue_id p2 step_requests log).
Proof.
  destruct (ZephyrClient.get_test_steps L self issue_id p1 log)
    as [[cur|e] log1] eqn:H1.
  - pose proof (proj1 (get_test_steps_project L self issue_id p1 p2 log log1)
                  cur H1) as H2.
    rewrite H2. split; [reflexivity|]. split; [|split].
    + intros cur' log1' H. injection H as <- <-. reflexivity.
    + intros step_request.
      rewrite (add_one_after_read L self issue_id p1 step_request log log1 cur H1).
      rewrite (add_one_after_read L self issue_id p2 step_request log log1 _ H2).
      reflexivity.
    + intros step_requests.
      rewrite (add_multiple_after_read L self issue_id p1 step_requests
                 log log1 cur H1).
      rewrite (add_multiple_after_read L self issue_id p2 step_requests
                 log log1 _ H2).
      reflexivity.
  - pose proof (proj2 (get_test_steps_project L self issue_id p1 p2 log log1)
                  e H1) as H2.
    rewrite H2. split; [reflexivity|]. split; [discriminate|]. split.
    + intros step_request. unfold ZephyrClient.add_test_step.
      now rewrite (try_bind_raise _ _ _ _ _ _ H1), (try_bind_raise _ _ _ _ _ _ H2).
    + intros step_requests. unfold ZephyrClient.add_multiple_test_steps.
      now rewrite (try_bind_raise _ _ _ _ _ _ H1), (try_bind_raise _ _ _ _ _ _ H2).
Qed.

Lemma new_steps_from_order (next : Z) (step_requests : list TestStepRequest.t) :
  forall i k st,
    nth_error (ZephyrClient.new_steps_from next i step_requests) k = Some st ->
    TestStep.order_id st = next + i + Z.of_nat k.
Proof.
  induction step_requests as [|rq rest IH]; intros i [|k] st H;
    cbn [nth_error ZephyrClient.new_steps_from] in H; try discriminate.
  - injection H as <-. cbn [TestStep.order_id]. lia.
  - rewrite (IH (i + 1) k st H). lia.
Qed.

(** X10.  The steps [get_test_steps] returns are numbered 1, 2, ... by their
    position in the script, whatever ids the script carries; and the sequence
    [add_multiple_test_steps] assembles from them, the steps read followed by
    the new ones, is numbered 1, 2, ... without a gap as well. *)
Theorem X10_steps_are_numbered_by_position (L : Library) (self : Client)
    (issue_id project_id : string) (log log1 : list Request)
    (cur : ZephyrTestSteps.t) :
  ZephyrClient.get_test_steps L self issue_id project_id log = (Return cur, log1) ->
  (forall k st,
      nth_error (ZephyrTestSteps.steps cur) k = Some st ->
      TestStep.order_id st = Z.of_nat k + 1)
  /\ (forall step_requests k st,
      nth_error
        (ZephyrTestSteps.steps cur
         ++ ZephyrClient.new_steps_from
              (Z.of_nat (length (ZephyrTestSteps.steps cur)) + 1) 0 step_requests)%list
        k = Some st ->
      TestStep.order_id st = Z.of_nat k + 1).
Proof.
  intros Hread.
  destruct (get_test_steps_returns L self issue_id project_id log log1 cur Hread)
    as (_ & _ & _ & _ & Hpos).
  assert (Hold : forall k st, nth_error (ZephyrTestSteps.steps cur) k = Some st ->
                              TestStep.order_id st = Z.of_nat k + 1).
  { intros k st Hk. rewrite (Hpos k st Hk). lia. }
  split; [exact Hold|].
  intros step_requests k st Hk.
  destruct (Nat.lt_ge_cases k (length (ZephyrTestSteps.steps cur))) as [Hlt|Hge].
  - rewrite nth_error_app1 in Hk by exact Hlt. now apply Hold.
  - rewrite nth_error_app2 in Hk by exact Hge.
    rewrite (new_steps_from_order _ _ _ _ _ Hk). lia.
Qed.

Lemma X10_steps_are_numbered_by_position_witness :
  TestStep.order_id (TestStep.mk 2 "Log in" "user" "Welcome" None) = Z.of_nat 1 + 1.
Proof.
  refine (proj1 (X10_steps_are_numbered_by_position plain_library two_step_client
            "JQA-T1" "10001" [] [get_steps_request two_step_client "JQA-T1"]
            two_steps_read _) 1%nat _ _); reflexivity.
Defined.

(** ** Texts that look like authentication failures *)

Lemma prefix_app (needle s t : string) :
  String.prefix needle s = true -> String.prefix needle (s ++ t) = true.
Proof.
  revert s. induction needle as [|a needle IH]; intros s H.
  - destruct (s ++ t); reflexivity.
  - destruct s as [|b s]; [discriminate|]. simpl in *.
    destruct (Ascii.ascii_dec a b); [now apply IH | discriminate].
Qed.

Lemma contains_app_r (needle s t : string) :
  contains needle s = true -> contains needle (s ++ t) = true.
Proof.
  induction s as [|c s IH]; simpl; intros H.
  - destruct needle; [|discriminate]. destruct t; reflexivity.
  - apply orb_true_iff in H as [H|H]; apply orb_true_iff.
    + left. exact (prefix_app needle (String c s) t H).
    + right. now apply IH.
Qed.

Lemma contains_app_l (needle s t : string) :
  contains needle s = true -> contains needle (t ++ s) = true.
Proof.
  intros H. induction t as [|c t IH]; simpl; [exact H|].
  apply orb_true_iff. now right.
Qed.

(** X11.  The step methods decide between ["Authentication failed: "] and
    their own prefix by looking for ["401"] in the text of the cause.  The
    text of the not-found error contains the test-case key, so for a key that
    contains ["401"] a 404 on the write is reported as
    ["Authentication failed: Test case <key> not found"]. *)
Theorem X11_key_with_401_reads_as_authentication_failure (L : Library)
    (self : Client) (issue_id project_id : string)
    (step_request : TestStepRequest.t) (log log1 : list Request)
    (cur : ZephyrTestSteps.t) (r : Response) :
  contains "401" issue_id = true ->
  ZephyrClient.get_test_steps L self issue_id project_id log = (Return cur, log1) ->
  (forall rq, req_method rq = "PUT" -> remote self log1 rq = Replies r) ->
  status_code r = 404 ->
  fst (ZephyrClient.add_test_step L self issue_id project_id step_request log)
  = Raise (mkExn MCPAtlassianAuthenticationError
             ("Authentication failed: " ++ "Test case " ++ issue_id ++ " not found")).
Proof.
  intros H401 Hread Hput H404.
  destruct (get_test_steps_returns L self issue_id project_id log log1 cur Hread)
    as (Hready & _).
  rewrite (add_one_after_read L self issue_id project_id step_request
             log log1 cur Hread).
  unfold try_except.
  rewrite (put_script_reply L self issue_id _ _ log1 r Hready
             (Hput (put_steps_request self issue_id _) eq_refl)).
  rewrite H404. cbn [Z.eqb Pos.eqb]. unfold ZephyrClient.reclassify.
  cbn [str].
  rewrite (contains_app_l "401" _ "Test case "
             (contains_app_r "401" issue_id " not found" H401)).
  rewrite orb_true_r. reflexivity.
Qed.

Lemma X11_key_with_401_reads_as_authentication_failure_witness :
  fst (ZephyrClient.add_test_step plain_library vanishing_client "JQA-T401" "10001"
         (TestStepRequest.mk "Log out" None None) [])
  = Raise (mkExn MCPAtlassianAuthenticationError
             "Authentication failed: Test case JQA-T401 not found").
Proof.
  refine (X11_key_with_401_reads_as_authentication_failure plain_library
            vanishing_client "JQA-T401" "10001" (TestStepRequest.mk "Log out" None None)
            [] [get_steps_request vanishing_client "JQA-T401"]
            (ZephyrTestSteps.mk "JQA-T401" "10001" (ZephyrTestSteps.steps two_steps_read))
            (mkResponse 404 (inr JNull)) _ _ _ _).
  - reflexivity.
  - reflexivity.
  - intros rq Hm. unfold vanishing_client, client_of, read_write. simpl.
    rewrite Hm. reflexivity.
  - reflexivity.
Defined.

(** ** Resource operations: what they raise and what they send *)

Lemma try_reraise_or_wrap_class {A} (body : M A) (context : string)
    (log l : list Request) (e : exn) :
  try_except body (ZephyrTestCaseMixin.reraise_or_wrap context) log = (Raise e, l) ->
  exn_cls e = MCPAtlassianError \/ exn_cls e = MCPAtlassianNotFoundError.
Proof.
  unfold try_except. destruct (body log) as [[a|e0] l0]; [discriminate|].
  unfold ZephyrTestCaseMixin.reraise_or_wrap, isinstance_MCPAtlassianNotFoundError,
    isinstance_MCPAtlassianError, raise.
  destruct (exn_cls e0) eqn:E; simpl; intros H; injection H as <- _; auto.
Qed.

(** X12.  The test-case operations never let an authentication error, an
    HTTP status error or a decoding error reach the caller: get, update,
    delete and the latest-result lookup raise the generic error or its
    not-found subclass and nothing else, and search raises the generic error
    only, with a text that starts with ["Failed to search test cases: "]. *)
Theorem X12_testcase_operations_raise_generic_errors_only (L : Library)
    (self : Client) (log log' : list Request) (e : exn) :
  (forall key fields,
      ZephyrTestCaseMixin.get_testcase L self key fields log = (Raise e, log') ->
      exn_cls e = MCPAtlassianError \/ exn_cls e = MCPAtlassianNotFoundError)
  /\ (forall key data,
      ZephyrTestCaseMixin.update_testcase L self key data log = (Raise e, log') ->
      exn_cls e = MCPAtlassianError \/ exn_cls e = MCPAtlassianNotFoundError)
  /\ (forall key,
      ZephyrTestCaseMixin.delete_testcase L self key log = (Raise e, log') ->
      exn_cls e = MCPAtlassianError \/ exn_cls e = MCPAtlassianNotFoundError)
  /\ (forall key,
      ZephyrTestCaseMixin.get_testcase_latest_result L self key log = (Raise e, log') ->
      exn_cls e = MCPAtlassianError \/ exn_cls e = MCPAtlassianNotFoundError)
  /\ (forall query fields start_at max_results,
      ZephyrTestCaseMixin.search_testcases L self query fields start_at max_results log
      = (Raise e, log') ->
      exn_cls e = MCPAtlassianError
      /\ exists cause, str e = "Failed to search test cases: " ++ cause).
Proof.
  split; [|split; [|split; [|split]]];
    try (intros; eapply try_reraise_or_wrap_class; eassumption).
  intros query fields start_at max_results.
  unfold ZephyrTestCaseMixin.search_testcases, try_except, bind.
  destruct (ZephyrClient.request self "GET" _ _ None log) as [[r|e0] l0] eqn:Erq.
  - unfold lift, ret, raise, ZephyrClient.raise_for_status,
      ZephyrClient.response_json.
    destruct (is_success (status_code r)); cbn;
      [|intros H; injection H as <- _; cbn; eauto].
    destruct (content r) as [text|body]; cbn;
      [intros H; injection H as <- _; cbn; eauto|].
    destruct body as [|b|z|s|items|d]; cbn;
      try (intros H; injection H as <- _; cbn; eauto; fail);
      try discriminate.
    unfold getd. destruct (dict_get d "results") as [[|b|z|s|items|o]|]; cbn;
      try (intros H; injection H as <- _; cbn; eauto; fail);
      try discriminate.
  - pose proof (request_raises _ _ _ _ _ _ _ _ Erq) as Hcls.
    unfold isinstance_MCPAtlassianError, raise. rewrite Hcls.
    intros H; injection H as <- _. cbn. eauto.
Qed.

Lemma parse_each_strings (L : Library) (l : list string) :
  ZephyrTestCaseMixin.parse_each L (map JString l) = [].
Proof. induction l as [|x l IH]; simpl; [reflexivity | exact IH]. Qed.

Lemma parse_each_chars (L : Library) (s : string) :
  ZephyrTestCaseMixin.parse_each L (chars s) = [].
Proof. induction s as [|c s IH]; simpl; [reflexivity | exact IH]. Qed.

(** X13.  A wrapped search response whose ["results"] is missing gives the
    empty list; so does one whose ["results"] is a string or a mapping, since
    the loop then runs over characters or keys, none of which parses.  A
    ["results"] that cannot be iterated (null, a boolean, a number) makes the
    search raise the generic error with the interpreter's text. *)
Theorem X13_search_results_that_are_no_array (L : Library) (self : Client)
    (query fields : option string) (start_at max_results : Z)
    (log : list Request) (r : Response) (d : dict) :
  ready self ->
  remote self log (search_request self query fields start_at max_results)
  = Replies r ->
  is_success (status_code r) = true ->
  content r = inr (JObject d) ->
  (dict_get d "results" = None
   \/ (exists s, dict_get d "results" = Some (JString s))
   \/ (exists o, dict_get d "results" = Some (JObject o)) ->
   fst (ZephyrTestCaseMixin.search_testcases L self query fields start_at
          max_results log) = Return [])
  /\ (forall v,
        dict_get d "results" = Some v ->
        v = JNull \/ (exists b, v = JBool b) \/ (exists z, v = JInt z) ->
        fst (ZephyrTestCaseMixin.search_testcases L self query fields start_at
               max_results log)
        = Raise (mkExn MCPAtlassianError
                   ("Failed to search test cases: " ++ "'" ++ type_name v
                    ++ "' object is not iterable"))).
Proof.
  intros Hready Hreply Hok Hbody.
  assert (Hrun : forall v, getd d "results" (JArray []) = v ->
    ZephyrTestCaseMixin.search_testcases L self query fields start_at max_results log
    = try_except
        (items <- lift (py_iter v) ;; ret (ZephyrTestCaseMixin.parse_each L items))%M
        (fun e =>
           if isinstance_MCPAtlassianError e then raise e
           else raise (mkExn MCPAtlassianError
                         ("Failed to search test cases: " ++ str e)))
        (log ++ [search_request self query fields start_at max_results])%list).
  { intros v Hv.
    unfold ZephyrTestCaseMixin.search_testcases, try_except, bind.
    rewrite (request_ready _ _ _ _ _ _ Hready).
    fold (search_request self query fields start_at max_results).
    rewrite Hreply. unfold lift, ZephyrClient.raise_for_status,
      ZephyrClient.response_json.
    rewrite Hok, Hbody. cbn [py_get]. rewrite Hv. reflexivity. }
  split.
  - intros [Hnone | [[s Hs] | [o Ho]]].
    + rewrite (Hrun (JArray [])); [reflexivity|].
      unfold getd. now rewrite Hnone.
    + rewrite (Hrun (JString s)); [|unfold getd; now rewrite Hs].
      unfold try_except, bind, lift, ret. cbn. now rewrite parse_each_chars.
    + rewrite (Hrun (JObject o)); [|unfold getd; now rewrite Ho].
      unfold try_except, bind, lift, ret. cbn. now rewrite parse_each_strings.
  - intros v Hv Hkind. rewrite (Hrun v); [|unfold getd; now rewrite Hv].
    destruct Hkind as [-> | [[b ->] | [z ->]]]; reflexivity.
Qed.

Lemma X13_search_results_that_are_no_array_witness :
  fst (ZephyrTestCaseMixin.search_testcases plain_library
         (client_of (always (reply 200 (JObject [("results", JNull)]))))
         None None 0 200 [])
  = Raise (mkExn MCPAtlassianError
             "Failed to search test cases: 'NoneType' object is not iterable").
Proof.
  refine (proj2 (X13_search_results_that_are_no_array plain_library
            (client_of (always (reply 200 (JObject [("results", JNull)]))))
            None None 0 200 [] (mkResponse 200 (inr (JObject [("results", JNull)])))
            [("results", JNull)] _ _ _ _) JNull _ _);
    try reflexivity; [split; reflexivity | left; reflexivity].
Defined.

Lemma set_if_truthy_get (d : dict) (k k' : string) (v : option string) :
  dict_get (ZephyrTestCaseMixin.set_if_truthy d k v) k'
  = match v with
    | Some x => if str_truthy x && String.eqb k k' then Some (JString x)
                else dict_get d k'
    | None => dict_get d k'
    end.
Proof.
  unfold ZephyrTestCaseMixin.set_if_truthy. destruct v as [x|]; [|reflexivity].
  destruct (str_truthy x); simpl; [apply dict_get_set | reflexivity].
Qed.

(** X14.  The query parameters of a search: ["startAt"] is sent only for a
    positive offset (zero and negative offsets are dropped), ["maxResults"]
    only when it differs from 200, ["query"] and ["fields"] only when given
    and non-empty; each carries the caller's value unchanged. *)
Theorem X14_search_parameters (query fields : option string)
    (start_at max_results : Z) :
  let params :=
    ZephyrTestCaseMixin.search_params query fields start_at max_results in
  dict_get params "startAt" = (if 0 <? start_at then Some (JInt start_at) else None)
  /\ dict_get params "maxResults"
     = (if max_results =? 200 then None else Some (JInt max_results))
  /\ dict_get params "query"
     = match query with
       | Some q => if String.eqb q "" then None else Some (JString q)
       | None => None
       end
  /\ dict_get params "fields"
     = match fields with
       | Some f => if String.eqb f "" then None else Some (JString f)
       | None => None
       end.
Proof.
  cbv zeta. unfold ZephyrTestCaseMixin.search_params.
  repeat split.
  - rewrite dict_get_when. cbn [String.eqb Ascii.eqb Bool.eqb].
    rewrite andb_false_r, dict_get_when. cbn [String.eqb Ascii.eqb Bool.eqb].
    rewrite andb_true_r. destruct (0 <? start_at); [reflexivity|].
    rewrite !set_if_truthy_get. cbn [String.eqb Ascii.eqb Bool.eqb].
    destruct fields, query; rewrite ?andb_false_r; reflexivity.
  - rewrite dict_get_when. cbn [String.eqb Ascii.eqb Bool.eqb].
    rewrite andb_true_r. destruct (max_results =? 200); [|reflexivity].
    cbn [negb]. rewrite dict_get_when. cbn [String.eqb Ascii.eqb Bool.eqb].
    rewrite andb_false_r, !set_if_truthy_get. cbn [String.eqb Ascii.eqb Bool.eqb].
    destruct fields, query; rewrite ?andb_false_r; reflexivity.
  - rewrite !dict_get_when. cbn [String.eqb Ascii.eqb Bool.eqb].
    rewrite !andb_false_r, !set_if_truthy_get. cbn [String.eqb Ascii.eqb Bool.eqb].
    unfold str_truthy.
    destruct fields as [f|], query as [q|]; rewrite ?andb_false_r, ?andb_true_r;
      try destruct (String.eqb q ""); reflexivity.
  - rewrite !dict_get_when. cbn [String.eqb Ascii.eqb Bool.eqb].
    rewrite !andb_false_r, !set_if_truthy_get. cbn [String.eqb Ascii.eqb Bool.eqb].
    unfold str_truthy.
    destruct fields as [f|], query as [q|]; rewrite ?andb_false_r, ?andb_true_r;
      try destruct (String.eqb f ""); reflexivity.
Qed.

(** ** What the simplified test case carries *)

Section TestCaseCarried.
Context (L : Library).

Ltac step_validation V :=
  match type of V with
  | opt_bind ?c _ = Some _ =>
      let E := fresh "E" in
      destruct c eqn:E; [cbn [opt_bind] in V | discriminate V]
  end.

Lemma testcase_fixed (d : dict) (r : ZephyrTestCase.t) :
  ZephyrTestCase.from_api_response L (JObject d) = Return r ->
  JString (ZephyrTestCase.key r) = getd d "key" (JString "")
  /\ JString (ZephyrTestCase.name r) = getd d "name" (JString "")
  /\ JString (ZephyrTestCase.project_key r) = getd d "projectKey" (JString "")
  /\ JString (ZephyrTestCase.status r) = getd d "status" (JString "")
  /\ JString (ZephyrTestCase.priority r) = getd d "priority" (JString "").
Proof.
  unfold ZephyrTestCase.from_api_response, EMPTY_STRING.
  cbn [py_get py_bind]. unfold ZephyrTestCase.cls.
  destruct (ZephyrTestCase.validate _ _ _ _ _ _ _ _ _ _ _ _ _ _ _ _ _ _ _ _)
    as [r'|] eqn:V; [|discriminate].
  intros H; injection H as ->.
  unfold ZephyrTestCase.validate in V.
  repeat step_validation V.
  injection V as <-. cbn.
  repeat split; auto using as_str_inv.
Qed.

Lemma simplified_fixed (r : ZephyrTestCase.t) :
  dict_get (ZephyrTestCase.to_simplified_dict L r) "key"
  = Some (JString (ZephyrTestCase.key r))
  /\ dict_get (ZephyrTestCase.to_simplified_dict L r) "name"
     = Some (JString (ZephyrTestCase.name r))
  /\ dict_get (ZephyrTestCase.to_simplified_dict L r) "project_key"
     = Some (JString (ZephyrTestCase.project_key r))
  /\ dict_get (ZephyrTestCase.to_simplified_dict L r) "status"
     = Some (JString (ZephyrTestCase.status r))
  /\ dict_get (ZephyrTestCase.to_simplified_dict L r) "priority"
     = Some (JString (ZephyrTestCase.priority r)).
Proof.
  unfold ZephyrTestCase.to_simplified_dict. cbv zeta.
  repeat split; rewrite !dict_get_when; cbn [String.eqb Ascii.eqb Bool.eqb];
    rewrite ?andb_false_r; reflexivity.
Qed.

End TestCaseCarried.

(** X15.  What a valid payload sets reaches the simplified mapping unchanged,
    under the snake-case key: the five identifying strings, [folder] and
    [labels] always, and each conditionally added field exactly when its
    value is non-empty (for [estimated_time]: not null, so 0 is kept while an
    empty [component] is dropped). *)
Theorem X15_simplified_test_case_carries_the_payload (L : Library) (d : dict) :
  valid_testcase_payload d = true ->
  exists r,
    ZephyrTestCase.from_api_response L (JObject d) = Return r
    /\ dict_get (ZephyrTestCase.to_simplified_dict L r) "key"
       = Some (getd d "key" (JString ""))
    /\ dict_get (ZephyrTestCase.to_simplified_dict L r) "name"
       = Some (getd d "name" (JString ""))
    /\ dict_get (ZephyrTestCase.to_simplified_dict L r) "project_key"
       = Some (getd d "projectKey" (JString ""))
    /\ dict_get (ZephyrTestCase.to_simplified_dict L r) "status"
       = Some (getd d "status" (JString ""))
    /\ dict_get (ZephyrTestCase.to_simplified_dict L r) "priority"
       = Some (getd d "priority" (JString ""))
    /\ dict_get (ZephyrTestCase.to_simplified_dict L r) "folder"
       = Some (getd d "folder" JNull)
    /\ dict_get (ZephyrTestCase.to_simplified_dict L r) "labels"
       = Some (getd d "labels" (JArray []))
    /\ (forall f,
          dict_get (ZephyrTestCase.to_simplified_dict L r) (out_key f)
          = if guard f (getd d (api_key f) (default_of f))
            then Some (getd d (api_key f) (default_of f)) else None).
Proof.
  intros Hvalid. destruct (testcase_total L d Hvalid) as [r Hr].
  exists r. split; [exact Hr|].
  destruct (testcase_stored L d r Hvalid Hr) as (Hst & Hfolder & Hlabels).
  destruct (testcase_fixed L d r Hr) as (Hk & Hn & Hp & Hs & Hy).
  destruct (simplified_fixed L r) as (Ok & On & Op & Os & Oy).
  rewrite Ok, On, Op, Os, Oy, Hk, Hn, Hp, Hs, Hy.
  rewrite simplified_folder, simplified_labels, Hfolder, Hlabels.
  repeat split.
  intros f. now rewrite simplified_guarded, Hst.
Qed.

Lemma X15_simplified_test_case_carries_the_payload_witness :
  exists r,
    ZephyrTestCase.from_api_response plain_library (JObject payload_full) = Return r
    /\ dict_get (ZephyrTestCase.to_simplified_dict plain_library r) "estimated_time"
       = Some (JInt 0)
    /\ dict_get (ZephyrTestCase.to_simplified_dict plain_library r) "component"
       = None
    /\ dict_get (ZephyrTestCase.to_simplified_dict plain_library r) "custom_fields"
       = Some (JObject [("Team", JString "Web")]).
Proof.
  destruct (X15_simplified_test_case_carries_the_payload plain_library payload_full
              eq_refl) as (r & Hr & _ & _ & _ & _ & _ & _ & _ & Hguarded).
  exists r. split; [exact Hr|].
  split; [exact (Hguarded EstimatedTime)|].
  split; [exact (Hguarded Component) | exact (Hguarded CustomFields)].
Defined.

(** ** The tools over the test-case operations *)

(** X16.  The envelope of the [get_testcase] tool.  A 404 gives
    [success: false] with ["Test case not found: Test case <key> not found"];
    a transport failure gives [success: false] with the operation's prefix
    twice, ["Failed to get test case: Failed to get test case: Request
    failed: <text>"], once from the operation and once from the tool; a valid
    body gives [success: true] and the simplified record. *)
Theorem X16_get_testcase_envelope (L : Library) (self : Client)
    (test_case_key : string) (fields : option string) (log : list Request) :
  ready self ->
  (forall r,
      remote self log
        (sent self "GET" ("/testcase/" ++ test_case_key)
              (ZephyrTestCaseMixin.set_if_truthy [] "fields" fields) None)
      = Replies r ->
      status_code r = 404 ->
      fst (Servers.get_testcase L self test_case_key fields log)
      = [ ("success", JBool false);
          ("error", JString ("Test case not found: " ++ "Test case "
                             ++ test_case_key ++ " not found")) ])
  /\ (forall text,
      remote self log
        (sent self "GET" ("/testcase/" ++ test_case_key)
              (ZephyrTestCaseMixin.set_if_truthy [] "fields" fields) None)
      = Fails text ->
      fst (Servers.get_testcase L self test_case_key fields log)
      = [ ("success", JBool false);
          ("error", JString ("Failed to get test case: " ++ "Failed to get test case: "
                             ++ "Request failed: " ++ text)) ])
  /\ (forall r d,
      remote self log
        (sent self "GET" ("/testcase/" ++ test_case_key)
              (ZephyrTestCaseMixin.set_if_truthy [] "fields" fields) None)
      = Replies r ->
      is_success (status_code r) = true ->
      content r = inr (JObject d) ->
      valid_testcase_payload d = true ->
      exists record,
        ZephyrTestCase.from_api_response L (JObject d) = Return record
        /\ fst (Servers.get_testcase L self test_case_key fields log)
           = [ ("success", JBool true);
               ("test_case", JObject (ZephyrTestCase.to_simplified_dict L record)) ]).
Proof.
  intros Hready. split; [|split].
  - intros r Hreply H404.
    unfold Servers.get_testcase, ZephyrTestCaseMixin.get_testcase, try_except, bind.
    rewrite (request_ready _ _ _ _ _ _ Hready), Hreply, H404. reflexivity.
  - intros text Hfails.
    unfold Servers.get_testcase, ZephyrTestCaseMixin.get_testcase, try_except, bind.
    rewrite (request_ready _ _ _ _ _ _ Hready), Hfails. reflexivity.
  - intros r d Hreply Hok Hbody Hvalid.
    destruct (testcase_total L d Hvalid) as [record Hrecord].
    exists record. split; [exact Hrecord|].
    unfold Servers.get_testcase, ZephyrTestCaseMixin.get_testcase, try_except, bind.
    rewrite (request_ready _ _ _ _ _ _ Hready), Hreply, (success_not_404 _ Hok).
    unfold lift, ZephyrClient.raise_for_status, ZephyrClient.response_json.
    rewrite Hok, Hbody, Hrecord. reflexivity.
Qed.

Lemma X16_get_testcase_envelope_witness :
  fst (Servers.get_testcase plain_library unreachable_client "JQA-T1" None [])
  = [ ("success", JBool false);
      ("error",
       JString "Failed to get test case: Failed to get test case: Request failed: connection refused") ].
Proof.
  refine (proj1 (proj2 (X16_get_testcase_envelope plain_library unreachable_client
            "JQA-T1" None [] _)) "connection refused" _);
    [split; reflexivity | reflexivity].
Defined.

(** X17.  Deleting a test case sends one DELETE to [/testcase/<key>] with no
    body and no parameters.  On a 2xx status the operation returns and the
    tool reports ["Test case <key> deleted"]; on a 404 the tool reports
    ["Test case not found: Test case <key> not found"]; on any other status
    the tool reports the generic failure with the status text. *)
Theorem X17_delete_testcase (L : Library) (self : Client)
    (test_case_key : string) (log : list Request) (r : Response) :
  ready self ->
  remote self log (sent self "DELETE" ("/testcase/" ++ test_case_key) [] None)
  = Replies r ->
  snd (ZephyrTestCaseMixin.delete_testcase L self test_case_key log)
  = (log ++ [sent self "DELETE" ("/testcase/" ++ test_case_key) [] None])%list
  /\ (is_success (status_code r) = true ->
      fst (ZephyrTestCaseMixin.delete_testcase L self test_case_key log) = Return tt
      /\ fst (Servers.delete_testcase L self test_case_key log)
         = [ ("success", JBool true);
             ("message", JString ("Test case " ++ test_case_key ++ " deleted")) ])
  /\ (status_code r = 404 ->
      fst (Servers.delete_testcase L self test_case_key log)
      = [ ("success", JBool false);
          ("error", JString ("Test case not found: " ++ "Test case "
                             ++ test_case_key ++ " not found")) ])
  /\ (is_success (status_code r) = false -> status_code r <> 404 ->
      fst (Servers.delete_testcase L self test_case_key log)
      = [ ("success", JBool false);
          ("error", JString ("Failed to delete test case: "
                             ++ "Failed to delete test case: "
                             ++ status_error_text L (status_code r))) ]).
Proof.
  intros Hready Hreply.
  unfold Servers.delete_testcase, ZephyrTestCaseMixin.delete_testcase,
    try_except, bind.
  rewrite (request_ready _ _ _ _ _ _ Hready), Hreply.
  unfold lift, ZephyrClient.raise_for_status.
  split; [|split; [|split]].
  - destruct (status_code r =? 404); [reflexivity|].
    destruct (is_success (status_code r)); reflexivity.
  - intros Hok. rewrite (success_not_404 _ Hok), Hok. split; reflexivity.
  - intros H404. rewrite H404. reflexivity.
  - intros Hfail Hne. apply Z.eqb_neq in Hne. rewrite Hne, Hfail. reflexivity.
Qed.

Lemma X17_delete_testcase_witness :
  fst (Servers.delete_testcase plain_library
         (client_of (always (reply 204 JNull))) "JQA-T1" [])
  = [ ("success", JBool true); ("message", JString "Test case JQA-T1 deleted") ].
Proof.
  refine (proj2 (proj1 (proj2 (X17_delete_testcase plain_library
            (client_of (always (reply 204 JNull))) "JQA-T1" []
            (mkResponse 204 (inr JNull)) _ _)) _));
    [split; reflexivity | reflexivity | reflexivity].
Defined.

(** X18.  What the create operations return.  From an object body they
    return what is under ["key"], ["id"] or ["ids"], as received, and the
    defaults [""], [0] and [[]] when the key is missing; a body that is an
    array makes each of them raise the generic error, since an array has no
    [get]. *)
Theorem X18_create_operations_results (L : Library) (self : Client)
    (log : list Request) (r : Response) :
  ready self ->
  (forall rq, req_method rq = "POST" -> remote self log rq = Replies r) ->
  is_success (status_code r) = true ->
  (forall d,
      content r = inr (JObject d) ->
      (forall data,
          fst (ZephyrTestCaseMixin.create_testcase L self data log)
          = Return (getd d "key" (JString "")))
      /\ (forall data,
          fst (ZephyrTestResultMixin.create_testresult L self data log)
          = Return (getd d "id" (JInt 0)))
      /\ (forall run case data environment user_key,
          fst (ZephyrTestResultMixin.create_testrun_result L self run case data
                 environment user_key log)
          = Return (getd d "id" (JInt 0)))
      /\ (forall run data environment user_key,
          fst (ZephyrTestResultMixin.create_bulk_testrun_results L self run data
                 environment user_key log)
          = Return (getd d "ids" (JArray []))))
  /\ (forall items,
      content r = inr (JArray items) ->
      (forall data,
          fst (ZephyrTestCaseMixin.create_testcase L self data log)
          = Raise (mkExn MCPAtlassianError
                     "Failed to create test case: 'list' object has no attribute 'get'"))
      /\ (forall run data environment user_key,
          fst (ZephyrTestResultMixin.create_bulk_testrun_results L self run data
                 environment user_key log)
          = Raise (mkExn MCPAtlassianError
                     "Failed to create bulk test results: 'list' object has no attribute 'get'"))).
Proof.
  intros Hready Hpost Hok.
  split.
  - intros d Hbody. repeat split; intros;
      unfold ZephyrTestCaseMixin.create_testcase,
        ZephyrTestResultMixin.create_testresult,
        ZephyrTestResultMixin.create_testrun_result,
        ZephyrTestResultMixin.create_bulk_testrun_results, try_except, bind;
      rewrite (request_ready _ _ _ _ _ _ Hready); rewrite Hpost by reflexivity;
      unfold lift, ZephyrClient.raise_for_status, ZephyrClient.response_json;
      rewrite Hok, Hbody; reflexivity.
  - intros items Hbody. repeat split; intros;
      unfold ZephyrTestCaseMixin.create_testcase,
        ZephyrTestResultMixin.create_bulk_testrun_results, try_except, bind;
      rewrite (request_ready _ _ _ _ _ _ Hready); rewrite Hpost by reflexivity;
      unfold lift, ZephyrClient.raise_for_status, ZephyrClient.response_json;
      rewrite Hok, Hbody; reflexivity.
Qed.

Lemma X18_create_operations_results_witness :
  fst (ZephyrTestResultMixin.create_bulk_testrun_results plain_library
         (client_of (always (reply 201 (JObject [("ids", JArray [JInt 1; JInt 2; JInt 3])]))))
         "JQA-R1" [JObject []; JObject []; JObject []] None None [])
  = Return (JArray [JInt 1; JInt 2; JInt 3]).
Proof.
  refine (proj2 (proj2 (proj2 (proj1 (X18_create_operations_results plain_library
            (client_of (always (reply 201 (JObject [("ids", JArray [JInt 1; JInt 2; JInt 3])]))))
            [] (mkResponse 201 (inr (JObject [("ids", JArray [JInt 1; JInt 2; JInt 3])])))
            _ _ _) [("ids", JArray [JInt 1; JInt 2; JInt 3])] _)))
            "JQA-R1" [JObject []; JObject []; JObject []] None None);
    try reflexivity; split; reflexivity.
Defined.

(** ** Test results *)

Lemma as_list_dict_total (l : list json) :
  forallb is_dict l = true -> exists ds, as_list_dict l = Some ds.
Proof.
  induction l as [|x l IH]; simpl; intros H.
  - eauto.
  - apply andb_true_iff in H as [Hx Hl]. destruct (IH Hl) as [ds ->].
    destruct x; try discriminate. simpl. eauto.
Qed.

Lemma field_dict_list (d : dict) (k : string) :
  field_ok d k is_dict_list = true ->
  exists ds, as_dict_list (getd d k (JArray [])) = Some ds.
Proof.
  unfold field_ok, getd. destruct (dict_get d k) as [[]|]; simpl;
    try discriminate; eauto using as_list_dict_total.
Qed.

Lemma as_list_dict_inv (l : list json) :
  forall ds, as_list_dict l = Some ds -> map JObject ds = l.
Proof.
  induction l as [|x l IH]; simpl; intros ds H.
  - injection H as <-. reflexivity.
  - destruct (as_dict x) as [o|] eqn:Ex; [|discriminate].
    destruct (as_list_dict l) as [ds'|]; [|discriminate].
    injection H as <-. simpl. rewrite (IH ds' eq_refl).
    now rewrite (as_dict_inv _ _ Ex).
Qed.

Lemma as_dict_list_inv (v : json) (ds : list dict) :
  as_dict_list v = Some ds -> JArray (map JObject ds) = v.
Proof.
  destruct v; simpl; try discriminate. intros H.
  now rewrite (as_list_dict_inv _ _ H).
Qed.

Section TestResultRecord.
Context (L : Library).

Ltac use_field lem :=
  match goal with
  | H : field_ok _ _ _ = true |- _ =>
      let E := fresh "E" in
      destruct (lem _ _ H) as [? E]; rewrite E; clear H E; cbn [opt_bind]
  end.

Ltac step_validation V :=
  match type of V with
  | opt_bind ?c _ = Some _ =>
      let E := fresh "E" in
      destruct c eqn:E; [cbn [opt_bind] in V | discriminate V]
  end.

Lemma result_total (d : dict) :
  valid_result_payload d = true ->
  exists r, ZephyrTestResult.from_api_response L (JObject d) = Return r.
Proof.
  unfold valid_result_payload. rewrite !andb_true_iff. intros H.
  decompose [and] H; clear H.
  unfold ZephyrTestResult.from_api_response, EMPTY_STRING.
  cbn [py_get py_bind].
  unfold ZephyrTestResult.cls, ZephyrTestResult.validate.
  repeat first
    [ use_field field_str | use_field field_opt_str | use_field (field_opt_int L)
    | use_field field_dict_list | use_field field_dict ].
  eauto.
Qed.

Lemma result_stored (d : dict) (r : ZephyrTestResult.t) :
  valid_result_payload d = true ->
  ZephyrTestResult.from_api_response L (JObject d) = Return r ->
  of_opt_int (ZephyrTestResult.id r) = getd d "id" JNull
  /\ of_opt_str (ZephyrTestResult.executed_by r) = getd d "executedBy" JNull
  /\ JArray (map JObject (ZephyrTestResult.steps r)) = getd d "steps" (JArray [])
  /\ JArray (map JObject (ZephyrTestResult.attachments r))
     = getd d "attachments" (JArray []).
Proof.
  intros Hvalid.
  assert (Hid : or_null is_int (getd d "id" JNull) = true).
  { apply field_ok_getd; [|reflexivity].
    unfold valid_result_payload in Hvalid. rewrite !andb_true_iff in Hvalid.
    decompose [and] Hvalid. assumption. }
  unfold ZephyrTestResult.from_api_response, EMPTY_STRING.
  cbn [py_get py_bind]. unfold ZephyrTestResult.cls.
  destruct (ZephyrTestResult.validate _ _ _ _ _ _ _ _ _ _ _ _ _ _ _ _)
    as [r'|] eqn:V; [|discriminate].
  intros H; injection H as ->.
  unfold ZephyrTestResult.validate in V.
  repeat step_validation V.
  injection V as <-. cbn.
  repeat split; eauto using as_opt_int_inv, as_opt_str_inv, as_dict_list_inv.
Qed.

Lemma simplified_result (r : ZephyrTestResult.t) :
  dict_get (ZephyrTestResult.to_simplified_dict L r) "steps_count"
  = Some (JInt (Z.of_nat (length (ZephyrTestResult.steps r))))
  /\ dict_get (ZephyrTestResult.to_simplified_dict L r) "attachments_count"
     = Some (JInt (Z.of_nat (length (ZephyrTestResult.attachments r))))
  /\ dict_get (ZephyrTestResult.to_simplified_dict L r) "executed_by"
     = Some (of_opt_str (ZephyrTestResult.executed_by r))
  /\ dict_get (ZephyrTestResult.to_simplified_dict L r) "id"
     = (if is_not_None (of_opt_int (ZephyrTestResult.id r))
        then Some (of_opt_int (ZephyrTestResult.id r)) else None)
  /\ dict_get (ZephyrTestResult.to_simplified_dict L r) "steps"
     = (if truthy (JArray (map JObject (ZephyrTestResult.steps r)))
        then Some (JArray (map JObject (ZephyrTestResult.steps r))) else None)
  /\ dict_get (ZephyrTestResult.to_simplified_dict L r) "attachments"
     = (if truthy (JArray (map JObject (ZephyrTestResult.attachments r)))
        then Some (JArray (map JObject (ZephyrTestResult.attachments r)))
        else None).
Proof.
  unfold ZephyrTestResult.to_simplified_dict. cbv zeta.
  repeat split; rewrite !dict_get_when; cbn [String.eqb Ascii.eqb Bool.eqb];
    rewrite ?andb_false_r, ?andb_true_r; reflexivity.
Qed.

End TestResultRecord.

(** X19.  The simplified test result computes its counts: ["steps_count"]
    and ["attachments_count"] are the lengths of the payload's lists (0 when
    the payload has none), whether or not the lists themselves are included,
    which they are only when non-empty.  ["executed_by"] is always present,
    null when the payload has none; ["id"] is present only when the payload
    has one. *)
Theorem X19_simplified_result_counts (L : Library) (d : dict)
    (step_list attachment_list : list json) :
  valid_result_payload d = true ->
  getd d "steps" (JArray []) = JArray step_list ->
  getd d "attachments" (JArray []) = JArray attachment_list ->
  exists r,
    ZephyrTestResult.from_api_response L (JObject d) = Return r
    /\ dict_get (ZephyrTestResult.to_simplified_dict L r) "steps_count"
       = Some (JInt (Z.of_nat (length step_list)))
    /\ dict_get (ZephyrTestResult.to_simplified_dict L r) "attachments_count"
       = Some (JInt (Z.of_nat (length attachment_list)))
    /\ dict_get (ZephyrTestResult.to_simplified_dict L r) "steps"
       = (if truthy (JArray step_list) then Some (JArray step_list) else None)
    /\ dict_get (ZephyrTestResult.to_simplified_dict L r) "attachments"
       = (if truthy (JArray attachment_list) then Some (JArray attachment_list)
          else None)
    /\ dict_get (ZephyrTestResult.to_simplified_dict L r) "executed_by"
       = Some (getd d "executedBy" JNull)
    /\ dict_get (ZephyrTestResult.to_simplified_dict L r) "id"
       = (if is_not_None (getd d "id" JNull) then Some (getd d "id" JNull)
          else None).
Proof.
  intros Hvalid Hsteps Hattachments.
  destruct (result_total L d Hvalid) as [r Hr]. exists r. split; [exact Hr|].
  destruct (result_stored L d r Hvalid Hr) as (Hid & Hby & Hs & Ha).
  destruct (simplified_result L r) as (Cs & Ca & Cby & Cid & Cst & Cat).
  rewrite Cs, Ca, Cby, Cid, Cst, Cat, Hid, Hby, Hs, Ha, Hsteps, Hattachments.
  rewrite Hsteps in Hs. rewrite Hattachments in Ha.
  injection Hs as Hs. injection Ha as Ha.
  rewrite <- Hs at 1. rewrite <- Ha at 1. rewrite !length_map.
  repeat split.
Qed.

Lemma X19_simplified_result_counts_witness :
  exists r,
    ZephyrTestResult.from_api_response plain_library (JObject payload_result)
    = Return r
    /\ dict_get (ZephyrTestResult.to_simplified_dict plain_library r) "steps_count"
       = Some (JInt 1)
    /\ dict_get (ZephyrTestResult.to_simplified_dict plain_library r)
         "attachments_count" = Some (JInt 0)
    /\ dict_get (ZephyrTestResult.to_simplified_dict plain_library r) "attachments"
       = None
    /\ dict_get (ZephyrTestResult.to_simplified_dict plain_library r) "executed_by"
       = Some JNull.
Proof.
  destruct (X19_simplified_result_counts plain_library payload_result
              [JObject [("index", JInt 0); ("status", JString "Pass")]] []
              eq_refl eq_refl eq_refl)
    as (r & Hr & Hs & Ha & _ & Hat & Hby & _).
  exists r. repeat split; assumption.
Defined.

(** X20.  The two mixins each define [get_testcase_latest_result], over the
    same request, and they differ.  On a 404 the test-result mixin returns
    [None] and raises nothing, while the test-case mixin raises the not-found
    error ["Test case <key> not found or has no results"].  On a valid body
    the test-case mixin returns the decoded body as it is, the test-result
    mixin the record parsed from it. *)
Theorem X20_latest_result_in_the_two_mixins (L : Library) (self : Client)
    (test_case_key : string) (log : list Request) (r : Response) :
  ready self ->
  remote self log
    (sent self "GET" ("/testcase/" ++ test_case_key ++ "/testresult/latest") [] None)
  = Replies r ->
  (status_code r = 404 ->
   fst (ZephyrTestResultMixin.get_testcase_latest_result L self test_case_key log)
   = Return None
   /\ fst (ZephyrTestCaseMixin.get_testcase_latest_result L self test_case_key log)
      = Raise (mkExn MCPAtlassianNotFoundError
                 ("Test case " ++ test_case_key ++ " not found or has no results")))
  /\ (forall d,
      is_success (status_code r) = true ->
      content r = inr (JObject d) ->
      valid_result_payload d = true ->
      fst (ZephyrTestCaseMixin.get_testcase_latest_result L self test_case_key log)
      = Return (JObject d)
      /\ exists record,
           ZephyrTestResult.from_api_response L (JObject d) = Return record
           /\ fst (ZephyrTestResultMixin.get_testcase_latest_result L self
                     test_case_key log)
              = Return (Some record)).
Proof.
  intros Hready Hreply.
  unfold ZephyrTestResultMixin.get_testcase_latest_result,
    ZephyrTestCaseMixin.get_testcase_latest_result, try_except, bind.
  rewrite !(request_ready _ _ _ _ _ _ Hready), !Hreply.
  split.
  - intros H404. rewrite H404. split; reflexivity.
  - intros d Hok Hbody Hvalid. rewrite (success_not_404 _ Hok).
    unfold lift, ZephyrClient.raise_for_status, ZephyrClient.response_json.
    rewrite Hok, Hbody. split; [reflexivity|].
    destruct (result_total L d Hvalid) as [record Hrecord].
    exists record. split; [exact Hrecord|]. rewrite Hrecord. reflexivity.
Qed.

Lemma X20_latest_result_in_the_two_mixins_witness :
  fst (ZephyrTestResultMixin.get_testcase_latest_result plain_library
         (client_of (always (reply 404 JNull))) "JQA-T1" [])
  = Return None
  /\ fst (ZephyrTestCaseMixin.get_testcase_latest_result plain_library
            (client_of (always (reply 404 JNull))) "JQA-T1" [])
     = Raise (mkExn MCPAtlassianNotFoundError
                "Test case JQA-T1 not found or has no results").
Proof.
  refine (proj1 (X20_latest_result_in_the_two_mixins plain_library
            (client_of (always (reply 404 JNull))) "JQA-T1" []
            (mkResponse 404 (inr JNull)) _ _) _);
    [split; reflexivity | reflexivity | reflexivity].
Defined.

Lemma result_parse_each (L : Library) (items : list json) :
  map (@Return ZephyrTestResult.t) (ZephyrTestResultMixin.parse_each L items)
  = map (ZephyrTestResult.from_api_response L) (filter (result_parses L) items).
Proof.
  induction items as [|x items IH]; simpl; [reflexivity|].
  unfold result_parses at 1.
  destruct (ZephyrTestResult.from_api_response L x) as [tr|e] eqn:E; simpl.
  - now rewrite E, IH.
  - exact IH.
Qed.

(** X21.  The results of a run: a 404 raises the not-found error
    ["Test run <key> not found"]; an array answer gives the records of the
    elements that parse, in order, the others being skipped one by one, so
    that the list is as long as the array less its malformed elements (those
    from which building the record raises, conversions by the constructor
    included). *)
Theorem X21_run_results_skip_malformed_elements (L : Library) (self : Client)
    (test_run_key : string) (log : list Request) (r : Response) :
  ready self ->
  remote self log
    (sent self "GET" ("/testrun/" ++ test_run_key ++ "/testresults") [] None)
  = Replies r ->
  (status_code r = 404 ->
   fst (ZephyrTestResultMixin.get_testrun_results L self test_run_key log)
   = Raise (mkExn MCPAtlassianNotFoundError
              ("Test run " ++ test_run_key ++ " not found")))
  /\ (forall items,
      is_success (status_code r) = true ->
      content r = inr (JArray items) ->
      exists results,
        fst (ZephyrTestResultMixin.get_testrun_results L self test_run_key log)
        = Return results
        /\ map (@Return ZephyrTestResult.t) results
           = map (ZephyrTestResult.from_api_response L)
                 (filter (result_parses L) items)
        /\ (length results
            + length (filter (fun x => negb (result_parses L x)) items))%nat
           = length items).
Proof.
  intros Hready Hreply.
  unfold ZephyrTestResultMixin.get_testrun_results, try_except, bind.
  rewrite (request_ready _ _ _ _ _ _ Hready), Hreply.
  split.
  - intros H404. rewrite H404. reflexivity.
  - intros items Hok Hbody. rewrite (success_not_404 _ Hok).
    unfold lift, ZephyrClient.raise_for_status, ZephyrClient.response_json.
    rewrite Hok, Hbody. cbn.
    exists (ZephyrTestResultMixin.parse_each L items).
    split; [reflexivity|]. split; [apply result_parse_each|].
    rewrite <- (filter_split (result_parses L) items). f_equal.
    rewrite <- (length_map (@Return ZephyrTestResult.t)), result_parse_each.
    apply length_map.
Qed.

Lemma X21_run_results_skip_malformed_elements_witness :
  exists results,
    fst (ZephyrTestResultMixin.get_testrun_results plain_library
           (client_of (always (reply 200 (JArray run_results)))) "JQA-R1" [])
    = Return results
    /\ length results = 2%nat.
Proof.
  destruct (proj2 (X21_run_results_skip_malformed_elements plain_library
              (client_of (always (reply 200 (JArray run_results)))) "JQA-R1" []
              (mkResponse 200 (inr (JArray run_results)))
              (conj eq_refl eq_refl) eq_refl) run_results eq_refl eq_refl)
    as (results & Hrun & _ & Hlen).
  exists results. split; [exact Hrun|].
  change (length (filter (fun x => negb (result_parses plain_library x)) run_results))
    with 1%nat in Hlen.
  change (length run_results) with 3%nat in Hlen. lia.
Defined.

(** X22.  Creating and updating a result within a run send the same
    request but for the method, POST and PUT: one request to
    [/testrun/<run>/testcase/<case>/testresult], the caller's data as body,
    and ["environment"] and ["userKey"] as query parameters only when given
    and non-empty. *)
Theorem X22_run_scoped_result_requests (L : Library) (self : Client)
    (test_run_key test_case_key : string) (testresult_data : json)
    (environment user_key : option string) (log : list Request) :
  ready self ->
  snd (ZephyrTestResultMixin.create_testrun_result L self test_run_key
         test_case_key testresult_data environment user_key log)
  = (log ++ [sent self "POST" (run_result_url test_run_key test_case_key)
               (ZephyrTestResultMixin.run_params environment user_key)
               (Some testresult_data)])%list
  /\ snd (ZephyrTestResultMixin.update_testrun_result L self test_run_key
            test_case_key testresult_data environment user_key log)
     = (log ++ [sent self "PUT" (run_result_url test_run_key test_case_key)
                  (ZephyrTestResultMixin.run_params environment user_key)
                  (Some testresult_data)])%list
  /\ dict_get (ZephyrTestResultMixin.run_params environment user_key) "environment"
     = match environment with
       | Some e => if String.eqb e "" then None else Some (JString e)
       | None => None
       end
  /\ dict_get (ZephyrTestResultMixin.run_params environment user_key) "userKey"
     = match user_key with
       | Some u => if String.eqb u "" then None else Some (JString u)
       | None => None
       end.
Proof.
  intros Hready. split; [|split; [|split]].
  - unfold ZephyrTestResultMixin.create_testrun_result, try_except, bind.
    rewrite (request_ready _ _ _ _ _ _ Hready).
    fold (run_result_url test_run_key test_case_key).
    destruct (remote self log _) as [text|r]; [reflexivity|].
    unfold lift. destruct (ZephyrClient.raise_for_status L r); [|reflexivity].
    destruct (ZephyrClient.response_json r) as [body|]; [|reflexivity].
    destruct (py_get body "id" (JInt 0)); reflexivity.
  - unfold ZephyrTestResultMixin.update_testrun_result, try_except, bind.
    rewrite (request_ready _ _ _ _ _ _ Hready).
    fold (run_result_url test_run_key test_case_key).
    destruct (remote self log _) as [text|r]; [reflexivity|].
    unfold lift. destruct (ZephyrClient.raise_for_status L r); [|reflexivity].
    destruct (ZephyrClient.response_json r) as [body|]; [|reflexivity].
    destruct (py_get body "id" (JInt 0)); reflexivity.
  - unfold ZephyrTestResultMixin.run_params. cbv zeta.
    rewrite !set_if_truthy_get. cbn [String.eqb Ascii.eqb Bool.eqb dict_get].
    unfold str_truthy.
    destruct user_key as [u|], environment as [e|];
      rewrite ?andb_false_r, ?andb_true_r; try destruct (String.eqb e "");
      reflexivity.
  - unfold ZephyrTestResultMixin.run_params. cbv zeta.
    rewrite !set_if_truthy_get. cbn [String.eqb Ascii.eqb Bool.eqb dict_get].
    unfold str_truthy.
    destruct user_key as [u|], environment as [e|];
      rewrite ?andb_false_r, ?andb_true_r; try destruct (String.eqb u "");
      reflexivity.
Qed.

Lemma X22_run_scoped_result_requests_witness :
  snd (ZephyrTestResultMixin.update_testrun_result plain_library
         (client_of (always (reply 200 (JObject [("id", JInt 5)]))))
         "JQA-R1" "JQA-T7" (JObject [("status", JString "Pass")])
         (Some "Chrome") (Some "") [])
  = [ sent (client_of (always (reply 200 (JObject [("id", JInt 5)]))))
           "PUT" "/testrun/JQA-R1/testcase/JQA-T7/testresult"
           [("environment", JString "Chrome")]
           (Some (JObject [("status", JString "Pass")])) ].
Proof.
  refine (proj1 (proj2 (X22_run_scoped_result_requests plain_library
            (client_of (always (reply 200 (JObject [("id", JInt 5)]))))
            "JQA-R1" "JQA-T7" (JObject [("status", JString "Pass")])
            (Some "Chrome") (Some "") [] _))).
  split; reflexivity.
Defined.

(** ** Values the constructor converts

    Which elements parse is the constructor's business: the theorems above
    hold for every library.  With a constructor that converts strings of
    digits and booleans given for integer fields, the elements that carry
    them parse and are kept, converted. *)

Example search_keeps_converted_elements :
  fst (ZephyrTestCaseMixin.search_testcases converting_library
         (client_of (always (reply 200 (JArray results_with_digits))))
         None None 0 200 [])
  = Return
      [ ZephyrTestCase.mk "JQA-T1" "" "" "" "" None None (Some 15) None []
          None None None None [] [] "" "" None None;
        ZephyrTestCase.mk "JQA-T2" "" "" "" "" None None None None []
          None None None None [] [] "" "" None None ]
  /\ dict_get (fst (Servers.search_testcases converting_library
                      (client_of (always (reply 200 (JArray results_with_digits))))
                      None None 0 200 [])) "count"
     = Some (JInt 2).
Proof. split; reflexivity. Qed.

Example step_collection_keeps_converted_elements :
  ZephyrTestSteps.from_zephyr_response converting_library
    (JObject beans_with_digits) "JQA-T1" "10001"
  = Return (ZephyrTestSteps.mk "JQA-T1" "10001"
              [ TestStep.mk 1 "a" "" "" None; TestStep.mk 0 "d" "" "" (Some 7) ]).
Proof. reflexivity. Qed.

Example run_results_keep_converted_elements :
  fst (ZephyrTestResultMixin.get_testrun_results converting_library
         (client_of (always (reply 200 (JArray run_results_with_digits))))
         "JQA-R1" [])
  = Return [ ZephyrTestResult.mk (Some 43) "JQA-T7" "" "" None None None None
               None None [] [] [] "" "" ].
Proof. reflexivity. Qed.

Example script_step_with_converted_id :
  fst (ZephyrClient.get_test_steps converting_library
         (client_of (always (reply 200 (script_body
            [ ("type", JString "STEP_BY_STEP");
              ("steps", JArray [ JObject [ ("description", JString "Open");
                                           ("id", JString "11") ] ]) ]))))
         "JQA-T1" "10001" [])
  = Return (ZephyrTestSteps.mk "JQA-T1" "10001"
              [ TestStep.mk 1 "Open" "" "" (Some 11) ]).
Proof. reflexivity. Qed.
